(** * Symbolic hardware plugin (s2e/Plugins/SymbolicHardware.cpp)

    A shallow embedding of the device-descriptor subsystem: the ISA and PCI
    sub-builders, the descriptor factory, the descriptor dumps, the registry
    (a [std::set] of descriptor pointers ordered by id), the plugin start-up
    and the PCI part of the host bridge. *)

From Stdlib Require Import ZArith Lia Bool.
From Stdlib Require Import Strings.HexString.
From stdpp Require Import base option list gmap strings sorting.

Local Open Scope Z_scope.

(** ** Machine integers

    Conversion of an integer to an unsigned type of [w] bits keeps the value
    modulo [2^w]. *)

Definition to_unsigned (w : Z) (z : Z) : Z := z mod 2 ^ w.

Definition uint8_t : Z -> Z := to_unsigned 8.
Definition uint16_t : Z -> Z := to_unsigned 16.
Definition uint32_t : Z -> Z := to_unsigned 32.
Definition uint64_t : Z -> Z := to_unsigned 64.

(** [std::endl] *)
Definition endl : string := String (Ascii.ascii_of_nat 10) EmptyString.

(** [os << std::hex << n] for an unsigned [n]: lower-case digits, no prefix,
    no leading zero. *)
Definition hex (n : Z) : string :=
  match n with
  | Zpos p => HexString.Raw.of_pos p EmptyString
  | _ => "0"
  end.

(** ** The configuration collaborator *)

Module ConfigFile.

(** Modelled from the spec: s2e/ConfigFile.h is not among the sources.  The
    configuration is queried by dotted path through typed getters with a
    per-call success flag: string, integer (a signed 64-bit value; the
    callers narrow it), boolean, and the list of the keys under a section. *)
Inductive value :=
| Integer (z : Z)
| Str (s : string)
| Boolean (b : bool)
| Table (keys : list string).

Abbreviation t := (gmap string value).

Definition getString (cfg : t) (name def : string) : string * bool :=
  match cfg !! name with
  | Some (Str s) => (s, true)
  | _ => (def, false)
  end.

Definition getInt (cfg : t) (name : string) (def : Z) : Z * bool :=
  match cfg !! name with
  | Some (Integer z) => (z, true)
  | _ => (def, false)
  end.

Definition getBool (cfg : t) (name : string) (def : bool) : bool * bool :=
  match cfg !! name with
  | Some (Boolean b) => (b, true)
  | _ => (def, false)
  end.

Definition getListKeys (cfg : t) (name : string) : list string * bool :=
  match cfg !! name with
  | Some (Table keys) => (keys, true)
  | _ => ([], false)
  end.

End ConfigFile.

(** ** Results of the builders

    A builder returns a pointer to a new object or [NULL]; before returning
    [NULL] it may write a diagnostic to the warnings stream.  [assert(ok)]
    aborts the process. *)

Inductive created (A : Type) :=
| Built (a : A)
| Null (ws : string)
| AssertFailed.
Arguments Built {A} a.
Arguments Null {A} ws.
Arguments AssertFailed {A}.

Definition is_built {A} (r : created A) : bool :=
  match r with Built _ => true | _ => false end.

(** ** Resource value types *)

(** Modelled from the spec: the structures are declared in SymbolicHardware.h,
    which is not among the sources ([portBase] and [portSize] 16-bit, [irq]
    an 8-bit field holding 0..15; [size] 32-bit). *)
Record IsaResource := {
  portBase : Z;
  portSize : Z;
  irq : Z
}.

Record PciResource := {
  isIo : bool;
  prefetchable : bool;
  size : Z
}.

(** ** The ISA descriptor *)

Module IsaDeviceDescriptor.

(** [m_isaInfo] points into the host's object store; [None] is [NULL]. *)
Record t := {
  m_id : string;
  m_isaResource : IsaResource;
  m_isaInfo : option nat
}.

(** [IsaDeviceDescriptor(id, res)] *)
Definition new (id : string) (res : IsaResource) : t :=
  {| m_id := id; m_isaResource := res; m_isaInfo := None |}.

Definition create (cfg : ConfigFile.t) (key : string) : created t :=
  let '(id, ok) := ConfigFile.getString cfg (key +:+ ".id") EmptyString in
  if negb ok then AssertFailed else
  let '(v, ok) := ConfigFile.getInt cfg (key +:+ ".start") 0 in
  let start := uint64_t v in
  if negb ok || (0xFFFF <? start) then
    Null ("The base address of an ISA device must be between 0x0 and 0xffff." +:+ endl)
  else
  let '(v, ok) := ConfigFile.getInt cfg (key +:+ ".size") 0 in
  let size := uint16_t v in
  if negb ok then Null EmptyString else
  if 0x10000 <? uint64_t (start + size) then
    Null ("An ISA address range must not exceed 0xffff." +:+ endl)
  else
  let '(v, ok) := ConfigFile.getInt cfg (key +:+ ".irq") 0 in
  let irq := uint8_t v in
  if negb ok || (15 <? irq) then
    Null ("You must specify an IRQ between 0 and 15 for the ISA device." +:+ endl)
  else
  let r := {| portBase := uint16_t start; portSize := size; irq := irq |} in
  Built (new id r).

Definition print (d : t) : string :=
  "ISA Device Descriptor id=" +:+ m_id d +:+ endl +:+
  "Base=0x" +:+ hex (portBase (m_isaResource d)) +:+
  " Size=0x" +:+ hex (portSize (m_isaResource d)) +:+ endl +:+
  endl.

End IsaDeviceDescriptor.

(** ** The PCI descriptor *)

Module PciDeviceDescriptor.

(** The pointer members point into the host's object store; [None] is
    [NULL].  The constructor leaves [m_vmStateFields] and [mmio_io_addr]
    unset; [None] stands for the indeterminate value there. *)
Record t := {
  m_id : string;
  m_vid : Z;
  m_pid : Z;
  m_classCode : Z;
  m_revisionId : Z;
  m_interruptPin : Z;
  m_resources : list PciResource;
  m_pciInfo : option nat;
  m_pciInfoProperties : option nat;
  m_vmState : option nat;
  m_vmStateFields : option nat;
  mmio_io_addr : option Z
}.

(** [PciDeviceDescriptor(id)] followed by the assignments of [create]. *)
Definition new (id : string) (vid pid classCode revisionId interruptPin : Z)
    (resources : list PciResource) : t :=
  {| m_id := id; m_vid := vid; m_pid := pid; m_classCode := classCode;
     m_revisionId := revisionId; m_interruptPin := interruptPin;
     m_resources := resources;
     m_pciInfo := None; m_pciInfoProperties := None; m_vmState := None;
     m_vmStateFields := None; mmio_io_addr := None |}.

(** The body of the loop over [resKeys]: one resource sub-section. *)
Definition read_resource (cfg : ConfigFile.t) (key it : string) : created PciResource :=
  let ss := key +:+ ".resources." +:+ it in
  let '(isIo, ok) := ConfigFile.getBool cfg (ss +:+ ".isIo") false in
  if negb ok then
    Null ("You must specify whether the resource " +:+ ss +:+ " is IO or MMIO!" +:+ endl)
  else
  let '(isPrefetchable, ok) := ConfigFile.getBool cfg (ss +:+ ".isPrefetchable") false in
  if negb ok && negb isIo then
    Null ("You must specify whether the resource " +:+ ss +:+ " is prefetchable!" +:+ endl)
  else
  let '(v, ok) := ConfigFile.getInt cfg (ss +:+ ".size") 0 in
  let size := uint32_t v in
  if negb ok then
    Null ("You must specify a size for the resource " +:+ ss +:+ "!" +:+ endl)
  else
  Built {| isIo := isIo; prefetchable := isPrefetchable; size := size |}.

(** The loop: [resources] is the vector built so far. *)
Fixpoint read_resources (cfg : ConfigFile.t) (key : string) (resKeys : list string)
    (resources : list PciResource) : created (list PciResource) :=
  match resKeys with
  | [] => Built resources
  | it :: rest =>
      match read_resource cfg key it with
      | Built res => read_resources cfg key rest (resources ++ [res])
      | Null ws => Null ws
      | AssertFailed => AssertFailed
      end
  end.

Definition create (cfg : ConfigFile.t) (key : string) : created t :=
  let '(id, ok) := ConfigFile.getString cfg (key +:+ ".id") EmptyString in
  if negb ok then AssertFailed else
  let '(v, ok) := ConfigFile.getInt cfg (key +:+ ".vid") 0 in
  let vid := uint16_t v in
  if negb ok then
    Null ("You must specifiy a vendor id for a symbolic PCI device!" +:+ endl)
  else
  let '(v, ok) := ConfigFile.getInt cfg (key +:+ ".pid") 0 in
  let pid := uint16_t v in
  if negb ok then
    Null ("You must specifiy a product id for a symbolic PCI device!" +:+ endl)
  else
  let '(v, ok) := ConfigFile.getInt cfg (key +:+ ".classCode") 0 in
  let classCode := uint32_t v in
  if negb ok || (0xffffff <? classCode) then
    Null ("You must specifiy a valid class code for a symbolic PCI device!" +:+ endl)
  else
  let '(v, ok) := ConfigFile.getInt cfg (key +:+ ".revisionId") 0 in
  let revisionId := uint8_t v in
  if negb ok then
    Null ("You must specifiy a revision id for a symbolic PCI device!" +:+ endl)
  else
  let '(v, ok) := ConfigFile.getInt cfg (key +:+ ".interruptPin") 0 in
  let interruptPin := uint8_t v in
  if negb ok || (4 <? interruptPin) then
    Null ("You must specifiy an interrupt pin (1-4, 0 for none) for " +:+ key +:+ "!" +:+ endl)
  else
  let '(resKeys, ok) := ConfigFile.getListKeys cfg (key +:+ ".resources") in
  if negb ok || bool_decide (resKeys = []) then
    Null ("You must specifiy at least one resource descriptor for a symbolic PCI device!" +:+ endl)
  else
  match read_resources cfg key resKeys [] with
  | Null ws => Null ws
  | AssertFailed => AssertFailed
  | Built resources =>
      if (6 <? length resources)%nat then
        Null ("A PCI device can have at most 6 resource descriptors!" +:+ endl)
      else
      Built (new id vid pid classCode revisionId interruptPin resources)
  end.

(** [(int)b] written to the stream. *)
Definition of_bool (b : bool) : Z := if b then 1 else 0.

(** The loop of [print]: [i] is never advanced by the loop body. *)
Fixpoint print_resources (i : Z) (resources : list PciResource) : string :=
  match resources with
  | [] => EmptyString
  | res :: rest =>
      "R[" +:+ hex i +:+ "]: " +:+
      "Size=0x" +:+ hex (size res) +:+ " IsIO=" +:+ hex (of_bool (isIo res)) +:+
      " IsPrefetchable=0x" +:+ hex (of_bool (prefetchable res)) +:+ endl +:+
      print_resources i rest
  end.

Definition print (d : t) : string :=
  "PCI Device Descriptor id=" +:+ m_id d +:+ endl +:+
  "VID=0x" +:+ hex (m_vid d) +:+
  " PID=0x" +:+ hex (m_pid d) +:+
  " RevID=0x" +:+ hex (m_revisionId d) +:+ endl +:+
  "Class=0x" +:+ hex (m_classCode d) +:+
  " INT=0x" +:+ hex (m_interruptPin d) +:+ endl +:+
  print_resources 0 (m_resources d) +:+
  endl.

End PciDeviceDescriptor.

(** ** The descriptor hierarchy and the factory *)

Module DeviceDescriptor.

(** The base class is concrete: [findDevice] builds one as a search key. *)
Inductive t :=
| Base (m_id : string)
| Isa (d : IsaDeviceDescriptor.t)
| Pci (d : PciDeviceDescriptor.t).

Definition getId (dd : t) : string :=
  match dd with
  | Base id => id
  | Isa d => IsaDeviceDescriptor.m_id d
  | Pci d => PciDeviceDescriptor.m_id d
  end.

(** Upcast of a builder's result to [DeviceDescriptor*]. *)
Definition upcast {A} (f : A -> t) (r : created A) : created t :=
  match r with
  | Built a => Built (f a)
  | Null ws => Null ws
  | AssertFailed => AssertFailed
  end.

Definition create (cfg : ConfigFile.t) (key : string) : created t :=
  let '(id, ok) := ConfigFile.getString cfg (key +:+ ".id") EmptyString in
  if negb ok || bool_decide (id = EmptyString) then
    Null ("You must specifiy an id for " +:+ key +:+ ". " +:+
          "This is required by QEMU for saving/restoring snapshots." +:+ endl)
  else
  let '(devType, ok) := ConfigFile.getString cfg (key +:+ ".type") EmptyString in
  if negb ok || (negb (bool_decide (devType = "pci")) && negb (bool_decide (devType = "isa"))) then
    Null ("You must define either an ISA or PCI device!" +:+ endl)
  else
  if bool_decide (devType = "isa") then
    upcast Isa (IsaDeviceDescriptor.create cfg key)
  else if bool_decide (devType = "pci") then
    upcast Pci (PciDeviceDescriptor.create cfg key)
  else Null EmptyString.

(** The virtual [print]; the base class prints nothing. *)
Definition print (dd : t) : string :=
  match dd with
  | Base _ => EmptyString
  | Isa d => IsaDeviceDescriptor.print d
  | Pci d => PciDeviceDescriptor.print d
  end.

End DeviceDescriptor.

(** ** The registry: [std::set<DeviceDescriptor*, DeviceDescriptor::comparator>]

    Descriptor objects live in a store ([new] appends, the pointer is the
    index); the set holds pointers, kept in the order of the comparator. *)

Module DeviceDescriptors.

Section std_set.

(** The memory the pointers are dereferenced in. *)
Context (objects : list DeviceDescriptor.t).

Definition deref (dd : nat) : DeviceDescriptor.t :=
  default (DeviceDescriptor.Base EmptyString) (objects !! dd).

(** Modelled from the spec: the comparator is declared in
    SymbolicHardware.h, which is not among the sources; comparison and
    equality are defined solely on the id
    ([dd1->getId() < dd2->getId()]). *)
Definition comparator (dd1 dd2 : nat) : bool :=
  String.ltb (DeviceDescriptor.getId (deref dd1)) (DeviceDescriptor.getId (deref dd2)).

(** First position whose element is not less than [k]. *)
Fixpoint lower_bound (l : list nat) (k : nat) : list nat :=
  match l with
  | [] => []
  | x :: l' => if comparator x k then lower_bound l' k else l
  end.

(** [find(k)]: the element equivalent to [k], or [end()]. *)
Definition find (l : list nat) (k : nat) : option nat :=
  match lower_bound l k with
  | x :: _ => if comparator k x then None else Some x
  | [] => None
  end.

(** [insert(x)]: unique insertion; an equivalent element blocks it. *)
Fixpoint insert (x : nat) (l : list nat) : list nat :=
  match l with
  | [] => [x]
  | y :: l' =>
      if comparator y x then y :: insert x l'
      else if comparator x y then x :: y :: l'
      else y :: l'
  end.

End std_set.

End DeviceDescriptors.

(** ** The plugin *)

Module SymbolicHardware.

Record t := {
  objects : list DeviceDescriptor.t;
  m_devices : list nat;
  messagesStream : string;
  warningsStream : string;
  (** the slots connected to [onDeviceRegistration] *)
  connected : nat
}.

(** A freshly constructed plugin in a process that wrote nothing yet. *)
Definition fresh : t :=
  {| objects := []; m_devices := []; messagesStream := EmptyString;
     warningsStream := EmptyString; connected := 0%nat |}.

Definition write_messages (text : string) (s : t) : t :=
  {| objects := objects s; m_devices := m_devices s;
     messagesStream := messagesStream s +:+ text;
     warningsStream := warningsStream s; connected := connected s |}.

Definition write_warnings (text : string) (s : t) : t :=
  {| objects := objects s; m_devices := m_devices s;
     messagesStream := messagesStream s;
     warningsStream := warningsStream s +:+ text; connected := connected s |}.

(** [new]: the object is placed at the end of the store. *)
Definition alloc (d : DeviceDescriptor.t) (s : t) : nat * t :=
  (length (objects s),
   {| objects := objects s ++ [d]; m_devices := m_devices s;
      messagesStream := messagesStream s;
      warningsStream := warningsStream s; connected := connected s |}).

Definition devices_insert (dd : nat) (s : t) : t :=
  {| objects := objects s;
     m_devices := DeviceDescriptors.insert (objects s) dd (m_devices s);
     messagesStream := messagesStream s;
     warningsStream := warningsStream s; connected := connected s |}.

Definition connect (s : t) : t :=
  {| objects := objects s; m_devices := m_devices s;
     messagesStream := messagesStream s;
     warningsStream := warningsStream s; connected := S (connected s) |}.

(** How [initialize] ends: it returns, or the process is gone. *)
Inductive outcome :=
| Returned (s : t)
| Exited (status : Z) (s : t)
| Aborted (s : t).

(** The loop over [keys]. *)
Fixpoint initialize_loop (cfg : ConfigFile.t) (configKey : string)
    (keys : list string) (s : t) : outcome :=
  match keys with
  | [] => Returned s
  | it :: rest =>
      let ss := configKey +:+ "." +:+ it in
      match DeviceDescriptor.create cfg ss with
      | AssertFailed => Aborted s
      | Null ws =>
          let s := write_warnings ws s in
          let s := write_warnings
                     ("Failed to create a symbolic device for " +:+ ss +:+ endl) s in
          Exited (-1) s
      | Built d =>
          let '(dd, s) := alloc d s in
          let s := write_messages (DeviceDescriptor.print d) s in
          let s := devices_insert dd s in
          initialize_loop cfg configKey rest s
      end
  end.

(** [configKey] is the result of [getConfigKey()]. *)
Definition initialize (cfg : ConfigFile.t) (configKey : string) (s : t) : outcome :=
  let s := write_messages ("======= Initializing Symbolic Hardware =======" +:+ endl) s in
  let '(keys, ok) := ConfigFile.getListKeys cfg configKey in
  if negb ok || bool_decide (keys = []) then
    Returned (write_warnings
                ("No symbolic device descriptor specified in " +:+ configKey +:+ "." +:+
                 " S2E will start without symbolic hardware." +:+ endl) s)
  else
  match initialize_loop cfg configKey keys s with
  | Returned s => Returned (connect s)
  | o => o
  end.

(** The search key [dd(name)] is a temporary next to the stored objects. *)
Definition findDevice (s : t) (name : string) : option nat :=
  let dd := length (objects s) in
  let memory := objects s ++ [DeviceDescriptor.Base name] in
  DeviceDescriptors.find memory (m_devices s) dd.

End SymbolicHardware.

(** ** The host device model *)

Module Host.

(** Modelled from the spec: hw/hw.h, hw/pci.h and hw/isa.h are not among the
    sources.  A device type is registered with a type name, an
    instance-state size, an init entry point and optionally an uninit entry
    point and a save/restore schema; a BAR is registered with an index, a
    size, type flags and a mapping callback.  Functions are bound by
    pointer. *)
Inductive function :=
| addr_pci_symbhw_init
| addr_pci_symbhw_uninit
| addr_isa_symbhw_init
| addr_pci_symbhw_map.

Record DeviceInfo := {
  name : string;
  size : Z;
  vmsd : option nat;
  props : option nat
}.

Record PCIDeviceInfo := {
  qdev : DeviceInfo;
  init : option function;
  exit : option function
}.

Record VMStateDescription := {
  vm_name : string;
  version_id : Z;
  minimum_version_id : Z;
  minimum_version_id_old : Z;
  fields : option nat
}.

(** The members of a [VMStateField] the plugin assigns; [field_vmsd] is
    true for [&vmstate_pci_device]. *)
Record VMStateField := {
  field_name : string;
  field_size : Z;
  field_vmsd : bool;
  field_flags : Z;
  field_offset : Z
}.

(** The objects the descriptors allocate for the host.  An array element
    [None] has not been given a value. *)
Inductive object :=
| ObjPCIDeviceInfo (i : PCIDeviceInfo)
| ObjProperty (zeroed : list bool)
| ObjVMStateDescription (v : VMStateDescription)
| ObjVMStateField (a : list (option VMStateField)).

(** Value-initialisation, [new T()]. *)
Definition zero_PCIDeviceInfo : PCIDeviceInfo :=
  {| qdev := {| name := EmptyString; size := 0; vmsd := None; props := None |};
     init := None; exit := None |}.

Definition zero_VMStateDescription : VMStateDescription :=
  {| vm_name := EmptyString; version_id := 0; minimum_version_id := 0;
     minimum_version_id_old := 0; fields := None |}.

(** Sizes, offsets and flag values of the host's headers. *)
Record abi := {
  sizeof_SymbolicPciDeviceState : Z;
  sizeof_PCIDevice : Z;
  offset_dev : Z;
  VMS_STRUCT : Z
}.

Record t := {
  heap : list object;
  (** the arguments of the calls of [pci_qdev_register], in order *)
  pci_qdev_registered : list nat
}.

Definition alloc (o : object) (h : t) : nat * t :=
  (length (heap h),
   {| heap := heap h ++ [o]; pci_qdev_registered := pci_qdev_registered h |}).

Definition store (p : option nat) (f : object -> object) (h : t) : t :=
  match p with
  | Some a => {| heap := alter f a (heap h);
                 pci_qdev_registered := pci_qdev_registered h |}
  | None => h
  end.

Definition pci_qdev_register (info : option nat) (h : t) : t :=
  match info with
  | Some a => {| heap := heap h;
                 pci_qdev_registered := pci_qdev_registered h ++ [a] |}
  | None => h
  end.

(** Stores through [PCIDeviceInfo*] and [VMStateDescription*]. *)
Definition on_info (f : PCIDeviceInfo -> PCIDeviceInfo) (o : object) : object :=
  match o with ObjPCIDeviceInfo i => ObjPCIDeviceInfo (f i) | _ => o end.

Definition on_qdev (f : DeviceInfo -> DeviceInfo) : object -> object :=
  on_info (fun i => {| qdev := f (qdev i); init := init i; exit := exit i |}).

Definition on_vmstate (f : VMStateDescription -> VMStateDescription) (o : object) : object :=
  match o with ObjVMStateDescription v => ObjVMStateDescription (f v) | _ => o end.

Definition set_name (x : string) (q : DeviceInfo) : DeviceInfo :=
  {| name := x; size := size q; vmsd := vmsd q; props := props q |}.
Definition set_size (x : Z) (q : DeviceInfo) : DeviceInfo :=
  {| name := name q; size := x; vmsd := vmsd q; props := props q |}.
Definition set_vmsd (x : option nat) (q : DeviceInfo) : DeviceInfo :=
  {| name := name q; size := size q; vmsd := x; props := props q |}.
Definition set_props (x : option nat) (q : DeviceInfo) : DeviceInfo :=
  {| name := name q; size := size q; vmsd := vmsd q; props := x |}.
Definition set_init (x : function) (i : PCIDeviceInfo) : PCIDeviceInfo :=
  {| qdev := qdev i; init := Some x; exit := exit i |}.
Definition set_exit (x : function) (i : PCIDeviceInfo) : PCIDeviceInfo :=
  {| qdev := qdev i; init := init i; exit := Some x |}.
Definition set_vm_name (x : string) (v : VMStateDescription) : VMStateDescription :=
  {| vm_name := x; version_id := version_id v;
     minimum_version_id := minimum_version_id v;
     minimum_version_id_old := minimum_version_id_old v; fields := fields v |}.
Definition set_version_id (x : Z) (v : VMStateDescription) : VMStateDescription :=
  {| vm_name := vm_name v; version_id := x;
     minimum_version_id := minimum_version_id v;
     minimum_version_id_old := minimum_version_id_old v; fields := fields v |}.
Definition set_minimum_version_id (x : Z) (v : VMStateDescription) : VMStateDescription :=
  {| vm_name := vm_name v; version_id := version_id v;
     minimum_version_id := x;
     minimum_version_id_old := minimum_version_id_old v; fields := fields v |}.
Definition set_minimum_version_id_old (x : Z) (v : VMStateDescription) : VMStateDescription :=
  {| vm_name := vm_name v; version_id := version_id v;
     minimum_version_id := minimum_version_id v;
     minimum_version_id_old := x; fields := fields v |}.

(** *** A PCI device instance *)

Record PCIIORegion := {
  region_num : nat;
  region_size : Z;
  region_type : Z;
  map_func : function
}.

Record PCIDevice := {
  dev_name : string;
  (** the configuration space, one byte per element *)
  config : list Z;
  (** the arguments of the calls of [pci_register_bar], in order *)
  io_regions : list PCIIORegion;
  (** the tables given to [cpu_register_io_memory], by handle *)
  io_memory : list Z
}.

Definition PCI_VENDOR_ID : nat := 0x00.
Definition PCI_DEVICE_ID : nat := 0x02.
Definition PCI_REVISION_ID : nat := 0x08.
Definition PCI_CLASS_DEVICE : nat := 0x0a.
Definition PCI_HEADER_TYPE : nat := 0x0e.
Definition PCI_HEADER_TYPE_NORMAL : Z := 0.
Definition PCI_BASE_ADDRESS_SPACE_IO : Z := 0x01.
Definition PCI_BASE_ADDRESS_SPACE_MEMORY : Z := 0x00.
Definition PCI_BASE_ADDRESS_MEM_PREFETCH : Z := 0x08.

(** [pci_set_word]: a 16-bit little-endian store. *)
Definition pci_set_word (pci_conf : list Z) (off : nat) (val : Z) : list Z :=
  <[S off := Z.land (Z.shiftr val 8) 0xff]> (<[off := Z.land val 0xff]> pci_conf).

Definition pci_config_set_vendor_id (pci_conf : list Z) (val : Z) : list Z :=
  pci_set_word pci_conf PCI_VENDOR_ID (uint16_t val).
Definition pci_config_set_device_id (pci_conf : list Z) (val : Z) : list Z :=
  pci_set_word pci_conf PCI_DEVICE_ID (uint16_t val).
Definition pci_config_set_class (pci_conf : list Z) (val : Z) : list Z :=
  pci_set_word pci_conf PCI_CLASS_DEVICE (uint16_t val).

Definition set_config (c : list Z) (dev : PCIDevice) : PCIDevice :=
  {| dev_name := dev_name dev; config := c; io_regions := io_regions dev;
     io_memory := io_memory dev |}.

Definition pci_register_bar (dev : PCIDevice) (region_num : nat) (size : Z)
    (type : Z) (map_func : function) : PCIDevice :=
  {| dev_name := dev_name dev; config := config dev;
     io_regions := io_regions dev ++
       [{| region_num := region_num; region_size := size;
           region_type := type; map_func := map_func |}];
     io_memory := io_memory dev |}.

(** [io_index] is the handle the host returns. *)
Definition cpu_register_io_memory (io_index : Z) (dev : PCIDevice) : Z * PCIDevice :=
  (io_index,
   {| dev_name := dev_name dev; config := config dev;
      io_regions := io_regions dev; io_memory := io_memory dev ++ [io_index] |}).

End Host.

(** ** Registration of the PCI device type *)

Module PciQemuDevice.

Import PciDeviceDescriptor.

Definition set_m_pciInfo (x : option nat) (d : t) : t :=
  {| m_id := m_id d; m_vid := m_vid d; m_pid := m_pid d; m_classCode := m_classCode d;
     m_revisionId := m_revisionId d; m_interruptPin := m_interruptPin d;
     m_resources := m_resources d;
     m_pciInfo := x; m_pciInfoProperties := m_pciInfoProperties d;
     m_vmState := m_vmState d; m_vmStateFields := m_vmStateFields d;
     mmio_io_addr := mmio_io_addr d |}.
Definition set_m_pciInfoProperties (x : option nat) (d : t) : t :=
  {| m_id := m_id d; m_vid := m_vid d; m_pid := m_pid d; m_classCode := m_classCode d;
     m_revisionId := m_revisionId d; m_interruptPin := m_interruptPin d;
     m_resources := m_resources d;
     m_pciInfo := m_pciInfo d; m_pciInfoProperties := x;
     m_vmState := m_vmState d; m_vmStateFields := m_vmStateFields d;
     mmio_io_addr := mmio_io_addr d |}.
Definition set_m_vmState (x : option nat) (d : t) : t :=
  {| m_id := m_id d; m_vid := m_vid d; m_pid := m_pid d; m_classCode := m_classCode d;
     m_revisionId := m_revisionId d; m_interruptPin := m_interruptPin d;
     m_resources := m_resources d;
     m_pciInfo := m_pciInfo d; m_pciInfoProperties := m_pciInfoProperties d;
     m_vmState := x; m_vmStateFields := m_vmStateFields d;
     mmio_io_addr := mmio_io_addr d |}.
Definition set_m_vmStateFields (x : option nat) (d : t) : t :=
  {| m_id := m_id d; m_vid := m_vid d; m_pid := m_pid d; m_classCode := m_classCode d;
     m_revisionId := m_revisionId d; m_interruptPin := m_interruptPin d;
     m_resources := m_resources d;
     m_pciInfo := m_pciInfo d; m_pciInfoProperties := m_pciInfoProperties d;
     m_vmState := m_vmState d; m_vmStateFields := x;
     mmio_io_addr := mmio_io_addr d |}.
Definition set_mmio_io_addr (x : Z) (d : t) : t :=
  {| m_id := m_id d; m_vid := m_vid d; m_pid := m_pid d; m_classCode := m_classCode d;
     m_revisionId := m_revisionId d; m_interruptPin := m_interruptPin d;
     m_resources := m_resources d;
     m_pciInfo := m_pciInfo d; m_pciInfoProperties := m_pciInfoProperties d;
     m_vmState := m_vmState d; m_vmStateFields := m_vmStateFields d;
     mmio_io_addr := Some x |}.

(** [m_vmStateFields[0]] after its five assignments. *)
Definition dev_field (a : Host.abi) : Host.VMStateField :=
  {| Host.field_name := "dev";
     Host.field_size := Host.sizeof_PCIDevice a;
     Host.field_vmsd := true;
     Host.field_flags := Host.VMS_STRUCT a;
     Host.field_offset := Host.offset_dev a |}.

(** [PciDeviceDescriptor::initializeQemuDevice], statement by statement:
    [this] is [d], the host's memory is [h]. *)
Definition initializeQemuDevice (a : Host.abi) (d : t) (h : Host.t) : t * Host.t :=
  let '(p, h) := Host.alloc (Host.ObjPCIDeviceInfo Host.zero_PCIDeviceInfo) h in
  let d := set_m_pciInfo (Some p) d in
  let h := Host.store (m_pciInfo d) (Host.on_qdev (Host.set_name (m_id d))) h in
  let h := Host.store (m_pciInfo d)
             (Host.on_qdev (Host.set_size (Host.sizeof_SymbolicPciDeviceState a))) h in
  let h := Host.store (m_pciInfo d) (Host.on_qdev (Host.set_vmsd (m_vmState d))) h in
  let h := Host.store (m_pciInfo d) (Host.on_info (Host.set_init Host.addr_pci_symbhw_init)) h in
  let h := Host.store (m_pciInfo d) (Host.on_info (Host.set_exit Host.addr_pci_symbhw_uninit)) h in
  let '(p, h) := Host.alloc (Host.ObjProperty [true]) h in
  let d := set_m_pciInfoProperties (Some p) d in
  let h := Host.store (m_pciInfo d) (Host.on_qdev (Host.set_props (m_pciInfoProperties d))) h in
  let '(p, h) := Host.alloc (Host.ObjVMStateDescription Host.zero_VMStateDescription) h in
  let d := set_m_vmState (Some p) d in
  let h := Host.store (m_vmState d) (Host.on_vmstate (Host.set_vm_name (m_id d))) h in
  let h := Host.store (m_vmState d) (Host.on_vmstate (Host.set_version_id 3)) h in
  let h := Host.store (m_vmState d) (Host.on_vmstate (Host.set_minimum_version_id 3)) h in
  let h := Host.store (m_vmState d) (Host.on_vmstate (Host.set_minimum_version_id_old 3)) h in
  let '(p, h) := Host.alloc (Host.ObjVMStateField [None; None]) h in
  let d := set_m_vmStateFields (Some p) d in
  let h := Host.store (m_vmStateFields d)
             (fun _ => Host.ObjVMStateField [Some (dev_field a); None]) h in
  let h := Host.pci_qdev_register (m_pciInfo d) h in
  (d, h).

End PciQemuDevice.

(** ** The PCI init entry point of the bridge *)

Module Bridge.

Record SymbolicPciDeviceState := {
  dev : Host.PCIDevice;
  desc : option nat
}.

(** How an entry point ends: it returns its status, an assertion fails, or
    the descriptor found is not a PCI descriptor. *)
Inductive result :=
| Done (status : Z) (s : SymbolicHardware.t) (d : SymbolicPciDeviceState)
| AssertFailed
| Undefined.

(** The loop over [resources]; [i] counts the iterations. *)
Fixpoint register_bars (dev : Host.PCIDevice) (i : nat)
    (resources : list PciResource) : Host.PCIDevice :=
  match resources with
  | [] => dev
  | res :: rest =>
      let type := 0 in
      let type := Z.lor type (if isIo res then Host.PCI_BASE_ADDRESS_SPACE_IO
                              else Host.PCI_BASE_ADDRESS_SPACE_MEMORY) in
      let type := Z.lor type (if prefetchable res then Host.PCI_BASE_ADDRESS_MEM_PREFETCH
                              else 0) in
      let dev := Host.pci_register_bar dev i (size res) type Host.addr_pci_symbhw_map in
      register_bars dev (S i) rest
  end.

Definition set_object (dd : nat) (o : DeviceDescriptor.t) (s : SymbolicHardware.t)
    : SymbolicHardware.t :=
  {| SymbolicHardware.objects := <[dd := o]> (SymbolicHardware.objects s);
     SymbolicHardware.m_devices := SymbolicHardware.m_devices s;
     SymbolicHardware.messagesStream := SymbolicHardware.messagesStream s;
     SymbolicHardware.warningsStream := SymbolicHardware.warningsStream s;
     SymbolicHardware.connected := SymbolicHardware.connected s |}.

(** [hw] is the plugin, [d] the instance the host created, [io_index] the
    handle the host will return from [cpu_register_io_memory]. *)
Definition pci_symbhw_init (io_index : Z) (hw : SymbolicHardware.t)
    (d : SymbolicPciDeviceState) : result :=
  match SymbolicHardware.findDevice hw (Host.dev_name (dev d)) with
  | None => AssertFailed
  | Some p =>
      match SymbolicHardware.objects hw !! p with
      | Some (DeviceDescriptor.Pci dd) =>
          let pci_dev := dev d in
          let pci_conf := Host.config pci_dev in
          let pci_conf := Host.pci_config_set_vendor_id pci_conf (PciDeviceDescriptor.m_vid dd) in
          let pci_conf := Host.pci_config_set_device_id pci_conf (PciDeviceDescriptor.m_pid dd) in
          let pci_conf := Host.pci_config_set_class pci_conf (PciDeviceDescriptor.m_classCode dd) in
          let pci_conf := <[Host.PCI_HEADER_TYPE := Host.PCI_HEADER_TYPE_NORMAL]> pci_conf in
          let pci_conf := <[0x3d%nat := uint8_t (PciDeviceDescriptor.m_interruptPin dd)]> pci_conf in
          let pci_dev := Host.set_config pci_conf pci_dev in
          let pci_dev := register_bars pci_dev 0 (PciDeviceDescriptor.m_resources dd) in
          let '(handle, pci_dev) := Host.cpu_register_io_memory io_index pci_dev in
          let dd := PciQemuDevice.set_mmio_io_addr handle dd in
          Done 0 (set_object p (DeviceDescriptor.Pci dd) hw)
               {| dev := pci_dev; desc := Some p |}
      | _ => Undefined
      end
  end.

End Bridge.

(** ** The trap stubs, the mapping callback, the ISA init entry point and
    the PCI uninit entry point *)

Module Traps.

(** The twelve stubs, bound by pointer. *)
Inductive handler :=
| addr_symbhw_write8 | addr_symbhw_write16 | addr_symbhw_write32
| addr_symbhw_read8 | addr_symbhw_read16 | addr_symbhw_read32
| addr_symbhw_mmio_writeb | addr_symbhw_mmio_writew | addr_symbhw_mmio_writel
| addr_symbhw_mmio_readb | addr_symbhw_mmio_readw | addr_symbhw_mmio_readl.

(** [__FUNCTION__] *)
Definition function_name (f : handler) : string :=
  match f with
  | addr_symbhw_write8 => "symbhw_write8"
  | addr_symbhw_write16 => "symbhw_write16"
  | addr_symbhw_write32 => "symbhw_write32"
  | addr_symbhw_read8 => "symbhw_read8"
  | addr_symbhw_read16 => "symbhw_read16"
  | addr_symbhw_read32 => "symbhw_read32"
  | addr_symbhw_mmio_writeb => "symbhw_mmio_writeb"
  | addr_symbhw_mmio_writew => "symbhw_mmio_writew"
  | addr_symbhw_mmio_writel => "symbhw_mmio_writel"
  | addr_symbhw_mmio_readb => "symbhw_mmio_readb"
  | addr_symbhw_mmio_readw => "symbhw_mmio_readw"
  | addr_symbhw_mmio_readl => "symbhw_mmio_readl"
  end.

(** The body shared by the six write stubs: the text written to the debug
    stream. *)
Definition write_stub (f : handler) (address data : Z) : string :=
  function_name f +:+ " 0x" +:+ hex address +:+ " 0x" +:+ hex data +:+ endl.

(** The body shared by the six read stubs: the value returned and the text
    written to the debug stream. *)
Definition read_stub (f : handler) (address : Z) : Z * string :=
  (0, function_name f +:+ " 0x" +:+ hex address +:+ endl).

(** The context pointer handed to the host with a handler: the instance
    state (PCI) or the descriptor (ISA). *)
Inductive opaque :=
| opaque_state
| opaque_descriptor (dd : nat).

(** Modelled from the spec: the host's registration calls (hw/hw.h and
    hw/isa.h are not among the sources) take an address range, an access
    width, a handler and a context pointer; they are recorded here as the
    calls made, with their arguments, in order. *)
Inductive host_call :=
| register_ioport_write (start length size : Z) (func : handler) (o : opaque)
| register_ioport_read (start length size : Z) (func : handler) (o : opaque)
| cpu_register_physical_memory (start_addr size phys_offset : Z)
| isa_init_irq (isairq : Z)
| cpu_unregister_io_memory (io_table_address : Z).

(** [s->desc->mmio_io_addr]: undefined when [desc] is [NULL], when it does
    not point to a PCI descriptor or when the member was never assigned. *)
Definition desc_mmio_io_addr (hw : SymbolicHardware.t)
    (s : Bridge.SymbolicPciDeviceState) : option Z :=
  match Bridge.desc s with
  | None => None
  | Some p =>
      match SymbolicHardware.objects hw !! p with
      | Some (DeviceDescriptor.Pci dd) => PciDeviceDescriptor.mmio_io_addr dd
      | _ => None
      end
  end.

(** [pci_symbhw_map]: the calls made to the host, or [None] where the
    behaviour is undefined. *)
Definition pci_symbhw_map (hw : SymbolicHardware.t) (s : Bridge.SymbolicPciDeviceState)
    (region_num : Z) (addr size type : Z) : option (list host_call) :=
  let io :=
    if negb (Z.land type Host.PCI_BASE_ADDRESS_SPACE_IO =? 0) then
      [register_ioport_write addr size 1 addr_symbhw_write8 opaque_state;
       register_ioport_read addr size 1 addr_symbhw_read8 opaque_state;
       register_ioport_write addr size 2 addr_symbhw_write16 opaque_state;
       register_ioport_read addr size 2 addr_symbhw_read16 opaque_state;
       register_ioport_write addr size 4 addr_symbhw_write32 opaque_state;
       register_ioport_read addr size 4 addr_symbhw_read32 opaque_state]
    else [] in
  if negb (Z.land type Host.PCI_BASE_ADDRESS_SPACE_MEMORY =? 0) then
    match desc_mmio_io_addr hw s with
    | Some a => Some (io ++ [cpu_register_physical_memory addr size a])
    | None => None
    end
  else Some io.



(** [pci_symbhw_uninit]: the status returned and the call made. *)
Definition pci_symbhw_uninit (hw : SymbolicHardware.t) (d : Bridge.SymbolicPciDeviceState)
    : option (Z * list host_call) :=
  match desc_mmio_io_addr hw d with
  | Some a => Some (0, [cpu_unregister_io_memory a])
  | None => None
  end.

End Traps.

(** ** Destruction *)

Module Teardown.

(** [~PciDeviceDescriptor]: the objects deleted, in order. *)
Definition PciDeviceDescriptor_destructor (d : PciDeviceDescriptor.t) : list nat :=
  match PciDeviceDescriptor.m_pciInfo d with Some p => [p] | None => [] end ++
  match PciDeviceDescriptor.m_pciInfoProperties d with Some p => [p] | None => [] end ++
  match PciDeviceDescriptor.m_vmState d with Some p => [p] | None => [] end.

(** [~SymbolicHardware]: the descriptors deleted, in the order of the set. *)
Definition SymbolicHardware_destructor (s : SymbolicHardware.t) : list nat :=
  SymbolicHardware.m_devices s.

End Teardown.

(** The six port handlers over one range, as both buses install them. *)
Definition port_handlers (addr size : Z) (o : Traps.opaque) : list Traps.host_call :=
  [Traps.register_ioport_write addr size 1 Traps.addr_symbhw_write8 o;
   Traps.register_ioport_read addr size 1 Traps.addr_symbhw_read8 o;
   Traps.register_ioport_write addr size 2 Traps.addr_symbhw_write16 o;
   Traps.register_ioport_read addr size 2 Traps.addr_symbhw_read16 o;
   Traps.register_ioport_write addr size 4 Traps.addr_symbhw_write32 o;
   Traps.register_ioport_read addr size 4 Traps.addr_symbhw_read32 o].

(** A second instance of the device of the examples. *)
Definition symp0_second : Bridge.SymbolicPciDeviceState :=
  {| Bridge.dev := {| Host.dev_name := "symp0"; Host.config := replicate 256 0xff;
                      Host.io_regions := []; Host.io_memory := [] |};
     Bridge.desc := None |}.

(** ** Texts and dumps *)

(** [needle] occurs in [hay]. *)
Fixpoint contains (needle hay : string) : bool :=
  String.prefix needle hay ||
  match hay with
  | EmptyString => false
  | String _ hay' => contains needle hay'
  end.

(** The number a run of hexadecimal digits denotes. *)
Definition unhex (s : string) : Z := Z.of_N (HexString.Raw.to_N s 0%N).

(** The line of one resource, after its index. *)
Definition resource_line (res : PciResource) : string :=
  "Size=0x" +:+ hex (size res) +:+
  " IsIO=" +:+ hex (PciDeviceDescriptor.of_bool (isIo res)) +:+
  " IsPrefetchable=0x" +:+ hex (PciDeviceDescriptor.of_bool (prefetchable res)) +:+ endl.

(** ** Reading a dump back

    The id of a descriptor is any text, so a dump is read from its end,
    where the numbers stand between fixed labels. *)

(** The characters of a text, last first. *)
Definition backwards (s : string) : list Ascii.ascii :=
  rev (String.list_ascii_of_string s).

(** A digit as [os << std::hex] writes it: 0-9 or a-f. *)
Definition is_hex_digit (c : Ascii.ascii) : bool :=
  let n := Ascii.N_of_ascii c in
  ((48 <=? n) && (n <=? 57) || (97 <=? n) && (n <=? 102))%N.

(** The longest run of digits at the head of [l], and what follows it. *)
Fixpoint span_hex (l : list Ascii.ascii) : list Ascii.ascii * list Ascii.ascii :=
  match l with
  | c :: l' =>
      if is_hex_digit c then let '(ds, r) := span_hex l' in (c :: ds, r)
      else ([], l)
  | [] => ([], [])
  end.

(** [l] without its head [pre], when it starts with it. *)
Fixpoint strip (pre l : list Ascii.ascii) : option (list Ascii.ascii) :=
  match pre, l with
  | [], _ => Some l
  | c :: pre', c' :: l' => if Ascii.eqb c c' then strip pre' l' else None
  | _ :: _, [] => None
  end.

(** The first character, if there is one, is not a digit. *)
Definition stops (l : list Ascii.ascii) : bool :=
  match l with
  | c :: _ => negb (is_hex_digit c)
  | [] => true
  end.

(** Reading the end of a text, given last character first: the digits that
    end it, up to the first character that is not a digit, and [label]
    before them.  The result is the number the digits denote and the text
    before [label]. *)
Definition number_back (label : string) (l : list Ascii.ascii)
    : option (Z * list Ascii.ascii) :=
  let '(ds, r) := span_hex l in
  r ← strip (backwards label) r;
  Some (unhex (String.string_of_list_ascii (rev ds)), r).

(** What the dump of a descriptor shows of it. *)
Inductive shown :=
| IsaShown (id : string) (portBase portSize : Z)
| PciShown (id : string) (vid pid revisionId classCode interruptPin : Z)
           (resources : list (Z * Z * Z)).

(** What [PciDeviceDescriptor::print] streams of a resource: its size,
    [isIo] and [prefetchable], the flags as the integers written. *)
Definition shown_resource (res : PciResource) : Z * Z * Z :=
  (size res, PciDeviceDescriptor.of_bool (isIo res),
   PciDeviceDescriptor.of_bool (prefetchable res)).

(** The members the two [print] functions stream, in the order of the
    source; the base class prints nothing. *)
Definition shows (dd : DeviceDescriptor.t) : option shown :=
  match dd with
  | DeviceDescriptor.Base _ => None
  | DeviceDescriptor.Isa d =>
      Some (IsaShown (IsaDeviceDescriptor.m_id d)
              (portBase (IsaDeviceDescriptor.m_isaResource d))
              (portSize (IsaDeviceDescriptor.m_isaResource d)))
  | DeviceDescriptor.Pci d =>
      Some (PciShown (PciDeviceDescriptor.m_id d)
              (PciDeviceDescriptor.m_vid d) (PciDeviceDescriptor.m_pid d)
              (PciDeviceDescriptor.m_revisionId d) (PciDeviceDescriptor.m_classCode d)
              (PciDeviceDescriptor.m_interruptPin d)
              (shown_resource <$> PciDeviceDescriptor.m_resources d))
  end.

(** The id: what is left of the text before the first line of numbers, after
    the heading. *)
Definition id_back (heading : string) (l : list Ascii.ascii) : option string :=
  l ← strip (backwards endl) l;
  id ← strip (String.list_ascii_of_string heading) (rev l);
  Some (String.string_of_list_ascii id).

(** Reading the dump of an ISA descriptor from its end. *)
Definition read_isa (out : string) : option shown :=
  l ← strip (backwards (endl +:+ endl)) (backwards out);
  '(portSize, l) ← number_back " Size=0x" l;
  '(portBase, l) ← number_back "Base=0x" l;
  id ← id_back "ISA Device Descriptor id=" l;
  Some (IsaShown id portBase portSize).

(** Reading one resource line from its end; the index is read and dropped. *)
Definition resource_back (l : list Ascii.ascii) : option (Z * Z * Z * list Ascii.ascii) :=
  l ← strip (backwards endl) l;
  '(isPrefetchable, l) ← number_back " IsPrefetchable=0x" l;
  '(isIo, l) ← number_back " IsIO=" l;
  '(size, l) ← number_back "Size=0x" l;
  l ← strip (backwards "]: ") l;
  '(_, l) ← number_back "R[" l;
  Some (size, isIo, isPrefetchable, l).

(** Reading resource lines from the end for as long as there is one;
    [fuel] bounds their number. *)
Fixpoint resources_back (fuel : nat) (l : list Ascii.ascii) (acc : list (Z * Z * Z))
    : list (Z * Z * Z) * list Ascii.ascii :=
  match fuel with
  | O => (acc, l)
  | S fuel =>
      match resource_back l with
      | Some (res, l') => resources_back fuel l' (res :: acc)
      | None => (acc, l)
      end
  end.

(** Reading the dump of a PCI descriptor from its end. *)
Definition read_pci (out : string) : option shown :=
  l ← strip (backwards endl) (backwards out);
  let '(resources, l) := resources_back (length l) l [] in
  l ← strip (backwards endl) l;
  '(interruptPin, l) ← number_back " INT=0x" l;
  '(classCode, l) ← number_back "Class=0x" l;
  l ← strip (backwards endl) l;
  '(revisionId, l) ← number_back " RevID=0x" l;
  '(pid, l) ← number_back " PID=0x" l;
  '(vid, l) ← number_back "VID=0x" l;
  id ← id_back "PCI Device Descriptor id=" l;
  Some (PciShown id vid pid revisionId classCode interruptPin resources).

(** Reading a dump back: the heading tells the kind. *)
Definition read_dump (out : string) : option shown :=
  if String.prefix "ISA Device Descriptor id=" out then read_isa out
  else if String.prefix "PCI Device Descriptor id=" out then read_pci out
  else None.

(** The type flags of the BAR of a resource. *)
Definition bar_type (res : PciResource) : Z :=
  Z.lor (Z.lor 0 (if isIo res then Host.PCI_BASE_ADDRESS_SPACE_IO
                  else Host.PCI_BASE_ADDRESS_SPACE_MEMORY))
        (if prefetchable res then Host.PCI_BASE_ADDRESS_MEM_PREFETCH else 0).

(** The id of the object a pointer refers to. *)
Definition id_at (objects : list DeviceDescriptor.t) (dd : nat) : string :=
  DeviceDescriptor.getId (DeviceDescriptors.deref objects dd).

(** The pointers of a set are in strictly ascending order of id. *)
Definition ordered (objects : list DeviceDescriptor.t) (l : list nat) : Prop :=
  StronglySorted (fun p q => String.ltb (id_at objects p) (id_at objects q) = true) l.

(** The registry is a well-formed set of pointers to stored objects. *)
Definition registry_ok (s : SymbolicHardware.t) : Prop :=
  ordered (SymbolicHardware.objects s) (SymbolicHardware.m_devices s) /\
  Forall (fun p => (p < length (SymbolicHardware.objects s))%nat) (SymbolicHardware.m_devices s).

(** One turn of the loop on an entry that builds. *)
Definition turn (d : DeviceDescriptor.t) (s : SymbolicHardware.t) : SymbolicHardware.t :=
  SymbolicHardware.devices_insert (length (SymbolicHardware.objects s))
    (SymbolicHardware.write_messages (DeviceDescriptor.print d)
       (snd (SymbolicHardware.alloc d s))).

(** ** Configurations used as concrete inputs *)

Definition isa_cfg (id : string) (start size irq : Z) : ConfigFile.t :=
  list_to_map [
    ("hw"%string, ConfigFile.Table ["dev"%string]);
    ("hw.dev.id"%string, ConfigFile.Str id);
    ("hw.dev.type"%string, ConfigFile.Str "isa");
    ("hw.dev.start"%string, ConfigFile.Integer start);
    ("hw.dev.size"%string, ConfigFile.Integer size);
    ("hw.dev.irq"%string, ConfigFile.Integer irq)].

(** A PCI device with the given class code and one MMIO resource of size
    0x1000 per key of [resKeys]. *)
Definition pci_cfg (classCode revisionId : Z) (resKeys : list string) : ConfigFile.t :=
  list_to_map ([
    ("hw"%string, ConfigFile.Table ["dev"%string]);
    ("hw.dev.id"%string, ConfigFile.Str "symp0");
    ("hw.dev.type"%string, ConfigFile.Str "pci");
    ("hw.dev.vid"%string, ConfigFile.Integer 0x1234);
    ("hw.dev.pid"%string, ConfigFile.Integer 0x5678);
    ("hw.dev.classCode"%string, ConfigFile.Integer classCode);
    ("hw.dev.revisionId"%string, ConfigFile.Integer revisionId);
    ("hw.dev.interruptPin"%string, ConfigFile.Integer 1);
    ("hw.dev.resources"%string, ConfigFile.Table resKeys)] ++
    flat_map (fun it =>
      [("hw.dev.resources." +:+ it +:+ ".isIo", ConfigFile.Boolean false);
       ("hw.dev.resources." +:+ it +:+ ".isPrefetchable", ConfigFile.Boolean false);
       ("hw.dev.resources." +:+ it +:+ ".size", ConfigFile.Integer 0x1000)]) resKeys).

Definition mmio_0x1000 : PciResource :=
  {| isIo := false; prefetchable := false; size := 0x1000 |}.

(** Two ISA devices configured with the same id. *)
Definition dup_cfg : ConfigFile.t :=
  list_to_map [
    ("hw"%string, ConfigFile.Table ["a"; "b"]%string);
    ("hw.a.id"%string, ConfigFile.Str "sym0");
    ("hw.a.type"%string, ConfigFile.Str "isa");
    ("hw.a.start"%string, ConfigFile.Integer 0x300);
    ("hw.a.size"%string, ConfigFile.Integer 0x10);
    ("hw.a.irq"%string, ConfigFile.Integer 7);
    ("hw.b.id"%string, ConfigFile.Str "sym0");
    ("hw.b.type"%string, ConfigFile.Str "isa");
    ("hw.b.start"%string, ConfigFile.Integer 0x400);
    ("hw.b.size"%string, ConfigFile.Integer 0x20);
    ("hw.b.irq"%string, ConfigFile.Integer 5)].

Definition dup_a : DeviceDescriptor.t :=
  DeviceDescriptor.Isa
    (IsaDeviceDescriptor.new "sym0" {| portBase := 0x300; portSize := 0x10; irq := 7 |}).

Definition dup_b : DeviceDescriptor.t :=
  DeviceDescriptor.Isa
    (IsaDeviceDescriptor.new "sym0" {| portBase := 0x400; portSize := 0x20; irq := 5 |}).

(** A configuration whose device list is present and empty. *)
Definition empty_list_cfg : ConfigFile.t :=
  list_to_map [("hw"%string, ConfigFile.Table [])].

(** The plugin after start-up on [dup_cfg]. *)
Definition dup_state : SymbolicHardware.t := Eval vm_compute in
    match SymbolicHardware.initialize dup_cfg "hw" SymbolicHardware.fresh with
    | SymbolicHardware.Returned s => s
    | _ => SymbolicHardware.fresh
    end.

(** Sizes and flag values for the examples. *)
Definition abi0 : Host.abi :=
  {| Host.sizeof_SymbolicPciDeviceState := 0x1000; Host.sizeof_PCIDevice := 0x800;
     Host.offset_dev := 0; Host.VMS_STRUCT := 0x008 |}.

(** A host that has allocated and registered nothing. *)
Definition host0 : Host.t := {| Host.heap := []; Host.pci_qdev_registered := [] |}.

(** The plugin holding the PCI device of the examples, and an instance of it
    whose configuration space is zeroed. *)
Definition symp0_plugin : SymbolicHardware.t := Eval vm_compute in
    match SymbolicHardware.initialize (pci_cfg 0x0200 1 ["r0"%string]) "hw"
            SymbolicHardware.fresh with
    | SymbolicHardware.Returned s => s
    | _ => SymbolicHardware.fresh
    end.

Definition symp0_instance : Bridge.SymbolicPciDeviceState :=
  {| Bridge.dev := {| Host.dev_name := "symp0"; Host.config := replicate 256 0;
                      Host.io_regions := []; Host.io_memory := [] |};
     Bridge.desc := None |}.

(** The plugin and the instance after the init entry point has run, the
    host returning the handle 5. *)
Definition symp0_after : SymbolicHardware.t * Bridge.SymbolicPciDeviceState := Eval vm_compute in
    match Bridge.pci_symbhw_init 5 symp0_plugin symp0_instance with
    | Bridge.Done _ hw d => (hw, d)
    | _ => (symp0_plugin, symp0_instance)
    end.

(** The two devices of the examples. *)
Definition sym0 : IsaDeviceDescriptor.t :=
  IsaDeviceDescriptor.new "sym0" {| portBase := 0x300; portSize := 0x10; irq := 7 |}.

Definition symp0 : PciDeviceDescriptor.t :=
  PciDeviceDescriptor.new "symp0" 0x1234 0x5678 0x0200 1 1 [mmio_0x1000].

(** A device section with an id and a type only. *)
Definition typed_cfg (id type : string) : ConfigFile.t :=
  list_to_map [
    ("hw"%string, ConfigFile.Table ["dev"%string]);
    ("hw.dev.id"%string, ConfigFile.Str id);
    ("hw.dev.type"%string, ConfigFile.Str type)].

(** An ISA device section without a size. *)
Definition isa_no_size_cfg : ConfigFile.t :=
  list_to_map [
    ("hw.dev.id"%string, ConfigFile.Str "sym0");
    ("hw.dev.type"%string, ConfigFile.Str "isa");
    ("hw.dev.start"%string, ConfigFile.Integer 0x300);
    ("hw.dev.irq"%string, ConfigFile.Integer 7)].

(** A PCI device with one I/O resource that has no [isPrefetchable] key,
    followed by one prefetchable MMIO resource. *)
Definition pci_io_cfg (interruptPin : Z) : ConfigFile.t :=
  list_to_map [
    ("hw"%string, ConfigFile.Table ["dev"%string]);
    ("hw.dev.id"%string, ConfigFile.Str "symp0");
    ("hw.dev.type"%string, ConfigFile.Str "pci");
    ("hw.dev.vid"%string, ConfigFile.Integer 0x1234);
    ("hw.dev.pid"%string, ConfigFile.Integer 0x5678);
    ("hw.dev.classCode"%string, ConfigFile.Integer 0x0200);
    ("hw.dev.revisionId"%string, ConfigFile.Integer 1);
    ("hw.dev.interruptPin"%string, ConfigFile.Integer interruptPin);
    ("hw.dev.resources"%string, ConfigFile.Table ["io"; "mem"]%string);
    ("hw.dev.resources.io.isIo"%string, ConfigFile.Boolean true);
    ("hw.dev.resources.io.size"%string, ConfigFile.Integer 0x100);
    ("hw.dev.resources.mem.isIo"%string, ConfigFile.Boolean false);
    ("hw.dev.resources.mem.isPrefetchable"%string, ConfigFile.Boolean true);
    ("hw.dev.resources.mem.size"%string, ConfigFile.Integer 0x2000)].

Definition io_0x100 : PciResource :=
  {| isIo := true; prefetchable := false; size := 0x100 |}.

Definition prefetchable_0x2000 : PciResource :=
  {| isIo := false; prefetchable := true; size := 0x2000 |}.

Definition symp_io : PciDeviceDescriptor.t :=
  PciDeviceDescriptor.new "symp0" 0x1234 0x5678 0x0200 1 1 [io_0x100; prefetchable_0x2000].

(** The dumps of a list of descriptors, one after the other. *)
Fixpoint dumps_of (ds : list DeviceDescriptor.t) : string :=
  match ds with
  | [] => EmptyString
  | d :: ds => DeviceDescriptor.print d +:+ dumps_of ds
  end.

(** The turns of the loop on a list of built descriptors. *)
Definition turns (ds : list DeviceDescriptor.t) (s : SymbolicHardware.t)
    : SymbolicHardware.t :=
  foldl (fun s d => turn d s) s ds.

(** A device list whose second entry has no id. *)
Definition second_bad_cfg : ConfigFile.t :=
  list_to_map [
    ("hw"%string, ConfigFile.Table ["a"; "b"; "c"]%string);
    ("hw.a.id"%string, ConfigFile.Str "sym0");
    ("hw.a.type"%string, ConfigFile.Str "isa");
    ("hw.a.start"%string, ConfigFile.Integer 0x300);
    ("hw.a.size"%string, ConfigFile.Integer 0x10);
    ("hw.a.irq"%string, ConfigFile.Integer 7);
    ("hw.b.type"%string, ConfigFile.Str "isa")].

(** The plugin and the second instance after the init entry point has run
    for it too, the host returning the handle 6. *)
Definition symp0_after_second : SymbolicHardware.t * Bridge.SymbolicPciDeviceState := Eval vm_compute in
    match Bridge.pci_symbhw_init 6 (fst symp0_after) symp0_second with
    | Bridge.Done _ hw d => (hw, d)
    | _ => (fst symp0_after, symp0_second)
    end.

(** An instance the host created under the id of the ISA device of
    [dup_cfg], and one under an id that was never configured. *)
Definition wrong_bus_instance : Bridge.SymbolicPciDeviceState :=
  {| Bridge.dev := {| Host.dev_name := "sym0"; Host.config := replicate 256 0;
                      Host.io_regions := []; Host.io_memory := [] |};
     Bridge.desc := None |}.

Definition unknown_instance : Bridge.SymbolicPciDeviceState :=
  {| Bridge.dev := {| Host.dev_name := "nodev"; Host.config := replicate 256 0;
                      Host.io_regions := []; Host.io_memory := [] |};
     Bridge.desc := None |}.

(** * Properties *)

(** ** Machine integers *)

Lemma to_unsigned_range w z : 0 <= w -> 0 <= to_unsigned w z < 2 ^ w.
Proof. intros Hw. unfold to_unsigned. apply Z.mod_pos_bound. lia. Qed.

Lemma to_unsigned_small w z : 0 <= z < 2 ^ w -> to_unsigned w z = z.
Proof. intros Hz. unfold to_unsigned. apply Z.mod_small. exact Hz. Qed.

Lemma uint8_t_range z : 0 <= uint8_t z < 256.
Proof. apply (to_unsigned_range 8). lia. Qed.

Lemma uint16_t_range z : 0 <= uint16_t z < 65536.
Proof. apply (to_unsigned_range 16). lia. Qed.

Lemma uint32_t_range z : 0 <= uint32_t z < 4294967296.
Proof. apply (to_unsigned_range 32). lia. Qed.

Lemma uint64_t_range z : 0 <= uint64_t z < 18446744073709551616.
Proof. apply (to_unsigned_range 64). lia. Qed.

Lemma uint8_t_small z : 0 <= z < 256 -> uint8_t z = z.
Proof. apply (to_unsigned_small 8). Qed.

Lemma uint16_t_small z : 0 <= z < 65536 -> uint16_t z = z.
Proof. apply (to_unsigned_small 16). Qed.

Lemma uint32_t_small z : 0 <= z < 4294967296 -> uint32_t z = z.
Proof. apply (to_unsigned_small 32). Qed.

Lemma uint64_t_small z : 0 <= z < 18446744073709551616 -> uint64_t z = z.
Proof. apply (to_unsigned_small 64). Qed.

(** ** The getters *)

Lemma getString_true cfg name def s :
  ConfigFile.getString cfg name def = (s, true) <-> cfg !! name = Some (ConfigFile.Str s).
Proof.
  unfold ConfigFile.getString.
  destruct (cfg !! name) as [[]|]; split; intros H; inversion H; reflexivity.
Qed.

Lemma getInt_true cfg name def z :
  ConfigFile.getInt cfg name def = (z, true) <-> cfg !! name = Some (ConfigFile.Integer z).
Proof.
  unfold ConfigFile.getInt.
  destruct (cfg !! name) as [[]|]; split; intros H; inversion H; reflexivity.
Qed.

Lemma getBool_true cfg name def b :
  ConfigFile.getBool cfg name def = (b, true) <-> cfg !! name = Some (ConfigFile.Boolean b).
Proof.
  unfold ConfigFile.getBool.
  destruct (cfg !! name) as [[]|]; split; intros H; inversion H; reflexivity.
Qed.

Lemma getListKeys_true cfg name keys :
  ConfigFile.getListKeys cfg name = (keys, true) <-> cfg !! name = Some (ConfigFile.Table keys).
Proof.
  unfold ConfigFile.getListKeys.
  destruct (cfg !! name) as [[]|]; split; intros H; inversion H; reflexivity.
Qed.

Lemma getListKeys_false cfg name keys :
  ConfigFile.getListKeys cfg name = (keys, false) -> keys = [].
Proof.
  unfold ConfigFile.getListKeys.
  destruct (cfg !! name) as [[]|]; intros H; inversion H; reflexivity.
Qed.

(** ** The ISA sub-builder *)

(** What a successful build has read and checked: every bound is on the
    narrowed value. *)
Lemma isa_create_Built cfg key d :
  IsaDeviceDescriptor.create cfg key = Built d ->
  exists id start size irq,
    cfg !! (key +:+ ".id") = Some (ConfigFile.Str id) /\
    cfg !! (key +:+ ".start") = Some (ConfigFile.Integer start) /\
    cfg !! (key +:+ ".size") = Some (ConfigFile.Integer size) /\
    cfg !! (key +:+ ".irq") = Some (ConfigFile.Integer irq) /\
    uint64_t start <= 0xFFFF /\
    uint64_t start + uint16_t size <= 0x10000 /\
    uint8_t irq <= 15 /\
    d = IsaDeviceDescriptor.new id
          {| portBase := uint64_t start; portSize := uint16_t size; irq := uint8_t irq |}.
Proof.
  unfold IsaDeviceDescriptor.create. intros H.
  destruct (ConfigFile.getString cfg (key +:+ ".id") EmptyString) as [id [|]] eqn:Hid;
    simpl in H; [|discriminate].
  destruct (ConfigFile.getInt cfg (key +:+ ".start") 0) as [start [|]] eqn:Hstart;
    simpl in H; [|discriminate].
  destruct (0xFFFF <? uint64_t start) eqn:Hs; [discriminate|].
  destruct (ConfigFile.getInt cfg (key +:+ ".size") 0) as [sz [|]] eqn:Hsize;
    simpl in H; [|discriminate].
  destruct (0x10000 <? uint64_t (uint64_t start + uint16_t sz)) eqn:Hr; [discriminate|].
  destruct (ConfigFile.getInt cfg (key +:+ ".irq") 0) as [q [|]] eqn:Hirq;
    simpl in H; [|discriminate].
  destruct (15 <? uint8_t q) eqn:Hq; [discriminate|].
  apply Z.ltb_ge in Hs, Hr, Hq.
  pose proof (uint64_t_range start) as Rs. pose proof (uint16_t_range sz) as Rz.
  rewrite uint64_t_small in Hr by lia.
  exists id, start, sz, q.
  apply getString_true in Hid. apply getInt_true in Hstart, Hsize, Hirq.
  repeat split; try assumption.
  inversion H. f_equal. f_equal.
  apply uint16_t_small. lia.
Qed.

(** Conversely, a configuration that passes every check is built. *)
Lemma isa_create_ok cfg key id start size irq :
  cfg !! (key +:+ ".id") = Some (ConfigFile.Str id) ->
  cfg !! (key +:+ ".start") = Some (ConfigFile.Integer start) ->
  cfg !! (key +:+ ".size") = Some (ConfigFile.Integer size) ->
  cfg !! (key +:+ ".irq") = Some (ConfigFile.Integer irq) ->
  uint64_t start <= 0xFFFF ->
  uint64_t start + uint16_t size <= 0x10000 ->
  uint8_t irq <= 15 ->
  IsaDeviceDescriptor.create cfg key =
    Built (IsaDeviceDescriptor.new id
             {| portBase := uint64_t start; portSize := uint16_t size; irq := uint8_t irq |}).
Proof.
  intros Hid Hstart Hsize Hirq Hs Hr Hq.
  unfold IsaDeviceDescriptor.create.
  apply (getString_true _ _ EmptyString) in Hid. apply (getInt_true _ _ 0) in Hstart, Hsize, Hirq.
  rewrite Hid, Hstart. simpl.
  pose proof (uint64_t_range start) as Rs. pose proof (uint16_t_range size) as Rz.
  destruct (0xFFFF <? uint64_t start) eqn:E; [apply Z.ltb_lt in E; lia|].
  rewrite Hsize. simpl.
  rewrite (uint64_t_small (uint64_t start + uint16_t size)) by lia.
  destruct (0x10000 <? uint64_t start + uint16_t size) eqn:E2; [apply Z.ltb_lt in E2; lia|].
  rewrite Hirq. simpl.
  destruct (15 <? uint8_t irq) eqn:E3; [apply Z.ltb_lt in E3; lia|].
  rewrite (uint16_t_small (uint64_t start)) by lia.
  reflexivity.
Qed.

(** C1. The configured size 0x10001 at start 0 exceeds the 64K port space,
    yet the sub-builder returns a descriptor, with [portSize = 1]; an irq of
    0x107 is accepted as irq 7. *)
Theorem isa_create_accepts_out_of_range :
  ConfigFile.getInt (isa_cfg "sym0" 0 0x10001 0x107) "hw.dev.size" 0 = (0x10001, true) /\
  ConfigFile.getInt (isa_cfg "sym0" 0 0x10001 0x107) "hw.dev.irq" 0 = (0x107, true) /\
  0x10000 < 0 + 0x10001 /\ 15 < 0x107 /\
  IsaDeviceDescriptor.create (isa_cfg "sym0" 0 0x10001 0x107) "hw.dev" =
    Built (IsaDeviceDescriptor.new "sym0" {| portBase := 0; portSize := 1; irq := 7 |}).
Proof.
  split; [vm_compute; reflexivity|].
  split; [vm_compute; reflexivity|].
  split; [reflexivity|].
  split; [reflexivity|].
  vm_compute; reflexivity.
Qed.

(** The keys of one section differ when their last components differ. *)
Lemma append_cons c s t : String c s +:+ t = String c (s +:+ t).
Proof. reflexivity. Qed.

Lemma append_inj_l (key a b : string) : key +:+ a = key +:+ b -> a = b.
Proof.
  induction key as [|c key IH]; [exact id|].
  rewrite !append_cons. intros H. inversion H. auto.
Qed.

Lemma lookup_insert_sibling (cfg : ConfigFile.t) key (a b : string) v :
  a <> b -> <[key +:+ a := v]> cfg !! (key +:+ b) = cfg !! (key +:+ b).
Proof.
  intros Hab. apply lookup_insert_ne. intros E. apply Hab. exact (append_inj_l _ _ _ E).
Qed.

(** C10. The configured size is narrowed to 16 bits before the range check.
    The stored [portSize] of every built descriptor is the configured size
    modulo 2^16, and the range check was passed by that narrowed value.
    With a readable id, a start in 0..0xFFFF and an irq in 0..15, the
    builder builds exactly when start + (size mod 2^16) is at most 0x10000,
    and otherwise fails with the range diagnostic: the size as configured
    plays no part.  Two configurations that differ only in sizes equal
    modulo 2^16 get the same result from the builder.  A configured size of
    0x10000 at start 0 with a valid irq is built with [portSize = 0]. *)
Theorem isa_size_truncated cfg key :
  (forall d, IsaDeviceDescriptor.create cfg key = Built d ->
     exists start size,
       ConfigFile.getInt cfg (key +:+ ".start") 0 = (start, true) /\
       ConfigFile.getInt cfg (key +:+ ".size") 0 = (size, true) /\
       portSize (IsaDeviceDescriptor.m_isaResource d) = size mod 2 ^ 16 /\
       uint64_t start + size mod 2 ^ 16 <= 0x10000) /\
  (forall id start size irq,
     cfg !! (key +:+ ".id") = Some (ConfigFile.Str id) ->
     cfg !! (key +:+ ".start") = Some (ConfigFile.Integer start) ->
     cfg !! (key +:+ ".size") = Some (ConfigFile.Integer size) ->
     cfg !! (key +:+ ".irq") = Some (ConfigFile.Integer irq) ->
     0 <= start <= 0xFFFF ->
     0 <= irq <= 15 ->
     (start + size mod 2 ^ 16 <= 0x10000 ->
      IsaDeviceDescriptor.create cfg key =
        Built (IsaDeviceDescriptor.new id
                 {| portBase := start; portSize := size mod 2 ^ 16; irq := irq |})) /\
     (0x10000 < start + size mod 2 ^ 16 ->
      IsaDeviceDescriptor.create cfg key =
        Null ("An ISA address range must not exceed 0xffff." +:+ endl))) /\
  (forall size size',
     cfg !! (key +:+ ".size") = Some (ConfigFile.Integer size) ->
     size' mod 2 ^ 16 = size mod 2 ^ 16 ->
     IsaDeviceDescriptor.create (<[key +:+ ".size" := ConfigFile.Integer size']> cfg) key =
     IsaDeviceDescriptor.create cfg key) /\
  (forall id irq,
     cfg !! (key +:+ ".id") = Some (ConfigFile.Str id) ->
     cfg !! (key +:+ ".start") = Some (ConfigFile.Integer 0) ->
     cfg !! (key +:+ ".size") = Some (ConfigFile.Integer 0x10000) ->
     cfg !! (key +:+ ".irq") = Some (ConfigFile.Integer irq) ->
     0 <= irq <= 15 ->
     IsaDeviceDescriptor.create cfg key =
       Built (IsaDeviceDescriptor.new id {| portBase := 0; portSize := 0; irq := irq |})).
Proof.
  split; [|split; [|split]].
  - intros d H. apply isa_create_Built in H.
    destruct H as (id & start & sz & q & Hid & Hstart & Hsize & Hirq & Hs & Hr & Hq & ->).
    exists start, sz. rewrite !getInt_true. repeat split; assumption.
  - intros id start sz q Hid Hstart Hsize Hirq Hs Hq.
    assert (Em : uint16_t sz = sz mod 2 ^ 16) by reflexivity.
    pose proof (uint16_t_range sz) as Rz.
    split; intros Hr.
    + rewrite (isa_create_ok cfg key id start sz q Hid Hstart Hsize Hirq).
      * rewrite (uint64_t_small start), (uint8_t_small q), Em by lia. reflexivity.
      * rewrite uint64_t_small by lia. lia.
      * rewrite uint64_t_small, Em by lia. exact Hr.
      * rewrite uint8_t_small by lia. lia.
    + unfold IsaDeviceDescriptor.create.
      apply getString_true with (def := EmptyString) in Hid.
      apply getInt_true with (def := 0) in Hstart, Hsize.
      rewrite Hid, Hstart, Hsize. cbn [negb orb].
      rewrite (uint64_t_small start) by lia.
      replace (0xFFFF <? start) with false by (symmetry; apply Z.ltb_ge; lia).
      rewrite (uint64_t_small (start + uint16_t sz)) by lia.
      replace (0x10000 <? start + uint16_t sz) with true
        by (symmetry; apply Z.ltb_lt; rewrite Em; exact Hr).
      reflexivity.
  - intros sz sz' Hsize Hmod. unfold IsaDeviceDescriptor.create, ConfigFile.getString, ConfigFile.getInt.
    rewrite lookup_insert_eq, Hsize.
    rewrite !lookup_insert_sibling by discriminate.
    replace (uint16_t sz') with (uint16_t sz) by (symmetry; exact Hmod).
    reflexivity.
  - intros id q Hid Hstart Hsize Hirq Hq.
    rewrite (isa_create_ok cfg key id 0 0x10000 q Hid Hstart Hsize Hirq).
    + do 3 f_equal. apply uint8_t_small. lia.
    + vm_compute. discriminate.
    + vm_compute. discriminate.
    + rewrite (uint8_t_small q) by lia. lia.
Qed.

Lemma isa_size_truncated_witness :
  (0x10000 < 0x300 + 0x10010 /\
   IsaDeviceDescriptor.create (isa_cfg "sym0" 0x300 0x10010 7) "hw.dev" =
     Built (IsaDeviceDescriptor.new "sym0"
              {| portBase := 0x300; portSize := 0x10; irq := 7 |})) /\
  (0x10000 < 0xFFF8 + 0x10010 mod 2 ^ 16 /\
   IsaDeviceDescriptor.create (isa_cfg "sym0" 0xFFF8 0x10010 7) "hw.dev" =
     Null ("An ISA address range must not exceed 0xffff." +:+ endl)) /\
  IsaDeviceDescriptor.create
    (<["hw.dev" +:+ ".size" := ConfigFile.Integer 0x10010]> (isa_cfg "sym0" 0x300 0x10 7)) "hw.dev" =
  IsaDeviceDescriptor.create (isa_cfg "sym0" 0x300 0x10 7) "hw.dev" /\
  IsaDeviceDescriptor.create (isa_cfg "sym0" 0 0x10000 3) "hw.dev" =
    Built (IsaDeviceDescriptor.new "sym0" {| portBase := 0; portSize := 0; irq := 3 |}).
Proof.
  split; [|split; [|split]].
  - split; [lia|].
    apply (proj1 (proj1 (proj2 (isa_size_truncated (isa_cfg "sym0" 0x300 0x10010 7) "hw.dev"))
                    "sym0"%string 0x300 0x10010 7
                    ltac:(vm_compute; reflexivity) ltac:(vm_compute; reflexivity)
                    ltac:(vm_compute; reflexivity) ltac:(vm_compute; reflexivity)
                    ltac:(lia) ltac:(lia))).
    vm_compute. discriminate.
  - split; [reflexivity|].
    apply (proj2 (proj1 (proj2 (isa_size_truncated (isa_cfg "sym0" 0xFFF8 0x10010 7) "hw.dev"))
                    "sym0"%string 0xFFF8 0x10010 7
                    ltac:(vm_compute; reflexivity) ltac:(vm_compute; reflexivity)
                    ltac:(vm_compute; reflexivity) ltac:(vm_compute; reflexivity)
                    ltac:(lia) ltac:(lia))).
    vm_compute. reflexivity.
  - apply (proj1 (proj2 (proj2 (isa_size_truncated (isa_cfg "sym0" 0x300 0x10 7) "hw.dev")))
             0x10 0x10010).
    + vm_compute. reflexivity.
    + reflexivity.
  - apply (proj2 (proj2 (proj2 (isa_size_truncated (isa_cfg "sym0" 0 0x10000 3) "hw.dev")))
             "sym0"%string 3); try (vm_compute; reflexivity).
    lia.
Defined.

(** ** The PCI sub-builder *)

Lemma read_resources_length cfg key resKeys acc rs :
  PciDeviceDescriptor.read_resources cfg key resKeys acc = Built rs ->
  length rs = (length acc + length resKeys)%nat.
Proof.
  revert acc. induction resKeys as [|it rest IH]; intros acc H; simpl in H.
  - inversion H. simpl. lia.
  - destruct (PciDeviceDescriptor.read_resource cfg key it) as [res| |]; try discriminate.
    apply IH in H. rewrite length_app in H. simpl in *. lia.
Qed.

(** What a successful build has read and checked. *)
Lemma pci_create_Built cfg key d :
  PciDeviceDescriptor.create cfg key = Built d ->
  exists id vid pid classCode revisionId interruptPin resKeys resources,
    cfg !! (key +:+ ".id") = Some (ConfigFile.Str id) /\
    cfg !! (key +:+ ".vid") = Some (ConfigFile.Integer vid) /\
    cfg !! (key +:+ ".pid") = Some (ConfigFile.Integer pid) /\
    cfg !! (key +:+ ".classCode") = Some (ConfigFile.Integer classCode) /\
    cfg !! (key +:+ ".revisionId") = Some (ConfigFile.Integer revisionId) /\
    cfg !! (key +:+ ".interruptPin") = Some (ConfigFile.Integer interruptPin) /\
    cfg !! (key +:+ ".resources") = Some (ConfigFile.Table resKeys) /\
    uint32_t classCode <= 0xffffff /\
    uint8_t interruptPin <= 4 /\
    resKeys <> [] /\
    PciDeviceDescriptor.read_resources cfg key resKeys [] = Built resources /\
    (length resources <= 6)%nat /\
    d = PciDeviceDescriptor.new id (uint16_t vid) (uint16_t pid) (uint32_t classCode)
          (uint8_t revisionId) (uint8_t interruptPin) resources.
Proof.
  unfold PciDeviceDescriptor.create. intros H.
  destruct (ConfigFile.getString cfg (key +:+ ".id") EmptyString) as [id [|]] eqn:Hid;
    simpl in H; [|discriminate].
  destruct (ConfigFile.getInt cfg (key +:+ ".vid") 0) as [vid [|]] eqn:Hvid;
    simpl in H; [|discriminate].
  destruct (ConfigFile.getInt cfg (key +:+ ".pid") 0) as [pid [|]] eqn:Hpid;
    simpl in H; [|discriminate].
  destruct (ConfigFile.getInt cfg (key +:+ ".classCode") 0) as [cc [|]] eqn:Hcc;
    simpl in H; [|discriminate].
  destruct (0xffffff <? uint32_t cc) eqn:Ec; [discriminate|].
  destruct (ConfigFile.getInt cfg (key +:+ ".revisionId") 0) as [rev [|]] eqn:Hrev;
    simpl in H; [|discriminate].
  destruct (ConfigFile.getInt cfg (key +:+ ".interruptPin") 0) as [pin [|]] eqn:Hpin;
    simpl in H; [|discriminate].
  destruct (4 <? uint8_t pin) eqn:Ep; [discriminate|].
  destruct (ConfigFile.getListKeys cfg (key +:+ ".resources")) as [resKeys [|]] eqn:Hres;
    simpl in H; [|discriminate].
  destruct (bool_decide (resKeys = [])) eqn:Ek; [discriminate|].
  destruct (PciDeviceDescriptor.read_resources cfg key resKeys []) as [rs| |] eqn:Hrs;
    try discriminate.
  destruct (6 <? length rs)%nat eqn:El; [discriminate|].
  exists id, vid, pid, cc, rev, pin, resKeys, rs.
  apply getString_true in Hid. apply getInt_true in Hvid, Hpid, Hcc, Hrev, Hpin.
  apply getListKeys_true in Hres. apply Z.ltb_ge in Ec, Ep. apply Nat.ltb_ge in El.
  apply bool_decide_eq_false in Ek.
  repeat split; try assumption. inversion H. reflexivity.
Qed.

(** Conversely, a configuration that passes every check is built. *)
Lemma pci_create_ok cfg key id vid pid classCode revisionId interruptPin resKeys resources :
  cfg !! (key +:+ ".id") = Some (ConfigFile.Str id) ->
  cfg !! (key +:+ ".vid") = Some (ConfigFile.Integer vid) ->
  cfg !! (key +:+ ".pid") = Some (ConfigFile.Integer pid) ->
  cfg !! (key +:+ ".classCode") = Some (ConfigFile.Integer classCode) ->
  cfg !! (key +:+ ".revisionId") = Some (ConfigFile.Integer revisionId) ->
  cfg !! (key +:+ ".interruptPin") = Some (ConfigFile.Integer interruptPin) ->
  cfg !! (key +:+ ".resources") = Some (ConfigFile.Table resKeys) ->
  uint32_t classCode <= 0xffffff ->
  uint8_t interruptPin <= 4 ->
  resKeys <> [] ->
  PciDeviceDescriptor.read_resources cfg key resKeys [] = Built resources ->
  (length resources <= 6)%nat ->
  PciDeviceDescriptor.create cfg key =
    Built (PciDeviceDescriptor.new id (uint16_t vid) (uint16_t pid) (uint32_t classCode)
             (uint8_t revisionId) (uint8_t interruptPin) resources).
Proof.
  intros Hid Hvid Hpid Hcc Hrev Hpin Hres Ec Ep Ek Hrs El.
  unfold PciDeviceDescriptor.create.
  apply (getString_true _ _ EmptyString) in Hid.
  apply (getInt_true _ _ 0) in Hvid, Hpid, Hcc, Hrev, Hpin.
  apply getListKeys_true in Hres.
  rewrite Hid, Hvid, Hpid, Hcc. simpl.
  destruct (0xffffff <? uint32_t classCode) eqn:E1; [apply Z.ltb_lt in E1; lia|].
  rewrite Hrev, Hpin. simpl.
  destruct (4 <? uint8_t interruptPin) eqn:E2; [apply Z.ltb_lt in E2; lia|].
  rewrite Hres. simpl.
  rewrite bool_decide_eq_false_2 by assumption.
  rewrite Hrs.
  destruct (6 <? length resources)%nat eqn:E3; [apply Nat.ltb_lt in E3; lia|].
  reflexivity.
Qed.

(** The sub-builder never builds when the resource list is absent, empty or
    longer than six. *)
Lemma pci_create_rejects_resource_count cfg key resKeys ok :
  ConfigFile.getListKeys cfg (key +:+ ".resources") = (resKeys, ok) ->
  (length resKeys = 0 \/ 6 < length resKeys)%nat ->
  is_built (PciDeviceDescriptor.create cfg key) = false.
Proof.
  intros Hres Hlen.
  destruct (PciDeviceDescriptor.create cfg key) as [d| |] eqn:H; try reflexivity.
  exfalso. apply pci_create_Built in H.
  destruct H as (id & vid & pid & cc & rev & pin & ks & rs & _ & _ & _ & _ & _ & _ &
                 Hks & _ & _ & Hne & Hrs & Hlen6 & _).
  apply getListKeys_true in Hks. rewrite Hks in Hres. inversion Hres; subst.
  apply read_resources_length in Hrs. simpl in Hrs.
  destruct Hlen as [H0|H7]; [|lia].
  destruct resKeys; [congruence|discriminate].
Qed.

(** C6. The PCI sub-builder returns a descriptor only if the resources list
    has between 1 and 6 entries (the descriptor then owns one resource per
    entry); with 0 or with 7 entries no descriptor is created. *)
Theorem pci_create_resource_count cfg key resKeys ok :
  ConfigFile.getListKeys cfg (key +:+ ".resources") = (resKeys, ok) ->
  (forall d, PciDeviceDescriptor.create cfg key = Built d ->
     (1 <= length resKeys <= 6)%nat /\
     length (PciDeviceDescriptor.m_resources d) = length resKeys) /\
  ((length resKeys = 0 \/ length resKeys = 7)%nat ->
     is_built (PciDeviceDescriptor.create cfg key) = false).
Proof.
  intros Hres. split.
  - intros d H. apply pci_create_Built in H.
    destruct H as (id & vid & pid & cc & rev & pin & ks & rs & _ & _ & _ & _ & _ & _ &
                   Hks & _ & _ & Hne & Hrs & Hlen6 & ->).
    apply getListKeys_true in Hks. rewrite Hks in Hres. inversion Hres; subst.
    apply read_resources_length in Hrs. simpl in Hrs. simpl.
    destruct resKeys; [congruence|]. simpl in *. lia.
  - intros Hlen. apply (pci_create_rejects_resource_count cfg key resKeys ok Hres). lia.
Qed.

Lemma pci_create_resource_count_witness :
  ((1 <= length ["r0"; "r1"]%string <= 6)%nat /\
   length (PciDeviceDescriptor.m_resources
             (PciDeviceDescriptor.new "symp0" 0x1234 0x5678 0x0200 1 1
                [mmio_0x1000; mmio_0x1000])) = length ["r0"; "r1"]%string) /\
  is_built (PciDeviceDescriptor.create
              (pci_cfg 0x0200 1 ["r0"; "r1"; "r2"; "r3"; "r4"; "r5"; "r6"]%string) "hw.dev") = false /\
  is_built (PciDeviceDescriptor.create (pci_cfg 0x0200 1 []) "hw.dev") = false.
Proof.
  split; [|split].
  - apply (proj1 (pci_create_resource_count (pci_cfg 0x0200 1 ["r0"; "r1"]%string) "hw.dev"
                    ["r0"; "r1"]%string true eq_refl)).
    vm_compute. reflexivity.
  - apply (proj2 (pci_create_resource_count
                    (pci_cfg 0x0200 1 ["r0"; "r1"; "r2"; "r3"; "r4"; "r5"; "r6"]%string) "hw.dev"
                    ["r0"; "r1"; "r2"; "r3"; "r4"; "r5"; "r6"]%string true eq_refl)).
    right. reflexivity.
  - apply (proj2 (pci_create_resource_count (pci_cfg 0x0200 1 []) "hw.dev" [] true eq_refl)).
    left. reflexivity.
Defined.

(** A class code above 0xFFFFFF that fits in 32 bits is rejected. *)
Lemma pci_create_classCode_rejected cfg key classCode :
  cfg !! (key +:+ ".classCode") = Some (ConfigFile.Integer classCode) ->
  0xFFFFFF < classCode < 2 ^ 32 ->
  is_built (PciDeviceDescriptor.create cfg key) = false.
Proof.
  intros Hcc Hrange.
  destruct (PciDeviceDescriptor.create cfg key) as [d| |] eqn:H; try reflexivity.
  exfalso. apply pci_create_Built in H.
  destruct H as (id & vid & pid & cc & rev & pin & ks & rs & _ & _ & _ & Hcc' & _ & _ &
                 _ & Ec & _).
  rewrite Hcc in Hcc'. inversion Hcc'; subst cc.
  rewrite uint32_t_small in Ec by (change (2 ^ 32) with 4294967296 in Hrange; lia). lia.
Qed.

(** The boundary 0xFFFFFF is accepted when the other fields are valid. *)
Lemma pci_create_classCode_boundary cfg key id vid pid revisionId interruptPin resKeys resources :
  cfg !! (key +:+ ".id") = Some (ConfigFile.Str id) ->
  cfg !! (key +:+ ".vid") = Some (ConfigFile.Integer vid) ->
  cfg !! (key +:+ ".pid") = Some (ConfigFile.Integer pid) ->
  cfg !! (key +:+ ".classCode") = Some (ConfigFile.Integer 0xFFFFFF) ->
  cfg !! (key +:+ ".revisionId") = Some (ConfigFile.Integer revisionId) ->
  cfg !! (key +:+ ".interruptPin") = Some (ConfigFile.Integer interruptPin) ->
  cfg !! (key +:+ ".resources") = Some (ConfigFile.Table resKeys) ->
  uint8_t interruptPin <= 4 ->
  resKeys <> [] ->
  PciDeviceDescriptor.read_resources cfg key resKeys [] = Built resources ->
  (length resources <= 6)%nat ->
  exists d, PciDeviceDescriptor.create cfg key = Built d /\
            PciDeviceDescriptor.m_classCode d = 0xFFFFFF.
Proof.
  intros Hid Hvid Hpid Hcc Hrev Hpin Hres Ep Ek Hrs El.
  eexists. split.
  - apply (pci_create_ok cfg key id vid pid 0xFFFFFF revisionId interruptPin resKeys resources);
      try assumption.
    vm_compute. discriminate.
  - reflexivity.
Qed.

(** C8. A configured class code of 0x100000000 exceeds 0xFFFFFF, yet the
    sub-builder narrows it to 32 bits before the check and returns a
    descriptor, with class code 0. *)
Theorem pci_create_accepts_wide_classCode :
  ConfigFile.getInt (pci_cfg 0x100000000 1 ["r0"%string]) "hw.dev.classCode" 0
    = (0x100000000, true) /\
  0xFFFFFF < 0x100000000 /\
  PciDeviceDescriptor.create (pci_cfg 0x100000000 1 ["r0"%string]) "hw.dev" =
    Built (PciDeviceDescriptor.new "symp0" 0x1234 0x5678 0 1 1 [mmio_0x1000]).
Proof.
  split; [vm_compute; reflexivity|].
  split; [reflexivity|].
  vm_compute; reflexivity.
Qed.

(** ** Strings *)

Lemma append_assoc (a b c : string) : (a +:+ b) +:+ c = a +:+ b +:+ c.
Proof.
  induction a as [|x a IH]; [reflexivity|].
  rewrite !append_cons, IH. reflexivity.
Qed.

Lemma prefix_append (n post : string) : String.prefix n (n +:+ post) = true.
Proof.
  induction n as [|x n IH]; [destruct post; reflexivity|].
  rewrite append_cons. simpl. destruct (Ascii.ascii_dec x x); [exact IH|congruence].
Qed.

Lemma contains_prefix (n hay : string) :
  String.prefix n hay = true -> contains n hay = true.
Proof. intros H. destruct hay; simpl in *; rewrite H; reflexivity. Qed.

Lemma contains_intro (pre n post hay : string) :
  hay = pre +:+ n +:+ post -> contains n hay = true.
Proof.
  intros ->. induction pre as [|x pre IH].
  - apply contains_prefix. exact (prefix_append n post).
  - rewrite append_cons. simpl. rewrite IH. apply orb_true_r.
Qed.

(** A dumped number can be read back. *)
Lemma unhex_hex n : 0 <= n -> unhex (hex n) = n.
Proof.
  intros Hn. destruct n as [|p|p]; [reflexivity| |lia].
  unfold unhex, hex. rewrite HexString.Raw.to_N_of_pos. reflexivity.
Qed.

(** ** The dumps *)

Lemma print_resources_app i l1 l2 :
  PciDeviceDescriptor.print_resources i (l1 ++ l2) =
  PciDeviceDescriptor.print_resources i l1 +:+ PciDeviceDescriptor.print_resources i l2.
Proof.
  induction l1 as [|r l1 IH]; [reflexivity|].
  simpl. rewrite IH. rewrite ?append_assoc. reflexivity.
Qed.

(** The factory returns what one of the two sub-builders built. *)
Lemma factory_Built cfg key dd :
  DeviceDescriptor.create cfg key = Built dd ->
  (exists d, dd = DeviceDescriptor.Isa d /\ IsaDeviceDescriptor.create cfg key = Built d) \/
  (exists d, dd = DeviceDescriptor.Pci d /\ PciDeviceDescriptor.create cfg key = Built d).
Proof.
  unfold DeviceDescriptor.create. intros H.
  destruct (ConfigFile.getString cfg (key +:+ ".id") EmptyString) as [id [|]];
    simpl in H; [|discriminate].
  destruct (bool_decide (id = EmptyString)); [discriminate|].
  destruct (ConfigFile.getString cfg (key +:+ ".type") EmptyString) as [ty [|]];
    simpl in H; [|discriminate].
  destruct (bool_decide (ty = "isa")) eqn:Ei.
  - rewrite andb_false_r in H.
    destruct (IsaDeviceDescriptor.create cfg key) as [d| |]; try discriminate.
    left. exists d. inversion H. split; reflexivity.
  - destruct (bool_decide (ty = "pci")) eqn:Ep; [|discriminate]. simpl in H.
    destruct (PciDeviceDescriptor.create cfg key) as [d| |]; try discriminate.
    right. exists d. inversion H. split; reflexivity.
Qed.

Lemma read_resources_sizes cfg key resKeys acc rs :
  PciDeviceDescriptor.read_resources cfg key resKeys acc = Built rs ->
  Forall (fun res => 0 <= size res) acc ->
  Forall (fun res => 0 <= size res) rs.
Proof.
  revert acc. induction resKeys as [|it rest IH]; intros acc H Hacc; simpl in H.
  - inversion H. subst. exact Hacc.
  - destruct (PciDeviceDescriptor.read_resource cfg key it) as [res| |] eqn:Hr; try discriminate.
    apply (IH _ H). apply Forall_app. split; [exact Hacc|].
    constructor; [|constructor].
    unfold PciDeviceDescriptor.read_resource in Hr.
    destruct (ConfigFile.getBool cfg _ false) as [io [|]]; simpl in Hr; [|discriminate].
    destruct (ConfigFile.getBool cfg _ false) as [pf ok2]; simpl in Hr.
    destruct (negb ok2 && negb io); [discriminate|].
    destruct (ConfigFile.getInt cfg _ 0) as [v [|]]; simpl in Hr; [|discriminate].
    inversion Hr. simpl. apply uint32_t_range.
Qed.

(** *** Reading the dumps back *)

Lemma chars_app (a b : string) :
  String.list_ascii_of_string (a +:+ b)
  = String.list_ascii_of_string a ++ String.list_ascii_of_string b.
Proof.
  induction a as [|x a IH]; [reflexivity|].
  rewrite append_cons. cbn [String.list_ascii_of_string app]. rewrite IH. reflexivity.
Qed.

Lemma backwards_app (a b : string) : backwards (a +:+ b) = backwards b ++ backwards a.
Proof. unfold backwards. rewrite chars_app. apply rev_app_distr. Qed.

Lemma strip_app pre l : strip pre (pre ++ l) = Some l.
Proof.
  induction pre as [|c pre IH]; [reflexivity|].
  cbn [app strip]. rewrite Ascii.eqb_refl. exact IH.
Qed.

Lemma strip_app_app p q l : strip (p ++ q) (p ++ l) = strip q l.
Proof.
  induction p as [|c p IH]; [reflexivity|].
  cbn [app strip]. rewrite Ascii.eqb_refl. exact IH.
Qed.

Lemma span_hex_app ds r :
  Forall (fun c => is_hex_digit c = true) ds -> stops r = true ->
  span_hex (ds ++ r) = (ds, r).
Proof.
  intros Hds Hr. induction Hds as [|c ds Hc _ IH].
  - destruct r as [|c r]; [reflexivity|]. cbn [app span_hex].
    cbn [stops] in Hr. apply negb_true_iff in Hr. rewrite Hr. reflexivity.
  - cbn [app span_hex]. rewrite Hc, IH. reflexivity.
Qed.

Lemma of_pos_digits : forall (p : positive) (rest : string), exists ds,
  String.list_ascii_of_string (HexString.Raw.of_pos p rest)
  = ds ++ String.list_ascii_of_string rest /\
  Forall (fun c => is_hex_digit c = true) ds.
Proof.
  fix IH 1. intros p rest.
  do 4 try destruct p as [p|p|];
    try (eexists [_]; split; [reflexivity|repeat constructor]);
    cbn [HexString.Raw.of_pos];
    match goal with
    | |- context [HexString.Raw.of_pos p (String ?c rest)] =>
        destruct (IH p (String c rest)) as (ds & E & H); exists (ds ++ [c]);
        split; [rewrite E, <- app_assoc; reflexivity|
                apply Forall_app; split; [exact H|repeat constructor]]
    end.
Qed.

Lemma hex_digits n :
  Forall (fun c => is_hex_digit c = true) (String.list_ascii_of_string (hex n)).
Proof.
  destruct n as [|p|p]; try (repeat constructor).
  unfold hex. destruct (of_pos_digits p EmptyString) as (ds & E & H).
  rewrite E. cbn [String.list_ascii_of_string]. rewrite app_nil_r. exact H.
Qed.

Lemma number_back_hex label n rest :
  0 <= n -> stops (backwards label ++ rest) = true ->
  number_back label (backwards (hex n) ++ backwards label ++ rest) = Some (n, rest).
Proof.
  intros Hn Hs. unfold number_back.
  rewrite span_hex_app; [|apply Forall_rev, hex_digits|exact Hs].
  rewrite strip_app. cbn [mbind option_bind].
  unfold backwards at 1. rewrite rev_involutive, String.string_of_list_ascii_of_string.
  rewrite unhex_hex by exact Hn. reflexivity.
Qed.

Lemma id_back_heading heading id :
  id_back heading (backwards endl ++ backwards id ++ backwards heading) = Some id.
Proof.
  unfold id_back. rewrite strip_app. cbn [mbind option_bind].
  unfold backwards at 1 2. rewrite <- rev_app_distr, rev_involutive, strip_app.
  cbn [mbind option_bind]. rewrite String.string_of_list_ascii_of_string. reflexivity.
Qed.


Local Ltac bind_step := cbn [mbind option_bind].

Lemma read_isa_print d :
  0 <= portBase (IsaDeviceDescriptor.m_isaResource d) ->
  0 <= portSize (IsaDeviceDescriptor.m_isaResource d) ->
  read_isa (IsaDeviceDescriptor.print d)
  = Some (IsaShown (IsaDeviceDescriptor.m_id d)
            (portBase (IsaDeviceDescriptor.m_isaResource d))
            (portSize (IsaDeviceDescriptor.m_isaResource d))).
Proof.
  intros Hb Hs. unfold read_isa, IsaDeviceDescriptor.print.
  rewrite !backwards_app, <- !app_assoc.
  rewrite strip_app_app, strip_app. bind_step.
  rewrite number_back_hex by (exact Hs || reflexivity). bind_step.
  rewrite number_back_hex by (exact Hb || reflexivity). bind_step.
  rewrite id_back_heading. reflexivity.
Qed.

Lemma append_nil_r (s : string) : s +:+ EmptyString = s.
Proof. induction s as [|c s IH]; [reflexivity|]. rewrite append_cons, IH. reflexivity. Qed.

(** The line of one resource, with its index. *)
Lemma print_resources_snoc i rs res :
  backwards (PciDeviceDescriptor.print_resources i (rs ++ [res]))
  = backwards ("R[" +:+ hex i +:+ "]: " +:+ resource_line res)
    ++ backwards (PciDeviceDescriptor.print_resources i rs).
Proof.
  rewrite print_resources_app, backwards_app. reflexivity.
Qed.

Lemma resource_back_line i res rest :
  0 <= i -> 0 <= size res ->
  resource_back (backwards ("R[" +:+ hex i +:+ "]: " +:+ resource_line res) ++ rest)
  = Some (shown_resource res, rest).
Proof.
  intros Hi Hs. unfold resource_back, resource_line.
  rewrite !backwards_app, <- !app_assoc.
  rewrite strip_app. bind_step.
  rewrite number_back_hex by (reflexivity || (destruct (prefetchable res); simpl; lia)). bind_step.
  rewrite number_back_hex by (reflexivity || (destruct (isIo res); simpl; lia)). bind_step.
  rewrite number_back_hex by (exact Hs || reflexivity). bind_step.
  rewrite strip_app. bind_step.
  rewrite number_back_hex by (exact Hi || reflexivity). bind_step.
  reflexivity.
Qed.

Lemma resources_back_print i rs :
  0 <= i -> Forall (fun res => 0 <= size res) rs ->
  forall fuel acc rest,
    (length rs <= fuel)%nat -> resource_back rest = None ->
    resources_back fuel (backwards (PciDeviceDescriptor.print_resources i rs) ++ rest) acc
    = ((shown_resource <$> rs) ++ acc, rest).
Proof.
  intros Hi. induction rs as [|res rs IH] using rev_ind; intros Hrs fuel acc rest Hf Hrest.
  - cbn [PciDeviceDescriptor.print_resources]. change (backwards EmptyString) with (@nil Ascii.ascii).
    cbn [app fmap list_fmap]. destruct fuel; [reflexivity|].
    cbn [resources_back]. rewrite Hrest. reflexivity.
  - apply Forall_app in Hrs. destruct Hrs as [Hrs Hres].
    apply Forall_cons in Hres. destruct Hres as [Hres _].
    rewrite length_app in Hf. cbn [length] in Hf.
    destruct fuel as [|fuel]; [lia|].
    rewrite print_resources_snoc, <- app_assoc. cbn [resources_back].
    rewrite resource_back_line by assumption.
    rewrite IH by (assumption || lia).
    rewrite fmap_app, <- app_assoc. reflexivity.
Qed.

Lemma print_resources_length i rs :
  (length rs <= length (backwards (PciDeviceDescriptor.print_resources i rs)))%nat.
Proof.
  unfold backwards. rewrite length_rev.
  induction rs as [|res rs IH]; [cbn; lia|].
  cbn [PciDeviceDescriptor.print_resources]. rewrite chars_app.
  rewrite !chars_app, !length_app. cbn [length String.list_ascii_of_string]. lia.
Qed.

Lemma number_back_other label n l :
  stops l = true -> strip (backwards label) l = None ->
  number_back label (backwards (hex n) ++ l) = None.
Proof.
  intros Hs Hl. unfold number_back.
  rewrite span_hex_app; [|apply Forall_rev, hex_digits|exact Hs].
  rewrite Hl. reflexivity.
Qed.

(** The line before the resources is not a resource line. *)
Lemma resource_back_stops n rest :
  resource_back (backwards endl ++ backwards (hex n) ++ backwards " INT=0x" ++ rest) = None.
Proof.
  unfold resource_back. rewrite strip_app. bind_step.
  rewrite number_back_other by reflexivity. reflexivity.
Qed.

Lemma read_pci_print d :
  0 <= PciDeviceDescriptor.m_vid d -> 0 <= PciDeviceDescriptor.m_pid d ->
  0 <= PciDeviceDescriptor.m_revisionId d -> 0 <= PciDeviceDescriptor.m_classCode d ->
  0 <= PciDeviceDescriptor.m_interruptPin d ->
  Forall (fun res => 0 <= size res) (PciDeviceDescriptor.m_resources d) ->
  read_pci (PciDeviceDescriptor.print d)
  = Some (PciShown (PciDeviceDescriptor.m_id d)
            (PciDeviceDescriptor.m_vid d) (PciDeviceDescriptor.m_pid d)
            (PciDeviceDescriptor.m_revisionId d) (PciDeviceDescriptor.m_classCode d)
            (PciDeviceDescriptor.m_interruptPin d)
            (shown_resource <$> PciDeviceDescriptor.m_resources d)).
Proof.
  intros Hv Hp Hr Hc Hi Hrs. unfold read_pci, PciDeviceDescriptor.print.
  rewrite !backwards_app, <- !app_assoc.
  rewrite strip_app. bind_step.
  rewrite (resources_back_print 0 _ ltac:(lia) Hrs).
  - rewrite app_nil_r.
    rewrite strip_app. bind_step.
    rewrite number_back_hex by (exact Hi || reflexivity). bind_step.
    rewrite number_back_hex by (exact Hc || reflexivity). bind_step.
    rewrite strip_app. bind_step.
    rewrite number_back_hex by (exact Hr || reflexivity). bind_step.
    rewrite number_back_hex by (exact Hp || reflexivity). bind_step.
    rewrite number_back_hex by (exact Hv || reflexivity). bind_step.
    rewrite id_back_heading. reflexivity.
  - rewrite length_app. pose proof (print_resources_length 0 (PciDeviceDescriptor.m_resources d)). lia.
  - apply resource_back_stops.
Qed.

Lemma read_dump_print dd :
  match dd with
  | DeviceDescriptor.Base _ => True
  | DeviceDescriptor.Isa d =>
      0 <= portBase (IsaDeviceDescriptor.m_isaResource d) /\
      0 <= portSize (IsaDeviceDescriptor.m_isaResource d)
  | DeviceDescriptor.Pci d =>
      0 <= PciDeviceDescriptor.m_vid d /\ 0 <= PciDeviceDescriptor.m_pid d /\
      0 <= PciDeviceDescriptor.m_revisionId d /\ 0 <= PciDeviceDescriptor.m_classCode d /\
      0 <= PciDeviceDescriptor.m_interruptPin d /\
      Forall (fun res => 0 <= size res) (PciDeviceDescriptor.m_resources d)
  end ->
  read_dump (DeviceDescriptor.print dd) = shows dd.
Proof.
  destruct dd as [id|d|d]; intros H.
  - reflexivity.
  - destruct H as [Hb Hs]. unfold read_dump. cbn [DeviceDescriptor.print shows].
    replace (String.prefix "ISA Device Descriptor id=" (IsaDeviceDescriptor.print d)) with true
      by (symmetry; apply prefix_append).
    apply read_isa_print; assumption.
  - destruct H as (Hv & Hp & Hr & Hc & Hi & Hrs). unfold read_dump.
    cbn [DeviceDescriptor.print shows].
    replace (String.prefix "ISA Device Descriptor id=" (PciDeviceDescriptor.print d)) with false
      by reflexivity.
    replace (String.prefix "PCI Device Descriptor id=" (PciDeviceDescriptor.print d)) with true
      by (symmetry; apply prefix_append).
    apply read_pci_print; assumption.
Qed.

(** What a built descriptor holds is never negative. *)
Lemma built_fields_nonnegative cfg key dd :
  DeviceDescriptor.create cfg key = Built dd ->
  match dd with
  | DeviceDescriptor.Base _ => False
  | DeviceDescriptor.Isa d =>
      0 <= portBase (IsaDeviceDescriptor.m_isaResource d) /\
      0 <= portSize (IsaDeviceDescriptor.m_isaResource d)
  | DeviceDescriptor.Pci d =>
      0 <= PciDeviceDescriptor.m_vid d /\ 0 <= PciDeviceDescriptor.m_pid d /\
      0 <= PciDeviceDescriptor.m_revisionId d /\ 0 <= PciDeviceDescriptor.m_classCode d /\
      0 <= PciDeviceDescriptor.m_interruptPin d /\
      Forall (fun res => 0 <= size res) (PciDeviceDescriptor.m_resources d)
  end.
Proof.
  intros H. apply factory_Built in H. destruct H as [(d & -> & H)|(d & -> & H)].
  - apply isa_create_Built in H.
    destruct H as (id & start & sz & q & _ & _ & _ & _ & _ & _ & _ & ->).
    pose proof (uint64_t_range start). pose proof (uint16_t_range sz).
    cbn [IsaDeviceDescriptor.new IsaDeviceDescriptor.m_isaResource portBase portSize]. lia.
  - apply pci_create_Built in H.
    destruct H as (id & vid & pid & cc & rev & pin & ks & rs & _ & _ & _ & _ & _ & _ &
                   _ & _ & _ & _ & Hrs & _ & ->).
    pose proof (uint16_t_range vid). pose proof (uint16_t_range pid).
    pose proof (uint32_t_range cc). pose proof (uint8_t_range rev).
    pose proof (uint8_t_range pin).
    apply read_resources_sizes in Hrs; [|constructor].
    cbn [PciDeviceDescriptor.new PciDeviceDescriptor.m_vid PciDeviceDescriptor.m_pid
         PciDeviceDescriptor.m_revisionId PciDeviceDescriptor.m_classCode
         PciDeviceDescriptor.m_interruptPin PciDeviceDescriptor.m_resources].
    repeat split; try lia. exact Hrs.
Qed.

Lemma read_dump_built cfg key dd :
  DeviceDescriptor.create cfg key = Built dd ->
  read_dump (DeviceDescriptor.print dd) = shows dd.
Proof.
  intros H. apply built_fields_nonnegative in H. apply read_dump_print.
  destruct dd; [exact I|exact H|exact H].
Qed.

(** C7, as the code has it.  The dump of a built descriptor contains its id
    and can be read back without loss of what it shows: read from its end,
    where each number stands between its label and a character that is not
    a digit, it gives the id and, from their hexadecimal digits, for an ISA
    descriptor the port base and the port size, and for a PCI descriptor
    the vendor id, the product id, the revision id, the class code, the
    interrupt pin and, for each resource in order, its size and its two
    flags.  So two built descriptors with the same dump agree in the id and
    in all these fields. *)
Theorem print_shows_fields cfg key dd :
  DeviceDescriptor.create cfg key = Built dd ->
  contains ("id=" +:+ DeviceDescriptor.getId dd +:+ endl) (DeviceDescriptor.print dd) = true /\
  is_Some (shows dd) /\
  read_dump (DeviceDescriptor.print dd) = shows dd /\
  (forall cfg' key' dd',
     DeviceDescriptor.create cfg' key' = Built dd' ->
     DeviceDescriptor.print dd' = DeviceDescriptor.print dd ->
     shows dd' = shows dd).
Proof.
  intros H. split; [|split; [|split]].
  - apply built_fields_nonnegative in H. destruct dd as [id|d|d]; [destruct H| |].
    + apply (contains_intro "ISA Device Descriptor "%string _
               ("Base=0x" +:+ hex (portBase (IsaDeviceDescriptor.m_isaResource d)) +:+
                " Size=0x" +:+ hex (portSize (IsaDeviceDescriptor.m_isaResource d)) +:+
                endl +:+ endl)).
      cbn [DeviceDescriptor.print DeviceDescriptor.getId]. unfold IsaDeviceDescriptor.print.
      rewrite ?append_assoc. reflexivity.
    + apply (contains_intro "PCI Device Descriptor "%string _
               ("VID=0x" +:+ hex (PciDeviceDescriptor.m_vid d) +:+
                " PID=0x" +:+ hex (PciDeviceDescriptor.m_pid d) +:+
                " RevID=0x" +:+ hex (PciDeviceDescriptor.m_revisionId d) +:+ endl +:+
                "Class=0x" +:+ hex (PciDeviceDescriptor.m_classCode d) +:+
                " INT=0x" +:+ hex (PciDeviceDescriptor.m_interruptPin d) +:+ endl +:+
                PciDeviceDescriptor.print_resources 0 (PciDeviceDescriptor.m_resources d) +:+
                endl)).
      cbn [DeviceDescriptor.print DeviceDescriptor.getId]. unfold PciDeviceDescriptor.print.
      rewrite ?append_assoc. reflexivity.
  - apply built_fields_nonnegative in H. destruct dd as [id|d|d]; [destruct H| |];
      eexists; reflexivity.
  - apply (read_dump_built _ _ _ H).
  - intros cfg' key' dd' H' E.
    rewrite <- (read_dump_built _ _ _ H), <- (read_dump_built _ _ _ H'), E. reflexivity.
Qed.

(** Two dumps that differ in nothing although the descriptors differ in
    their irq; the irq digit is absent; and the second resource of a PCI
    descriptor is printed under index 0, index 1 is absent. *)
Lemma print_omits_irq_and_index :
  DeviceDescriptor.create (isa_cfg "sym0" 0x300 0x10 7) "hw.dev" =
    Built (DeviceDescriptor.Isa
             (IsaDeviceDescriptor.new "sym0" {| portBase := 0x300; portSize := 0x10; irq := 7 |})) /\
  DeviceDescriptor.create (isa_cfg "sym0" 0x300 0x10 5) "hw.dev" =
    Built (DeviceDescriptor.Isa
             (IsaDeviceDescriptor.new "sym0" {| portBase := 0x300; portSize := 0x10; irq := 5 |})) /\
  IsaDeviceDescriptor.print
    (IsaDeviceDescriptor.new "sym0" {| portBase := 0x300; portSize := 0x10; irq := 7 |}) =
  IsaDeviceDescriptor.print
    (IsaDeviceDescriptor.new "sym0" {| portBase := 0x300; portSize := 0x10; irq := 5 |}) /\
  contains (hex 7)
    (IsaDeviceDescriptor.print
       (IsaDeviceDescriptor.new "sym0" {| portBase := 0x300; portSize := 0x10; irq := 7 |})) = false /\
  DeviceDescriptor.create (pci_cfg 0x0200 1 ["r0"; "r1"]%string) "hw.dev" =
    Built (DeviceDescriptor.Pci
             (PciDeviceDescriptor.new "symp0" 0x1234 0x5678 0x0200 1 1
                [mmio_0x1000; mmio_0x1000])) /\
  contains "R[1]"
    (PciDeviceDescriptor.print
       (PciDeviceDescriptor.new "symp0" 0x1234 0x5678 0x0200 1 1
          [mmio_0x1000; mmio_0x1000])) = false.
Proof.
  split; [vm_compute; reflexivity|].
  split; [vm_compute; reflexivity|].
  split; [vm_compute; reflexivity|].
  split; [vm_compute; reflexivity|].
  split; vm_compute; reflexivity.
Qed.

Lemma print_shows_fields_witness :
  (contains ("id=" +:+ DeviceDescriptor.getId (DeviceDescriptor.Isa sym0) +:+ endl)
     (DeviceDescriptor.print (DeviceDescriptor.Isa sym0)) = true /\
   is_Some (shows (DeviceDescriptor.Isa sym0)) /\
   read_dump (DeviceDescriptor.print (DeviceDescriptor.Isa sym0))
     = shows (DeviceDescriptor.Isa sym0) /\
   (forall cfg' key' dd',
      DeviceDescriptor.create cfg' key' = Built dd' ->
      DeviceDescriptor.print dd' = DeviceDescriptor.print (DeviceDescriptor.Isa sym0) ->
      shows dd' = shows (DeviceDescriptor.Isa sym0))) /\
  shows (DeviceDescriptor.Isa sym0) = Some (IsaShown "sym0" 0x300 0x10) /\
  (contains ("id=" +:+ DeviceDescriptor.getId (DeviceDescriptor.Pci symp_io) +:+ endl)
     (DeviceDescriptor.print (DeviceDescriptor.Pci symp_io)) = true /\
   is_Some (shows (DeviceDescriptor.Pci symp_io)) /\
   read_dump (DeviceDescriptor.print (DeviceDescriptor.Pci symp_io))
     = shows (DeviceDescriptor.Pci symp_io) /\
   (forall cfg' key' dd',
      DeviceDescriptor.create cfg' key' = Built dd' ->
      DeviceDescriptor.print dd' = DeviceDescriptor.print (DeviceDescriptor.Pci symp_io) ->
      shows dd' = shows (DeviceDescriptor.Pci symp_io))) /\
  shows (DeviceDescriptor.Pci symp_io)
    = Some (PciShown "symp0" 0x1234 0x5678 1 0x0200 1 [(0x100, 1, 0); (0x2000, 0, 1)]).
Proof.
  split; [|split; [|split]].
  - apply (print_shows_fields (isa_cfg "sym0" 0x300 0x10 7) "hw.dev" (DeviceDescriptor.Isa sym0)).
    vm_compute. reflexivity.
  - reflexivity.
  - apply (print_shows_fields (pci_io_cfg 1) "hw.dev" (DeviceDescriptor.Pci symp_io)).
    vm_compute. reflexivity.
  - reflexivity.
Defined.

(** ** The order of ids *)

Lemma compare_refl (a : string) : String.compare a a = Eq.
Proof.
  pose proof (String.compare_antisym a a) as H.
  destruct (String.compare a a); simpl in H; congruence.
Qed.

Lemma ltb_irrefl (a : string) : String.ltb a a = false.
Proof. unfold String.ltb. rewrite compare_refl. reflexivity. Qed.

Lemma ltb_leb (a b : string) : String.ltb a b = true -> String.leb a b = true.
Proof. unfold String.ltb, String.leb. destruct (String.compare a b); congruence. Qed.

Lemma ltb_asym (a b : string) : String.ltb a b = true -> String.ltb b a = false.
Proof.
  unfold String.ltb. rewrite (String.compare_antisym a b).
  destruct (String.compare b a); simpl; congruence.
Qed.

Lemma ltb_trans (a b c : string) :
  String.ltb a b = true -> String.ltb b c = true -> String.ltb a c = true.
Proof.
  intros Hab Hbc.
  assert (Hle : String.le a c).
  { transitivity b; unfold String.le; apply Is_true_true; apply ltb_leb; assumption. }
  apply Is_true_true in Hle.
  unfold String.ltb, String.leb in *.
  destruct (String.compare a c) eqn:E; try congruence.
  apply String.compare_eq_iff in E. subst c.
  pose proof (ltb_asym a b) as Has. unfold String.ltb in Has.
  destruct (String.compare a b), (String.compare b a); try discriminate;
    specialize (Has eq_refl); discriminate.
Qed.

(** Neither id is less than the other: the ids are equal. *)
Lemma ltb_equiv (a b : string) :
  String.ltb a b = false -> String.ltb b a = false -> a = b.
Proof.
  unfold String.ltb. rewrite (String.compare_antisym b a).
  destruct (String.compare a b) eqn:E; simpl; try discriminate.
  intros _ _. apply String.compare_eq_iff. exact E.
Qed.

(** ** The set of descriptor pointers *)

Section std_set_facts.

Variable m : list DeviceDescriptor.t.

Lemma comparator_id p q :
  DeviceDescriptors.comparator m p q = String.ltb (id_at m p) (id_at m q).
Proof. reflexivity. Qed.

(** [find] returns an element of the set whose id is the id of the key. *)
Lemma find_Some l k x :
  DeviceDescriptors.find m l k = Some x -> x ∈ l /\ id_at m x = id_at m k.
Proof.
  unfold DeviceDescriptors.find.
  induction l as [|y l IH]; simpl; [discriminate|].
  destruct (DeviceDescriptors.comparator m y k) eqn:Hyk.
  - intros H. destruct (IH H) as [Hin Hid]. split; [right; exact Hin|exact Hid].
  - destruct (DeviceDescriptors.comparator m k y) eqn:Hky; [discriminate|].
    intros H. inversion H; subst x. split; [left|].
    rewrite comparator_id in Hyk, Hky. apply ltb_equiv; assumption.
Qed.

(** In an ordered set the element with the id of the key is found. *)
Lemma find_elem l k x :
  ordered m l -> x ∈ l -> id_at m x = id_at m k ->
  DeviceDescriptors.find m l k = Some x.
Proof.
  unfold DeviceDescriptors.find.
  induction 1 as [|y l Hs IH Hall]; intros Hin Hid; [inversion Hin|].
  simpl. rewrite comparator_id.
  apply elem_of_cons in Hin. destruct Hin as [->|Hin].
  - rewrite Hid, ltb_irrefl, comparator_id, Hid, ltb_irrefl. reflexivity.
  - rewrite Forall_forall in Hall. specialize (Hall x Hin).
    rewrite <- Hid, Hall. apply IH; assumption.
Qed.

Lemma find_None l k :
  (forall x, x ∈ l -> id_at m x <> id_at m k) ->
  DeviceDescriptors.find m l k = None.
Proof.
  intros Hno. destruct (DeviceDescriptors.find m l k) as [x|] eqn:H; [|reflexivity].
  apply find_Some in H. destruct H as [Hin Hid]. destruct (Hno x Hin Hid).
Qed.

(** Insertion adds at most the new pointer and keeps the others. *)
Lemma elem_of_insert x l y :
  y ∈ DeviceDescriptors.insert m x l -> y = x \/ y ∈ l.
Proof.
  induction l as [|z l IH]; simpl.
  - intros H. apply list_elem_of_singleton in H. left. exact H.
  - destruct (DeviceDescriptors.comparator m z x).
    + intros H. apply elem_of_cons in H. destruct H as [->|H].
      * right. left.
      * destruct (IH H) as [->|Hin]; [left; reflexivity|right; right; exact Hin].
    + destruct (DeviceDescriptors.comparator m x z).
      * intros H. apply elem_of_cons in H. destruct H as [->|H]; [left; reflexivity|right; exact H].
      * intros H. right. exact H.
Qed.

Lemma insert_keeps x l y : y ∈ l -> y ∈ DeviceDescriptors.insert m x l.
Proof.
  induction l as [|z l IH]; simpl; [intros H; inversion H|].
  intros H. apply elem_of_cons in H.
  destruct (DeviceDescriptors.comparator m z x).
  - destruct H as [->|H]; [left|right; apply IH; exact H].
  - destruct (DeviceDescriptors.comparator m x z).
    + right. destruct H as [->|H]; [left|right; exact H].
    + destruct H as [->|H]; [left|right; exact H].
Qed.

(** After the insertion some element has the id of the inserted pointer:
    the pointer itself, or the element that blocked it. *)
Lemma insert_represented x l :
  exists y, y ∈ DeviceDescriptors.insert m x l /\ id_at m y = id_at m x /\
            (y = x \/ y ∈ l).
Proof.
  induction l as [|z l IH]; simpl.
  - exists x. split; [left|split; [reflexivity|left; reflexivity]].
  - destruct (DeviceDescriptors.comparator m z x) eqn:Hzx.
    + destruct IH as (y & Hin & Hid & Hor). exists y.
      split; [right; exact Hin|split; [exact Hid|]].
      destruct Hor as [->|Hy]; [left; reflexivity|right; right; exact Hy].
    + destruct (DeviceDescriptors.comparator m x z) eqn:Hxz.
      * exists x. split; [left|split; [reflexivity|left; reflexivity]].
      * exists z. split; [left|split; [|right; left]].
        rewrite comparator_id in Hzx, Hxz. apply ltb_equiv; assumption.
Qed.

Lemma insert_ordered x l : ordered m l -> ordered m (DeviceDescriptors.insert m x l).
Proof.
  unfold ordered. induction 1 as [|z l Hs IH Hall]; simpl.
  - repeat constructor.
  - destruct (DeviceDescriptors.comparator m z x) eqn:Hzx.
    + constructor; [exact IH|].
      rewrite Forall_forall. intros y Hy. apply elem_of_insert in Hy.
      destruct Hy as [->|Hy]; [exact Hzx|].
      rewrite Forall_forall in Hall. apply Hall. exact Hy.
    + destruct (DeviceDescriptors.comparator m x z) eqn:Hxz.
      * constructor; [constructor; assumption|].
        constructor; [exact Hxz|].
        rewrite Forall_forall. intros y Hy.
        rewrite Forall_forall in Hall. rewrite comparator_id in Hxz.
        apply (ltb_trans _ _ _ Hxz). apply Hall. exact Hy.
      * constructor; assumption.
Qed.

(** The ids of an ordered set are pairwise different. *)
Lemma ordered_unique l x y :
  ordered m l -> x ∈ l -> y ∈ l -> id_at m x = id_at m y -> x = y.
Proof.
  induction 1 as [|z l Hs IH Hall]; intros Hx Hy Hid; [inversion Hx|].
  rewrite Forall_forall in Hall.
  apply elem_of_cons in Hx. apply elem_of_cons in Hy.
  destruct Hx as [->|Hx], Hy as [->|Hy].
  - reflexivity.
  - specialize (Hall y Hy). rewrite Hid, ltb_irrefl in Hall. discriminate.
  - specialize (Hall x Hx). rewrite Hid, ltb_irrefl in Hall. discriminate.
  - apply IH; assumption.
Qed.

End std_set_facts.

(** ** Growing the store *)

Lemma id_at_app m more p :
  (p < length m)%nat -> id_at (m ++ more) p = id_at m p.
Proof.
  intros Hp. unfold id_at, DeviceDescriptors.deref.
  rewrite lookup_app_l by exact Hp. reflexivity.
Qed.

Lemma id_at_new m d : id_at (m ++ [d]) (length m) = DeviceDescriptor.getId d.
Proof.
  unfold id_at, DeviceDescriptors.deref.
  rewrite lookup_app_r by lia. rewrite Nat.sub_diag. reflexivity.
Qed.

Lemma ordered_ext m m' l :
  (forall p, p ∈ l -> id_at m' p = id_at m p) -> ordered m l -> ordered m' l.
Proof.
  unfold ordered. intros Hext Hs. induction Hs as [|z l Hs IH Hall].
  - constructor.
  - constructor.
    + apply IH. intros p Hp. apply Hext. right. exact Hp.
    + rewrite Forall_forall in *. intros y Hy.
      rewrite (Hext z), (Hext y); [apply Hall; exact Hy|right; exact Hy|left].
Qed.

Lemma ordered_app m more l :
  Forall (fun p => (p < length m)%nat) l -> ordered m l -> ordered (m ++ more) l.
Proof.
  intros Hl. apply ordered_ext. intros p Hp. apply id_at_app.
  rewrite Forall_forall in Hl. apply Hl. exact Hp.
Qed.

(** ** Lookup in the registry *)

Lemma findDevice_Some s name p :
  registry_ok s ->
  SymbolicHardware.findDevice s name = Some p ->
  p ∈ SymbolicHardware.m_devices s /\ id_at (SymbolicHardware.objects s) p = name.
Proof.
  intros [_ Hlt] H. unfold SymbolicHardware.findDevice in H.
  apply find_Some in H. destruct H as [Hin Hid]. split; [exact Hin|].
  rewrite id_at_new in Hid. simpl in Hid. rewrite <- Hid. symmetry. apply id_at_app.
  rewrite Forall_forall in Hlt. apply Hlt. exact Hin.
Qed.

Lemma findDevice_elem s p :
  registry_ok s ->
  p ∈ SymbolicHardware.m_devices s ->
  SymbolicHardware.findDevice s (id_at (SymbolicHardware.objects s) p) = Some p.
Proof.
  intros [Hord Hlt] Hin. unfold SymbolicHardware.findDevice.
  apply find_elem.
  - apply ordered_app; assumption.
  - exact Hin.
  - rewrite id_at_new. simpl. apply id_at_app.
    rewrite Forall_forall in Hlt. apply Hlt. exact Hin.
Qed.

Lemma findDevice_None s name :
  registry_ok s ->
  (forall p, p ∈ SymbolicHardware.m_devices s ->
             id_at (SymbolicHardware.objects s) p <> name) ->
  SymbolicHardware.findDevice s name = None.
Proof.
  intros Hok Hno.
  destruct (SymbolicHardware.findDevice s name) as [p|] eqn:H; [|reflexivity].
  apply findDevice_Some in H; [|exact Hok]. destruct H as [Hin Hid].
  destruct (Hno p Hin Hid).
Qed.

(** ** Start-up *)

Lemma fresh_ok : registry_ok SymbolicHardware.fresh.
Proof. split; constructor. Qed.

Lemma turn_ok d s : registry_ok s -> registry_ok (turn d s).
Proof.
  intros [Hord Hlt]. split; simpl.
  - apply insert_ordered. apply ordered_app; assumption.
  - rewrite Forall_forall in *. intros p Hp. apply elem_of_insert in Hp.
    rewrite length_app. simpl. destruct Hp as [->|Hp]; [lia|]. specialize (Hlt p Hp). lia.
Qed.

(** What a completed loop has done: every key built, the objects were stored
    in the order of the keys, nothing was written to the warnings stream,
    the set kept its elements, and every stored object has an element of the
    set with its id that is not younger than itself. *)
Lemma initialize_loop_Returned cfg configKey keys s s' :
  SymbolicHardware.initialize_loop cfg configKey keys s = SymbolicHardware.Returned s' ->
  registry_ok s ->
  registry_ok s' /\
  (exists ds,
     Forall2 (fun it d => DeviceDescriptor.create cfg (configKey +:+ "." +:+ it) = Built d) keys ds /\
     SymbolicHardware.objects s' = SymbolicHardware.objects s ++ ds) /\
  SymbolicHardware.warningsStream s' = SymbolicHardware.warningsStream s /\
  SymbolicHardware.connected s' = SymbolicHardware.connected s /\
  (forall p, p ∈ SymbolicHardware.m_devices s -> p ∈ SymbolicHardware.m_devices s') /\
  (forall q, (length (SymbolicHardware.objects s) <= q < length (SymbolicHardware.objects s'))%nat ->
     exists p, p ∈ SymbolicHardware.m_devices s' /\
               id_at (SymbolicHardware.objects s') p = id_at (SymbolicHardware.objects s') q /\
               (p <= q)%nat).
Proof.
  revert s. induction keys as [|it rest IH]; intros s H Hok; simpl in H.
  - inversion H; subst s'. split; [exact Hok|]. split; [exists []; split; [constructor|]|].
    + rewrite app_nil_r. reflexivity.
    + repeat split; try reflexivity; [auto|]. intros q Hq. lia.
  - destruct (DeviceDescriptor.create cfg (configKey +:+ "." +:+ it)) as [d| |] eqn:Hd;
      try discriminate.
    change (SymbolicHardware.initialize_loop cfg configKey rest (turn d s)
            = SymbolicHardware.Returned s') in H.
    pose proof (turn_ok d s Hok) as Hok1.
    destruct (IH _ H Hok1) as (Hok' & (ds & Hds & Hobj) & Hw & Hc & Hkeep & Hrep).
    simpl in Hobj, Hw, Hc.
    split; [exact Hok'|]. split.
    { exists (d :: ds). split; [constructor; assumption|].
      rewrite Hobj, <- app_assoc. reflexivity. }
    split; [exact Hw|]. split; [exact Hc|]. split.
    { intros p Hp. apply Hkeep. simpl. apply insert_keeps. exact Hp. }
    intros q Hq.
    destruct (decide (q = length (SymbolicHardware.objects s))) as [->|Hne].
    + destruct (insert_represented (SymbolicHardware.objects s ++ [d])
                  (length (SymbolicHardware.objects s)) (SymbolicHardware.m_devices s))
        as (y & Hin & Hid & Hor).
      exists y. split; [apply Hkeep; exact Hin|].
      assert (Hy : (y <= length (SymbolicHardware.objects s))%nat).
      { destruct Hor as [->|Hy]; [lia|]. destruct Hok as [_ Hlt].
        rewrite Forall_forall in Hlt. specialize (Hlt y Hy). lia. }
      split; [|exact Hy].
      rewrite Hobj.
      rewrite (id_at_app _ ds y) by (rewrite length_app; simpl; lia).
      rewrite (id_at_app _ ds (length (SymbolicHardware.objects s)))
        by (rewrite length_app; simpl; lia).
      exact Hid.
    + apply Hrep. simpl. rewrite length_app. simpl. lia.
Qed.

(** The loop completes when every entry builds. *)
Lemma initialize_loop_total cfg configKey keys s :
  Forall (fun it => is_built (DeviceDescriptor.create cfg (configKey +:+ "." +:+ it)) = true) keys ->
  exists s', SymbolicHardware.initialize_loop cfg configKey keys s = SymbolicHardware.Returned s'.
Proof.
  intros Hall. revert s. induction Hall as [|it rest Hit Hall IH]; intros s; simpl.
  - exists s. reflexivity.
  - destruct (DeviceDescriptor.create cfg (configKey +:+ "." +:+ it)) as [d| |];
      try discriminate.
    apply IH.
Qed.

Lemma initialize_ok cfg configKey s0 s :
  SymbolicHardware.initialize cfg configKey s0 = SymbolicHardware.Returned s ->
  registry_ok s0 -> registry_ok s.
Proof.
  unfold SymbolicHardware.initialize. intros H Hok.
  destruct (ConfigFile.getListKeys cfg configKey) as [keys ok].
  destruct (negb ok || bool_decide (keys = [])).
  - inversion H. exact Hok.
  - destruct (SymbolicHardware.initialize_loop cfg configKey keys _) as [s1| |] eqn:Hl;
      try discriminate.
    inversion H. apply initialize_loop_Returned in Hl; [|exact Hok].
    destruct Hl as [Hok1 _]. exact Hok1.
Qed.

(** After a start-up that returns, the id of the descriptor built from any
    entry of the device list is found, and the object found carries that id
    and was built from that entry or from an earlier one. *)
Lemma findDevice_of_built cfg configKey keys s i it d :
  ConfigFile.getListKeys cfg configKey = (keys, true) ->
  SymbolicHardware.initialize cfg configKey SymbolicHardware.fresh
    = SymbolicHardware.Returned s ->
  keys !! i = Some it ->
  DeviceDescriptor.create cfg (configKey +:+ "." +:+ it) = Built d ->
  exists p d',
    SymbolicHardware.findDevice s (DeviceDescriptor.getId d) = Some p /\
    (p <= i)%nat /\
    SymbolicHardware.objects s !! p = Some d' /\
    DeviceDescriptor.getId d' = DeviceDescriptor.getId d.
Proof.
  intros Hkeys Hinit Hi Hd.
  pose proof (initialize_ok _ _ _ _ Hinit fresh_ok) as Hok.
  unfold SymbolicHardware.initialize in Hinit. rewrite Hkeys in Hinit. simpl in Hinit.
  rewrite bool_decide_eq_false_2 in Hinit by (intros ->; discriminate).
  destruct (SymbolicHardware.initialize_loop cfg configKey keys _) as [s1| |] eqn:Hloop;
    try discriminate.
  inversion Hinit; subst s. clear Hinit.
  apply initialize_loop_Returned in Hloop; [|split; constructor].
  destruct Hloop as (Hok1 & (ds & Hds & Hobj) & _ & _ & _ & Hrep).
  simpl in Hobj, Hrep.
  destruct (Forall2_lookup_l _ _ _ _ _ Hds Hi) as (d0 & Hli & Hb).
  rewrite Hd in Hb. inversion Hb; subst d0.
  destruct (Hrep i) as (p & Hp & Hpid & Hpi).
  { split; [lia|]. rewrite Hobj. apply lookup_lt_Some in Hli. exact Hli. }
  assert (Hidi : id_at (SymbolicHardware.objects s1) i = DeviceDescriptor.getId d).
  { unfold id_at, DeviceDescriptors.deref. rewrite Hobj, Hli. reflexivity. }
  destruct Hok1 as [Hord Hlt].
  pose proof Hlt as Hlt'. rewrite Forall_forall in Hlt'. specialize (Hlt' p Hp).
  destruct (lookup_lt_is_Some_2 _ _ Hlt') as [d' Hd'].
  exists p, d'. split.
  { rewrite <- Hidi, <- Hpid.
    apply (findDevice_elem (SymbolicHardware.connect s1)); [split; assumption|exact Hp]. }
  split; [exact Hpi|]. split; [exact Hd'|].
  rewrite <- Hidi, <- Hpid. unfold id_at, DeviceDescriptors.deref. rewrite Hd'. reflexivity.
Qed.

(** C9. After start-up, looking up the id of a descriptor held by the
    registry returns that very object, every successful lookup returns a
    stored object of the registry whose id is the name asked for, and a name
    that is the id of no descriptor of the registry yields [NULL]. *)
Theorem findDevice_exact cfg configKey s0 s :
  registry_ok s0 ->
  SymbolicHardware.initialize cfg configKey s0 = SymbolicHardware.Returned s ->
  (forall dd, dd ∈ SymbolicHardware.m_devices s ->
     SymbolicHardware.findDevice s (id_at (SymbolicHardware.objects s) dd) = Some dd) /\
  (forall name dd, SymbolicHardware.findDevice s name = Some dd ->
     dd ∈ SymbolicHardware.m_devices s /\
     exists d, SymbolicHardware.objects s !! dd = Some d /\ DeviceDescriptor.getId d = name) /\
  (forall name,
     (forall dd, dd ∈ SymbolicHardware.m_devices s ->
                 id_at (SymbolicHardware.objects s) dd <> name) ->
     SymbolicHardware.findDevice s name = None).
Proof.
  intros Hok0 H. pose proof (initialize_ok _ _ _ _ H Hok0) as Hok.
  split; [|split].
  - intros dd Hin. apply findDevice_elem; assumption.
  - intros name dd Hf. apply findDevice_Some in Hf; [|exact Hok].
    destruct Hf as [Hin Hid]. split; [exact Hin|].
    destruct Hok as [_ Hlt]. rewrite Forall_forall in Hlt. specialize (Hlt dd Hin).
    destruct (lookup_lt_is_Some_2 _ _ Hlt) as [d Hd]. exists d. split; [exact Hd|].
    unfold id_at, DeviceDescriptors.deref in Hid. rewrite Hd in Hid. exact Hid.
  - intros name Hno. apply findDevice_None; assumption.
Qed.

Lemma findDevice_exact_witness :
  SymbolicHardware.findDevice dup_state "sym0" = Some 0%nat /\
  SymbolicHardware.findDevice dup_state "symp0" = None.
Proof.
  assert (H : SymbolicHardware.initialize dup_cfg "hw" SymbolicHardware.fresh
              = SymbolicHardware.Returned dup_state) by (vm_compute; reflexivity).
  assert (Hok : registry_ok SymbolicHardware.fresh) by (split; constructor).
  destruct (findDevice_exact dup_cfg "hw" SymbolicHardware.fresh dup_state Hok H)
    as (H1 & _ & H3).
  split.
  - apply (H1 0%nat). vm_compute. constructor.
  - apply H3. intros dd Hin. vm_compute in Hin.
    apply list_elem_of_singleton in Hin. subst dd. vm_compute. discriminate.
Defined.

(** ** Configurations the start-up does not reject *)




(** The start-up on an absent or an empty device list returns. *)
Lemma no_device_list_not_fatal :
  SymbolicHardware.initialize ∅ "hw" SymbolicHardware.fresh =
    SymbolicHardware.Returned
      (SymbolicHardware.write_warnings
         ("No symbolic device descriptor specified in hw. S2E will start without symbolic hardware."
          +:+ endl)
         (SymbolicHardware.write_messages
            ("======= Initializing Symbolic Hardware =======" +:+ endl)
            SymbolicHardware.fresh)) /\
  SymbolicHardware.initialize empty_list_cfg "hw" SymbolicHardware.fresh =
    SymbolicHardware.initialize ∅ "hw" SymbolicHardware.fresh /\
  (forall status s,
     SymbolicHardware.initialize empty_list_cfg "hw" SymbolicHardware.fresh
       <> SymbolicHardware.Exited status s).
Proof.
  split; [vm_compute; reflexivity|].
  split; [vm_compute; reflexivity|].
  intros status s. vm_compute. discriminate.
Qed.

(** C3, as the code has it.  When the device list is absent or empty the
    start-up writes its diagnostic to the warnings stream and returns: the
    process goes on without symbolic hardware, the registry is left as it
    was and nothing is connected to the registration event. *)
Theorem initialize_without_devices cfg configKey keys ok s :
  ConfigFile.getListKeys cfg configKey = (keys, ok) ->
  ok = false \/ keys = [] ->
  SymbolicHardware.initialize cfg configKey s =
    SymbolicHardware.Returned
      (SymbolicHardware.write_warnings
         ("No symbolic device descriptor specified in " +:+ configKey +:+ "." +:+
          " S2E will start without symbolic hardware." +:+ endl)
         (SymbolicHardware.write_messages
            ("======= Initializing Symbolic Hardware =======" +:+ endl) s)).
Proof.
  intros Hkeys Hor. unfold SymbolicHardware.initialize. rewrite Hkeys.
  destruct Hor as [->| ->]; [reflexivity|].
  rewrite bool_decide_eq_true_2 by reflexivity. rewrite orb_true_r. reflexivity.
Qed.

Lemma initialize_without_devices_witness :
  SymbolicHardware.initialize empty_list_cfg "hw" SymbolicHardware.fresh =
    SymbolicHardware.Returned
      (SymbolicHardware.write_warnings
         ("No symbolic device descriptor specified in " +:+ "hw" +:+ "." +:+
          " S2E will start without symbolic hardware." +:+ endl)
         (SymbolicHardware.write_messages
            ("======= Initializing Symbolic Hardware =======" +:+ endl)
            SymbolicHardware.fresh)).
Proof.
  apply (initialize_without_devices empty_list_cfg "hw" [] true).
  - vm_compute. reflexivity.
  - right. reflexivity.
Defined.

(** ** Registration of the PCI device type *)

Lemma alter_at_length {A} (f : A -> A) (l : list A) (x : A) (rest : list A) :
  alter f (length l) (l ++ x :: rest) = l ++ f x :: rest.
Proof.
  replace (length l) with (length l + 0)%nat by lia.
  rewrite alter_app_r. reflexivity.
Qed.

Lemma alter_after_length {A} (f : A -> A) (l : list A) (i : nat) (rest : list A) :
  alter f (length l + i)%nat (l ++ rest) = l ++ alter f i rest.
Proof. apply alter_app_r. Qed.

(** The whole effect of the registration: four objects are allocated, and
    the record handed to [pci_qdev_register] carries in [vmsd] the value
    [m_vmState] had when the function was entered. *)
Lemma initializeQemuDevice_effect a d h :
  let n := length (Host.heap h) in
  PciQemuDevice.initializeQemuDevice a d h =
    (PciQemuDevice.set_m_vmStateFields (Some (n + 3)%nat)
       (PciQemuDevice.set_m_vmState (Some (n + 2)%nat)
          (PciQemuDevice.set_m_pciInfoProperties (Some (n + 1)%nat)
             (PciQemuDevice.set_m_pciInfo (Some n) d))),
     {| Host.heap := Host.heap h ++
          [Host.ObjPCIDeviceInfo
             {| Host.qdev :=
                  {| Host.name := PciDeviceDescriptor.m_id d;
                     Host.size := Host.sizeof_SymbolicPciDeviceState a;
                     Host.vmsd := PciDeviceDescriptor.m_vmState d;
                     Host.props := Some (n + 1)%nat |};
                Host.init := Some Host.addr_pci_symbhw_init;
                Host.exit := Some Host.addr_pci_symbhw_uninit |};
           Host.ObjProperty [true];
           Host.ObjVMStateDescription
             {| Host.vm_name := PciDeviceDescriptor.m_id d;
                Host.version_id := 3;
                Host.minimum_version_id := 3;
                Host.minimum_version_id_old := 3;
                Host.fields := None |};
           Host.ObjVMStateField [Some (PciQemuDevice.dev_field a); None]];
        Host.pci_qdev_registered := Host.pci_qdev_registered h ++ [n] |}).
Proof.
  destruct h as [hp reg]. destruct d.
  cbv beta iota zeta delta
    [PciQemuDevice.initializeQemuDevice Host.alloc Host.store Host.pci_qdev_register
     Host.heap Host.pci_qdev_registered PciQemuDevice.set_m_pciInfo
     PciQemuDevice.set_m_pciInfoProperties PciQemuDevice.set_m_vmState
     PciQemuDevice.set_m_vmStateFields PciDeviceDescriptor.m_pciInfo
     PciDeviceDescriptor.m_pciInfoProperties PciDeviceDescriptor.m_vmState
     PciDeviceDescriptor.m_vmStateFields PciDeviceDescriptor.m_id
     PciDeviceDescriptor.m_vid PciDeviceDescriptor.m_pid PciDeviceDescriptor.m_classCode
     PciDeviceDescriptor.m_revisionId PciDeviceDescriptor.m_interruptPin
     PciDeviceDescriptor.m_resources PciDeviceDescriptor.mmio_io_addr].
  repeat (rewrite length_alter || rewrite length_app). cbn [length].
  rewrite <- !Nat.add_assoc. cbn [Nat.add].
  rewrite !alter_at_length.
  rewrite <- !app_assoc. cbn [app].
  rewrite !alter_at_length.
  rewrite <- !app_assoc. cbn [app].
  rewrite !(alter_after_length _ hp 2). cbn [alter list_alter].
  rewrite <- !app_assoc. cbn [app].
  rewrite !(alter_after_length _ hp 3). cbn [alter list_alter].
  reflexivity.
Qed.

(** C4. For a descriptor as the sub-builder returns it, the record handed to
    [pci_qdev_register] binds both entry points, but its [vmsd] is [NULL]:
    the schema is allocated after [vmsd] was assigned, so it is owned by the
    descriptor and not bound into the record; its field array is not
    attached to it either. *)
Theorem initializeQemuDevice_registers_null_vmsd a h id vid pid classCode revisionId
    interruptPin resources :
  let n := length (Host.heap h) in
  let r := PciQemuDevice.initializeQemuDevice a
             (PciDeviceDescriptor.new id vid pid classCode revisionId interruptPin resources) h in
  exists info schema,
    Host.pci_qdev_registered (snd r) = Host.pci_qdev_registered h ++ [n] /\
    Host.heap (snd r) !! n = Some (Host.ObjPCIDeviceInfo info) /\
    Host.init info = Some Host.addr_pci_symbhw_init /\
    Host.exit info = Some Host.addr_pci_symbhw_uninit /\
    Host.vmsd (Host.qdev info) = None /\
    PciDeviceDescriptor.m_vmState (fst r) = Some (n + 2)%nat /\
    Host.heap (snd r) !! (n + 2)%nat = Some (Host.ObjVMStateDescription schema) /\
    Host.vm_name schema = id /\
    Host.fields schema = None.
Proof.
  intros n r. subst r. rewrite initializeQemuDevice_effect. fold n.
  eexists. eexists. cbn [fst snd Host.heap Host.pci_qdev_registered].
  split; [reflexivity|]. split.
  { rewrite lookup_app_r by (subst n; lia). subst n. rewrite Nat.sub_diag. reflexivity. }
  split; [reflexivity|]. split; [reflexivity|]. split; [reflexivity|].
  split; [reflexivity|]. split.
  { rewrite lookup_app_r by (subst n; lia).
    replace (n + 2 - length (Host.heap h))%nat with 2%nat by (subst n; lia). reflexivity. }
  split; reflexivity.
Qed.

(** ** The PCI init entry point *)

Lemma register_bars_config dev i rs :
  Host.config (Bridge.register_bars dev i rs) = Host.config dev.
Proof.
  revert dev i. induction rs as [|res rs IH]; intros dev i; [reflexivity|].
  simpl. rewrite IH. reflexivity.
Qed.

Lemma register_bars_io_memory dev i rs :
  Host.io_memory (Bridge.register_bars dev i rs) = Host.io_memory dev.
Proof.
  revert dev i. induction rs as [|res rs IH]; intros dev i; [reflexivity|].
  simpl. rewrite IH. reflexivity.
Qed.

(** One BAR per resource, in the order of the resources, the index of a BAR
    being the position of its resource. *)
Lemma register_bars_regions dev i rs :
  Host.io_regions (Bridge.register_bars dev i rs) =
  Host.io_regions dev ++
  imap (fun k res => {| Host.region_num := (i + k)%nat;
                        Host.region_size := size res;
                        Host.region_type := bar_type res;
                        Host.map_func := Host.addr_pci_symbhw_map |}) rs.
Proof.
  revert dev i. induction rs as [|res rs IH]; intros dev i.
  - simpl. rewrite app_nil_r. reflexivity.
  - simpl. rewrite IH. simpl. rewrite <- app_assoc. simpl.
    rewrite Nat.add_0_r. do 2 f_equal.
    apply imap_ext. intros k x _. simpl. f_equal. lia.
Qed.

(** What the init entry point does for the descriptor it finds: the vendor
    id, the device id, the class, the header type and the interrupt pin are
    stored in the configuration space, one BAR is registered per resource, in
    order, and the handle of the one MMIO region is recorded on the
    descriptor. *)
Lemma pci_symbhw_init_effect io_index hw d p dd :
  SymbolicHardware.findDevice hw (Host.dev_name (Bridge.dev d)) = Some p ->
  SymbolicHardware.objects hw !! p = Some (DeviceDescriptor.Pci dd) ->
  exists hw' d',
    Bridge.pci_symbhw_init io_index hw d = Bridge.Done 0 hw' d' /\
    Bridge.desc d' = Some p /\
    SymbolicHardware.objects hw' !! p =
      Some (DeviceDescriptor.Pci (PciQemuDevice.set_mmio_io_addr io_index dd)) /\
    Host.io_memory (Bridge.dev d') = Host.io_memory (Bridge.dev d) ++ [io_index] /\
    Host.io_regions (Bridge.dev d') =
      Host.io_regions (Bridge.dev d) ++
      imap (fun k res => {| Host.region_num := k;
                            Host.region_size := size res;
                            Host.region_type := bar_type res;
                            Host.map_func := Host.addr_pci_symbhw_map |})
           (PciDeviceDescriptor.m_resources dd) /\
    Host.config (Bridge.dev d') =
      <[0x3d%nat := uint8_t (PciDeviceDescriptor.m_interruptPin dd)]>
        (<[Host.PCI_HEADER_TYPE := Host.PCI_HEADER_TYPE_NORMAL]>
           (Host.pci_config_set_class
              (Host.pci_config_set_device_id
                 (Host.pci_config_set_vendor_id (Host.config (Bridge.dev d))
                    (PciDeviceDescriptor.m_vid dd))
                 (PciDeviceDescriptor.m_pid dd))
              (PciDeviceDescriptor.m_classCode dd))).
Proof.
  intros Hfind Hobj. unfold Bridge.pci_symbhw_init. rewrite Hfind, Hobj.
  eexists. eexists. split; [reflexivity|].
  cbn [Bridge.desc Bridge.dev Host.cpu_register_io_memory snd fst
       Host.io_memory Host.io_regions Host.config].
  split; [reflexivity|]. split.
  { cbn [Bridge.set_object SymbolicHardware.objects].
    apply list_lookup_insert_eq. apply lookup_lt_Some in Hobj. exact Hobj. }
  split.
  { rewrite register_bars_io_memory. reflexivity. }
  split.
  { rewrite register_bars_regions. reflexivity. }
  rewrite register_bars_config. reflexivity.
Qed.

(** C5. Whatever the descriptor, the init entry point leaves the revision-id
    byte of the configuration space as it found it: the revision id of the
    descriptor is not written. *)
Theorem pci_symbhw_init_leaves_revision_id io_index hw d status hw' d' :
  Bridge.pci_symbhw_init io_index hw d = Bridge.Done status hw' d' ->
  Host.config (Bridge.dev d') !! Host.PCI_REVISION_ID =
  Host.config (Bridge.dev d) !! Host.PCI_REVISION_ID.
Proof.
  unfold Bridge.pci_symbhw_init. intros H.
  destruct (SymbolicHardware.findDevice hw (Host.dev_name (Bridge.dev d))) as [p|];
    [|discriminate].
  destruct (SymbolicHardware.objects hw !! p) as [[?|?|dd]|]; try discriminate.
  inversion H; subst. cbn [Bridge.dev Host.config Host.cpu_register_io_memory snd].
  rewrite register_bars_config. cbn [Host.config Host.set_config].
  unfold Host.pci_config_set_class, Host.pci_config_set_device_id,
    Host.pci_config_set_vendor_id, Host.pci_set_word.
  rewrite !list_lookup_insert_ne by (vm_compute; discriminate).
  reflexivity.
Qed.

Lemma pci_symbhw_init_leaves_revision_id_witness :
  SymbolicHardware.objects symp0_plugin !! 0%nat = Some (DeviceDescriptor.Pci symp0) /\
  PciDeviceDescriptor.m_revisionId symp0 = 1 /\
  Host.config (Bridge.dev symp0_instance) !! Host.PCI_REVISION_ID = Some 0 /\
  Host.config (Bridge.dev (snd symp0_after)) !! Host.PCI_REVISION_ID =
    Host.config (Bridge.dev symp0_instance) !! Host.PCI_REVISION_ID.
Proof.
  split; [reflexivity|]. split; [reflexivity|]. split; [reflexivity|].
  apply (pci_symbhw_init_leaves_revision_id 5 symp0_plugin symp0_instance 0
           (fst symp0_after) (snd symp0_after)).
  vm_compute. reflexivity.
Defined.

(** ** The two examples, end to end *)

Example sym0_built :
  DeviceDescriptor.create (isa_cfg "sym0" 0x300 0x10 7) "hw.dev"
    = Built (DeviceDescriptor.Isa sym0).
Proof. vm_compute. reflexivity. Qed.

Example symp0_built :
  DeviceDescriptor.create (pci_cfg 0x0200 1 ["r0"%string]) "hw.dev"
    = Built (DeviceDescriptor.Pci symp0).
Proof. vm_compute. reflexivity. Qed.

(** The record registered for [symp0] on a host that holds nothing yet. *)
Example symp0_registered :
  Host.heap (snd (PciQemuDevice.initializeQemuDevice abi0 symp0 host0)) !! 0%nat =
    Some (Host.ObjPCIDeviceInfo
            {| Host.qdev := {| Host.name := "symp0"; Host.size := 0x1000;
                               Host.vmsd := None; Host.props := Some 1%nat |};
               Host.init := Some Host.addr_pci_symbhw_init;
               Host.exit := Some Host.addr_pci_symbhw_uninit |}) /\
  PciDeviceDescriptor.m_vmState (fst (PciQemuDevice.initializeQemuDevice abi0 symp0 host0))
    = Some 2%nat /\
  Host.pci_qdev_registered (snd (PciQemuDevice.initializeQemuDevice abi0 symp0 host0))
    = [0%nat].
Proof.
  split; [vm_compute; reflexivity|].
  split; vm_compute; reflexivity.
Qed.

(** The instance of [symp0] after its init entry point: one MMIO BAR of size
    0x1000 at index 0, the identification bytes of the configuration space,
    and the handle on the descriptor. *)
Example symp0_started :
  Host.io_regions (Bridge.dev (snd symp0_after)) =
    [{| Host.region_num := 0; Host.region_size := 0x1000; Host.region_type := 0;
        Host.map_func := Host.addr_pci_symbhw_map |}] /\
  take 4 (Host.config (Bridge.dev (snd symp0_after))) = [0x34; 0x12; 0x78; 0x56] /\
  Host.config (Bridge.dev (snd symp0_after)) !! Host.PCI_CLASS_DEVICE = Some 0x00 /\
  Host.config (Bridge.dev (snd symp0_after)) !! S Host.PCI_CLASS_DEVICE = Some 0x02 /\
  Host.config (Bridge.dev (snd symp0_after)) !! Host.PCI_HEADER_TYPE = Some 0 /\
  Host.config (Bridge.dev (snd symp0_after)) !! 0x3d%nat = Some 1 /\
  SymbolicHardware.objects (fst symp0_after) !! 0%nat =
    Some (DeviceDescriptor.Pci (PciQemuDevice.set_mmio_io_addr 5 symp0)).
Proof.
  split; [vm_compute; reflexivity|].
  split; [vm_compute; reflexivity|].
  split; [vm_compute; reflexivity|].
  split; [vm_compute; reflexivity|].
  split; [vm_compute; reflexivity|].
  split; vm_compute; reflexivity.
Qed.

(** * Further properties of the code *)

(** ** The factory *)

Lemma isa_create_no_assert cfg key id :
  cfg !! (key +:+ ".id") = Some (ConfigFile.Str id) ->
  IsaDeviceDescriptor.create cfg key <> AssertFailed.
Proof.
  intros Hid. apply (getString_true _ _ EmptyString) in Hid.
  unfold IsaDeviceDescriptor.create. rewrite Hid. simpl.
  destruct (ConfigFile.getInt cfg (key +:+ ".start") 0) as [v1 o1].
  destruct (negb o1 || (65535 <? uint64_t v1)); [discriminate|].
  destruct (ConfigFile.getInt cfg (key +:+ ".size") 0) as [v2 o2].
  destruct (negb o2); [discriminate|].
  destruct (65536 <? uint64_t (uint64_t v1 + uint16_t v2)); [discriminate|].
  destruct (ConfigFile.getInt cfg (key +:+ ".irq") 0) as [v3 o3].
  destruct (negb o3 || (15 <? uint8_t v3)); discriminate.
Qed.

Lemma read_resource_no_assert cfg key it :
  PciDeviceDescriptor.read_resource cfg key it <> AssertFailed.
Proof.
  unfold PciDeviceDescriptor.read_resource.
  destruct (ConfigFile.getBool cfg _ false) as [io o1].
  destruct (negb o1); [discriminate|].
  destruct (ConfigFile.getBool cfg _ false) as [pf o2].
  destruct (negb o2 && negb io); [discriminate|].
  destruct (ConfigFile.getInt cfg _ 0) as [v o3].
  destruct (negb o3); discriminate.
Qed.

Lemma read_resources_no_assert cfg key resKeys acc :
  PciDeviceDescriptor.read_resources cfg key resKeys acc <> AssertFailed.
Proof.
  revert acc. induction resKeys as [|it rest IH]; intros acc; simpl; [discriminate|].
  pose proof (read_resource_no_assert cfg key it) as Hr.
  destruct (PciDeviceDescriptor.read_resource cfg key it); [apply IH|discriminate|congruence].
Qed.

Lemma pci_create_no_assert cfg key id :
  cfg !! (key +:+ ".id") = Some (ConfigFile.Str id) ->
  PciDeviceDescriptor.create cfg key <> AssertFailed.
Proof.
  intros Hid. apply (getString_true _ _ EmptyString) in Hid.
  unfold PciDeviceDescriptor.create. rewrite Hid. simpl.
  destruct (ConfigFile.getInt cfg (key +:+ ".vid") 0) as [v1 o1].
  destruct (negb o1); [discriminate|].
  destruct (ConfigFile.getInt cfg (key +:+ ".pid") 0) as [v2 o2].
  destruct (negb o2); [discriminate|].
  destruct (ConfigFile.getInt cfg (key +:+ ".classCode") 0) as [v3 o3].
  destruct (negb o3 || (16777215 <? uint32_t v3)); [discriminate|].
  destruct (ConfigFile.getInt cfg (key +:+ ".revisionId") 0) as [v4 o4].
  destruct (negb o4); [discriminate|].
  destruct (ConfigFile.getInt cfg (key +:+ ".interruptPin") 0) as [v5 o5].
  destruct (negb o5 || (4 <? uint8_t v5)); [discriminate|].
  destruct (ConfigFile.getListKeys cfg (key +:+ ".resources")) as [ks o6].
  destruct (negb o6 || bool_decide (ks = [])); [discriminate|].
  pose proof (read_resources_no_assert cfg key ks []) as Hr.
  destruct (PciDeviceDescriptor.read_resources cfg key ks []); [|discriminate|congruence].
  destruct (6 <? length a)%nat; discriminate.
Qed.

Lemma factory_no_assert cfg key :
  DeviceDescriptor.create cfg key <> AssertFailed.
Proof.
  unfold DeviceDescriptor.create.
  destruct (ConfigFile.getString cfg (key +:+ ".id") EmptyString) as [id [|]] eqn:Hid;
    simpl; [|discriminate].
  apply getString_true in Hid.
  destruct (bool_decide (id = EmptyString)); [discriminate|].
  destruct (ConfigFile.getString cfg (key +:+ ".type") EmptyString) as [ty [|]];
    simpl; [|discriminate].
  destruct (bool_decide (ty = "isa")) eqn:Ei.
  - rewrite andb_false_r.
    pose proof (isa_create_no_assert cfg key id Hid) as Hn.
    destruct (IsaDeviceDescriptor.create cfg key); simpl; congruence.
  - destruct (bool_decide (ty = "pci")) eqn:Ep; simpl; [|discriminate].
    pose proof (pci_create_no_assert cfg key id Hid) as Hn.
    destruct (PciDeviceDescriptor.create cfg key); simpl; congruence.
Qed.

(** The factory checks the id before it dispatches, so the [assert(ok)] of
    the sub-builders never fails under it: the factory returns a descriptor
    or [NULL]. *)
Theorem factory_never_asserts cfg key :
  DeviceDescriptor.create cfg key <> AssertFailed.
Proof. exact (factory_no_assert cfg key). Qed.

(** A descriptor of the factory is an ISA or a PCI descriptor with an id
    that is not empty. *)
Lemma factory_Built_not_base cfg key dd :
  DeviceDescriptor.create cfg key = Built dd ->
  DeviceDescriptor.getId dd <> EmptyString /\
  forall id, dd <> DeviceDescriptor.Base id.
Proof.
  unfold DeviceDescriptor.create. intros H.
  destruct (ConfigFile.getString cfg (key +:+ ".id") EmptyString) as [id [|]] eqn:Hid;
    simpl in H; [|discriminate].
  apply getString_true in Hid.
  destruct (bool_decide (id = EmptyString)) eqn:Ee; [discriminate|].
  apply bool_decide_eq_false in Ee.
  destruct (ConfigFile.getString cfg (key +:+ ".type") EmptyString) as [ty [|]];
    simpl in H; [|discriminate].
  destruct (bool_decide (ty = "isa")) eqn:Ei.
  - rewrite andb_false_r in H.
    destruct (IsaDeviceDescriptor.create cfg key) as [d| |] eqn:Hc; try discriminate.
    inversion H; subst dd. split; [|discriminate].
    apply isa_create_Built in Hc.
    destruct Hc as (id' & ? & ? & ? & Hid' & _ & _ & _ & _ & _ & _ & ->).
    rewrite Hid in Hid'. inversion Hid'; subst id'. exact Ee.
  - destruct (bool_decide (ty = "pci")) eqn:Ep; [|discriminate]. simpl in H.
    destruct (PciDeviceDescriptor.create cfg key) as [d| |] eqn:Hc; try discriminate.
    inversion H; subst dd. split; [|discriminate].
    apply pci_create_Built in Hc.
    destruct Hc as (id' & ? & ? & ? & ? & ? & ? & ? & Hid' & _ & _ & _ & _ & _ & _ & _ & _ &
                    _ & _ & _ & ->).
    rewrite Hid in Hid'. inversion Hid'; subst id'. exact Ee.
Qed.

(** A descriptor the factory returns carries the configured id, which is
    not empty, and is of the variant the configured type names. *)
Theorem factory_built_id_and_variant cfg key dd :
  DeviceDescriptor.create cfg key = Built dd ->
  exists id,
    cfg !! (key +:+ ".id") = Some (ConfigFile.Str id) /\
    id <> EmptyString /\
    DeviceDescriptor.getId dd = id /\
    match dd with
    | DeviceDescriptor.Base _ => False
    | DeviceDescriptor.Isa _ => cfg !! (key +:+ ".type") = Some (ConfigFile.Str "isa")
    | DeviceDescriptor.Pci _ => cfg !! (key +:+ ".type") = Some (ConfigFile.Str "pci")
    end.
Proof.
  unfold DeviceDescriptor.create. intros H.
  destruct (ConfigFile.getString cfg (key +:+ ".id") EmptyString) as [id [|]] eqn:Hid;
    simpl in H; [|discriminate].
  apply getString_true in Hid.
  destruct (bool_decide (id = EmptyString)) eqn:Ee; [discriminate|].
  apply bool_decide_eq_false in Ee.
  destruct (ConfigFile.getString cfg (key +:+ ".type") EmptyString) as [ty [|]] eqn:Hty;
    simpl in H; [|discriminate].
  apply getString_true in Hty.
  exists id. split; [exact Hid|]. split; [exact Ee|].
  destruct (bool_decide (ty = "isa")) eqn:Ei.
  - rewrite andb_false_r in H. apply bool_decide_eq_true in Ei. subst ty.
    destruct (IsaDeviceDescriptor.create cfg key) as [d| |] eqn:Hc; try discriminate.
    inversion H; subst dd. split; [|exact Hty].
    apply isa_create_Built in Hc.
    destruct Hc as (id' & ? & ? & ? & Hid' & _ & _ & _ & _ & _ & _ & ->).
    rewrite Hid in Hid'. inversion Hid'. reflexivity.
  - destruct (bool_decide (ty = "pci")) eqn:Ep; [|discriminate]. simpl in H.
    apply bool_decide_eq_true in Ep. subst ty.
    destruct (PciDeviceDescriptor.create cfg key) as [d| |] eqn:Hc; try discriminate.
    inversion H; subst dd. split; [|exact Hty].
    apply pci_create_Built in Hc.
    destruct Hc as (id' & ? & ? & ? & ? & ? & ? & ? & Hid' & _ & _ & _ & _ & _ & _ & _ & _ &
                    _ & _ & _ & ->).
    rewrite Hid in Hid'. inversion Hid'. reflexivity.
Qed.

Lemma factory_built_id_and_variant_witness :
  exists id,
    isa_cfg "sym0" 0x300 0x10 7 !! ("hw.dev" +:+ ".id") = Some (ConfigFile.Str id) /\
    id <> EmptyString /\
    DeviceDescriptor.getId (DeviceDescriptor.Isa sym0) = id /\
    isa_cfg "sym0" 0x300 0x10 7 !! ("hw.dev" +:+ ".type") = Some (ConfigFile.Str "isa").
Proof.
  apply (factory_built_id_and_variant (isa_cfg "sym0" 0x300 0x10 7) "hw.dev"
           (DeviceDescriptor.Isa sym0)).
  vm_compute. reflexivity.
Defined.

(** The factory returns [NULL], with its own diagnostic, when the id is
    missing, is not a string or is empty, and when the type is missing or is
    neither "isa" nor "pci"; no sub-builder runs. *)
Theorem factory_rejects_bad_id_or_type cfg key :
  ((forall id, cfg !! (key +:+ ".id") = Some (ConfigFile.Str id) -> id = EmptyString) ->
   DeviceDescriptor.create cfg key =
     Null ("You must specifiy an id for " +:+ key +:+ ". " +:+
           "This is required by QEMU for saving/restoring snapshots." +:+ endl)) /\
  (forall id,
     cfg !! (key +:+ ".id") = Some (ConfigFile.Str id) -> id <> EmptyString ->
     (forall ty, cfg !! (key +:+ ".type") = Some (ConfigFile.Str ty) ->
                 ty <> "isa"%string /\ ty <> "pci"%string) ->
     DeviceDescriptor.create cfg key =
       Null ("You must define either an ISA or PCI device!" +:+ endl)).
Proof.
  split.
  - intros Hno. unfold DeviceDescriptor.create.
    destruct (ConfigFile.getString cfg (key +:+ ".id") EmptyString) as [id [|]] eqn:Hid;
      simpl; [|reflexivity].
    apply getString_true in Hid. rewrite (Hno id Hid).
    rewrite bool_decide_eq_true_2 by reflexivity. reflexivity.
  - intros id Hid Hne Hty. unfold DeviceDescriptor.create.
    apply (getString_true _ _ EmptyString) in Hid. rewrite Hid. simpl.
    rewrite bool_decide_eq_false_2 by exact Hne.
    destruct (ConfigFile.getString cfg (key +:+ ".type") EmptyString) as [ty [|]] eqn:Ht;
      simpl; [|reflexivity].
    apply getString_true in Ht. destruct (Hty ty Ht) as [H1 H2].
    rewrite (bool_decide_eq_false_2 _ H1), (bool_decide_eq_false_2 _ H2). reflexivity.
Qed.

Lemma factory_rejects_bad_id_or_type_witness :
  DeviceDescriptor.create (typed_cfg EmptyString "isa") "hw.dev" =
    Null ("You must specifiy an id for " +:+ "hw.dev" +:+ ". " +:+
          "This is required by QEMU for saving/restoring snapshots." +:+ endl) /\
  DeviceDescriptor.create (typed_cfg "sym0" "usb") "hw.dev" =
    Null ("You must define either an ISA or PCI device!" +:+ endl).
Proof.
  split.
  - apply (proj1 (factory_rejects_bad_id_or_type (typed_cfg EmptyString "isa") "hw.dev")).
    intros id H. vm_compute in H. inversion H. reflexivity.
  - apply (proj2 (factory_rejects_bad_id_or_type (typed_cfg "sym0" "usb") "hw.dev") "sym0"%string).
    + vm_compute. reflexivity.
    + discriminate.
    + intros ty H. vm_compute in H. inversion H. split; discriminate.
Defined.

(** ** The ISA sub-builder, continued *)

(** The resource of a descriptor the ISA sub-builder returns satisfies the
    invariant of the bus: base and size are 16-bit values, the range ends at
    0x10000 at the latest, the irq is at most 15; the descriptor is not yet
    registered with the host. *)
Theorem isa_built_resource_invariant cfg key d :
  IsaDeviceDescriptor.create cfg key = Built d ->
  0 <= portBase (IsaDeviceDescriptor.m_isaResource d) <= 0xFFFF /\
  0 <= portSize (IsaDeviceDescriptor.m_isaResource d) <= 0xFFFF /\
  portBase (IsaDeviceDescriptor.m_isaResource d)
    + portSize (IsaDeviceDescriptor.m_isaResource d) <= 0x10000 /\
  0 <= irq (IsaDeviceDescriptor.m_isaResource d) <= 15 /\
  IsaDeviceDescriptor.m_isaInfo d = None.
Proof.
  intros H. apply isa_create_Built in H.
  destruct H as (id & start & sz & q & _ & _ & _ & _ & Hs & Hr & Hq & ->).
  pose proof (uint64_t_range start). pose proof (uint16_t_range sz).
  pose proof (uint8_t_range q). simpl. repeat split; lia.
Qed.

Lemma isa_built_resource_invariant_witness :
  0 <= portBase (IsaDeviceDescriptor.m_isaResource sym0) <= 0xFFFF /\
  0 <= portSize (IsaDeviceDescriptor.m_isaResource sym0) <= 0xFFFF /\
  portBase (IsaDeviceDescriptor.m_isaResource sym0)
    + portSize (IsaDeviceDescriptor.m_isaResource sym0) <= 0x10000 /\
  0 <= irq (IsaDeviceDescriptor.m_isaResource sym0) <= 15 /\
  IsaDeviceDescriptor.m_isaInfo sym0 = None.
Proof.
  apply (isa_built_resource_invariant (isa_cfg "sym0" 0x300 0x10 7) "hw.dev" sym0).
  vm_compute. reflexivity.
Defined.

(** A missing size makes the ISA sub-builder return [NULL] without writing
    any diagnostic, unlike a bad start or a bad irq. *)
Theorem isa_missing_size_is_silent cfg key id start :
  cfg !! (key +:+ ".id") = Some (ConfigFile.Str id) ->
  cfg !! (key +:+ ".start") = Some (ConfigFile.Integer start) ->
  0 <= start <= 0xFFFF ->
  (forall size, cfg !! (key +:+ ".size") <> Some (ConfigFile.Integer size)) ->
  IsaDeviceDescriptor.create cfg key = Null EmptyString.
Proof.
  intros Hid Hstart Hrange Hno.
  apply (getString_true _ _ EmptyString) in Hid. apply (getInt_true _ _ 0) in Hstart.
  unfold IsaDeviceDescriptor.create. rewrite Hid, Hstart. simpl.
  rewrite (uint64_t_small start) by lia.
  destruct (65535 <? start) eqn:E; [apply Z.ltb_lt in E; lia|].
  destruct (ConfigFile.getInt cfg (key +:+ ".size") 0) as [v [|]] eqn:Hsize; [|reflexivity].
  apply getInt_true in Hsize. destruct (Hno v Hsize).
Qed.

Lemma isa_missing_size_is_silent_witness :
  IsaDeviceDescriptor.create isa_no_size_cfg "hw.dev" = Null EmptyString.
Proof.
  apply (isa_missing_size_is_silent isa_no_size_cfg "hw.dev" "sym0" 0x300).
  - vm_compute. reflexivity.
  - vm_compute. reflexivity.
  - lia.
  - intros size H. vm_compute in H. discriminate.
Defined.

(** ** The PCI sub-builder, continued *)

Lemma read_resource_Built cfg key it res :
  PciDeviceDescriptor.read_resource cfg key it = Built res ->
  cfg !! ((key +:+ ".resources." +:+ it) +:+ ".isIo") = Some (ConfigFile.Boolean (isIo res)) /\
  (exists v, cfg !! ((key +:+ ".resources." +:+ it) +:+ ".size") = Some (ConfigFile.Integer v) /\
             size res = uint32_t v) /\
  (isIo res = false ->
   cfg !! ((key +:+ ".resources." +:+ it) +:+ ".isPrefetchable")
     = Some (ConfigFile.Boolean (prefetchable res))) /\
  ((forall b, cfg !! ((key +:+ ".resources." +:+ it) +:+ ".isPrefetchable")
              <> Some (ConfigFile.Boolean b)) ->
   prefetchable res = false).
Proof.
  unfold PciDeviceDescriptor.read_resource.
  destruct (ConfigFile.getBool cfg ((key +:+ ".resources." +:+ it) +:+ ".isIo") false)
    as [io [|]] eqn:Hio; simpl; [|discriminate].
  destruct (ConfigFile.getBool cfg ((key +:+ ".resources." +:+ it) +:+ ".isPrefetchable") false)
    as [pf o2] eqn:Hpf.
  destruct (negb o2 && negb io) eqn:E; [discriminate|].
  destruct (ConfigFile.getInt cfg ((key +:+ ".resources." +:+ it) +:+ ".size") 0)
    as [v [|]] eqn:Hv; simpl; [|discriminate].
  intros H. inversion H; subst res. simpl.
  apply getBool_true in Hio. apply getInt_true in Hv.
  split; [exact Hio|]. split; [exists v; split; [exact Hv|reflexivity]|]. split.
  - intros ->. destruct o2; [|discriminate]. apply getBool_true in Hpf. exact Hpf.
  - intros Hno. destruct o2.
    + apply getBool_true in Hpf. destruct (Hno pf Hpf).
    + unfold ConfigFile.getBool in Hpf.
      destruct (cfg !! ((key +:+ ".resources." +:+ it) +:+ ".isPrefetchable")) as [[]|];
        inversion Hpf; reflexivity.
Qed.

Lemma read_resources_in_order cfg key resKeys acc rs :
  PciDeviceDescriptor.read_resources cfg key resKeys acc = Built rs ->
  exists new, rs = acc ++ new /\
    Forall2 (fun it res => PciDeviceDescriptor.read_resource cfg key it = Built res) resKeys new.
Proof.
  revert acc. induction resKeys as [|it rest IH]; intros acc H; simpl in H.
  - inversion H. exists []. split; [rewrite app_nil_r; reflexivity|constructor].
  - destruct (PciDeviceDescriptor.read_resource cfg key it) as [res| |] eqn:Hr; try discriminate.
    destruct (IH _ H) as (new & -> & Hall).
    exists (res :: new). split; [rewrite <- app_assoc; reflexivity|].
    constructor; assumption.
Qed.

(** The resources of a descriptor the PCI sub-builder returns are the
    entries of the resources list, one for one and in the order of the
    list, each read from its own sub-section: [isIo] and the size (narrowed
    to 32 bits) as configured, [isPrefetchable] as configured for a memory
    resource, and false for a resource that has no such key. *)
Theorem pci_resources_in_declaration_order cfg key d :
  PciDeviceDescriptor.create cfg key = Built d ->
  exists resKeys,
    cfg !! (key +:+ ".resources") = Some (ConfigFile.Table resKeys) /\
    Forall2
      (fun it res =>
         cfg !! ((key +:+ ".resources." +:+ it) +:+ ".isIo")
           = Some (ConfigFile.Boolean (isIo res)) /\
         (exists v, cfg !! ((key +:+ ".resources." +:+ it) +:+ ".size")
                      = Some (ConfigFile.Integer v) /\ size res = uint32_t v) /\
         (isIo res = false ->
          cfg !! ((key +:+ ".resources." +:+ it) +:+ ".isPrefetchable")
            = Some (ConfigFile.Boolean (prefetchable res))) /\
         ((forall b, cfg !! ((key +:+ ".resources." +:+ it) +:+ ".isPrefetchable")
                     <> Some (ConfigFile.Boolean b)) ->
          prefetchable res = false))
      resKeys (PciDeviceDescriptor.m_resources d).
Proof.
  intros H. apply pci_create_Built in H.
  destruct H as (id & vid & pid & cc & rev & pin & ks & rs & _ & _ & _ & _ & _ & _ &
                 Hks & _ & _ & _ & Hrs & _ & ->).
  exists ks. split; [exact Hks|]. simpl.
  apply read_resources_in_order in Hrs. destruct Hrs as (new & -> & Hall). simpl.
  eapply Forall2_impl; [exact Hall|].
  intros it res Hr. apply read_resource_Built. exact Hr.
Qed.

Lemma pci_resources_in_declaration_order_witness :
  exists resKeys,
    pci_io_cfg 1 !! ("hw.dev" +:+ ".resources") = Some (ConfigFile.Table resKeys) /\
    Forall2
      (fun it res =>
         pci_io_cfg 1 !! (("hw.dev" +:+ ".resources." +:+ it) +:+ ".isIo")
           = Some (ConfigFile.Boolean (isIo res)) /\
         (exists v, pci_io_cfg 1 !! (("hw.dev" +:+ ".resources." +:+ it) +:+ ".size")
                      = Some (ConfigFile.Integer v) /\ size res = uint32_t v) /\
         (isIo res = false ->
          pci_io_cfg 1 !! (("hw.dev" +:+ ".resources." +:+ it) +:+ ".isPrefetchable")
            = Some (ConfigFile.Boolean (prefetchable res))) /\
         ((forall b, pci_io_cfg 1 !! (("hw.dev" +:+ ".resources." +:+ it) +:+ ".isPrefetchable")
                     <> Some (ConfigFile.Boolean b)) ->
          prefetchable res = false))
      resKeys (PciDeviceDescriptor.m_resources symp_io).
Proof.
  apply (pci_resources_in_declaration_order (pci_io_cfg 1) "hw.dev" symp_io).
  vm_compute. reflexivity.
Defined.

(** Every field of a descriptor the PCI sub-builder returns fits its
    register: vendor and product id 16 bits, class code 24 bits, revision
    id 8 bits, interrupt pin 0 to 4, every resource size 32 bits, between
    one and six resources; the descriptor is not yet registered with the
    host. *)
Theorem pci_built_field_invariant cfg key d :
  PciDeviceDescriptor.create cfg key = Built d ->
  0 <= PciDeviceDescriptor.m_vid d < 2 ^ 16 /\
  0 <= PciDeviceDescriptor.m_pid d < 2 ^ 16 /\
  0 <= PciDeviceDescriptor.m_classCode d <= 0xFFFFFF /\
  0 <= PciDeviceDescriptor.m_revisionId d < 2 ^ 8 /\
  0 <= PciDeviceDescriptor.m_interruptPin d <= 4 /\
  (1 <= length (PciDeviceDescriptor.m_resources d) <= 6)%nat /\
  Forall (fun res => 0 <= size res < 2 ^ 32) (PciDeviceDescriptor.m_resources d) /\
  PciDeviceDescriptor.m_pciInfo d = None /\
  PciDeviceDescriptor.m_vmState d = None.
Proof.
  intros H. apply pci_create_Built in H.
  destruct H as (id & vid & pid & cc & rev & pin & ks & rs & _ & _ & _ & _ & _ & _ &
                 _ & Ec & Ep & Hne & Hrs & Hlen & ->).
  pose proof (uint16_t_range vid). pose proof (uint16_t_range pid).
  pose proof (uint32_t_range cc). pose proof (uint8_t_range rev).
  pose proof (uint8_t_range pin). simpl.
  change (2 ^ 16) with 65536. change (2 ^ 8) with 256.
  split; [lia|]. split; [lia|]. split; [lia|]. split; [lia|]. split; [lia|].
  split.
  { pose proof (read_resources_length _ _ _ _ _ Hrs) as Hl. simpl in Hl.
    destruct ks; [congruence|]. simpl in Hl. lia. }
  split; [|split; reflexivity].
  apply read_resources_in_order in Hrs. destruct Hrs as (new & -> & Hall). simpl.
  clear -Hall. induction Hall as [|it res ks new Hr Hall IH]; constructor; [|exact IH].
  apply read_resource_Built in Hr. destruct Hr as (_ & (v & _ & ->) & _).
  pose proof (uint32_t_range v). change (2 ^ 32) with 4294967296. lia.
Qed.

Lemma pci_built_field_invariant_witness :
  0 <= PciDeviceDescriptor.m_vid symp_io < 2 ^ 16 /\
  0 <= PciDeviceDescriptor.m_pid symp_io < 2 ^ 16 /\
  0 <= PciDeviceDescriptor.m_classCode symp_io <= 0xFFFFFF /\
  0 <= PciDeviceDescriptor.m_revisionId symp_io < 2 ^ 8 /\
  0 <= PciDeviceDescriptor.m_interruptPin symp_io <= 4 /\
  (1 <= length (PciDeviceDescriptor.m_resources symp_io) <= 6)%nat /\
  Forall (fun res => 0 <= size res < 2 ^ 32) (PciDeviceDescriptor.m_resources symp_io) /\
  PciDeviceDescriptor.m_pciInfo symp_io = None /\
  PciDeviceDescriptor.m_vmState symp_io = None.
Proof.
  apply (pci_built_field_invariant (pci_io_cfg 1) "hw.dev" symp_io).
  vm_compute. reflexivity.
Defined.

(** An interrupt pin from 5 to 255 makes the PCI sub-builder fail, whatever
    the rest of the section. *)
Theorem pci_interrupt_pin_above_4_rejected cfg key interruptPin :
  cfg !! (key +:+ ".interruptPin") = Some (ConfigFile.Integer interruptPin) ->
  4 < interruptPin < 256 ->
  is_built (PciDeviceDescriptor.create cfg key) = false.
Proof.
  intros Hpin Hrange.
  destruct (PciDeviceDescriptor.create cfg key) as [d| |] eqn:H; try reflexivity.
  exfalso. apply pci_create_Built in H.
  destruct H as (id & vid & pid & cc & rev & pin & ks & rs & _ & _ & _ & _ & _ & Hpin' &
                 _ & _ & Ep & _).
  rewrite Hpin in Hpin'. inversion Hpin'; subst pin.
  rewrite uint8_t_small in Ep by lia. lia.
Qed.

Lemma pci_interrupt_pin_above_4_rejected_witness :
  is_built (PciDeviceDescriptor.create (pci_io_cfg 5) "hw.dev") = false.
Proof.
  apply (pci_interrupt_pin_above_4_rejected (pci_io_cfg 5) "hw.dev" 5).
  - vm_compute. reflexivity.
  - lia.
Defined.

(** ** Diagnostics *)

Lemma literal_append_nonempty c s t : String c s +:+ t <> EmptyString.
Proof. rewrite append_cons. discriminate. Qed.

Local Ltac diagnostic :=
  let E := fresh in
  intros E; inversion E; subst;
  match goal with
  | H : _ = EmptyString |- _ => destruct (literal_append_nonempty _ _ _ H)
  | H : EmptyString = _ |- _ => symmetry in H; destruct (literal_append_nonempty _ _ _ H)
  end.

Lemma read_resource_diagnostic cfg key it :
  PciDeviceDescriptor.read_resource cfg key it <> Null EmptyString.
Proof.
  unfold PciDeviceDescriptor.read_resource.
  destruct (ConfigFile.getBool cfg _ false) as [io o1].
  destruct (negb o1); [diagnostic|].
  destruct (ConfigFile.getBool cfg _ false) as [pf o2].
  destruct (negb o2 && negb io); [diagnostic|].
  destruct (ConfigFile.getInt cfg _ 0) as [v o3].
  destruct (negb o3); [diagnostic|discriminate].
Qed.

Lemma read_resources_diagnostic cfg key resKeys acc :
  PciDeviceDescriptor.read_resources cfg key resKeys acc <> Null EmptyString.
Proof.
  revert acc. induction resKeys as [|it rest IH]; intros acc; simpl; [discriminate|].
  pose proof (read_resource_diagnostic cfg key it) as Hr.
  destruct (PciDeviceDescriptor.read_resource cfg key it) as [res|ws|];
    [apply IH| |discriminate].
  intros E. inversion E; subst ws. destruct (Hr eq_refl).
Qed.

(** The PCI sub-builder never fails without a diagnostic. *)
Lemma pci_create_diagnostic cfg key :
  PciDeviceDescriptor.create cfg key <> Null EmptyString.
Proof.
  unfold PciDeviceDescriptor.create.
  destruct (ConfigFile.getString cfg (key +:+ ".id") EmptyString) as [id o0].
  destruct (negb o0); [discriminate|].
  destruct (ConfigFile.getInt cfg (key +:+ ".vid") 0) as [v1 o1].
  destruct (negb o1); [diagnostic|].
  destruct (ConfigFile.getInt cfg (key +:+ ".pid") 0) as [v2 o2].
  destruct (negb o2); [diagnostic|].
  destruct (ConfigFile.getInt cfg (key +:+ ".classCode") 0) as [v3 o3].
  destruct (negb o3 || (16777215 <? uint32_t v3)); [diagnostic|].
  destruct (ConfigFile.getInt cfg (key +:+ ".revisionId") 0) as [v4 o4].
  destruct (negb o4); [diagnostic|].
  destruct (ConfigFile.getInt cfg (key +:+ ".interruptPin") 0) as [v5 o5].
  destruct (negb o5 || (4 <? uint8_t v5)); [diagnostic|].
  destruct (ConfigFile.getListKeys cfg (key +:+ ".resources")) as [ks o6].
  destruct (negb o6 || bool_decide (ks = [])); [diagnostic|].
  pose proof (read_resources_diagnostic cfg key ks []) as Hr.
  destruct (PciDeviceDescriptor.read_resources cfg key ks []) as [rs|ws|];
    [| |discriminate].
  - destruct (6 <? length rs)%nat; [diagnostic|discriminate].
  - intros E. inversion E; subst ws. destruct (Hr eq_refl).
Qed.

(** The ISA sub-builder fails without a diagnostic only on an unreadable
    size. *)
Lemma isa_create_silent cfg key :
  IsaDeviceDescriptor.create cfg key = Null EmptyString ->
  forall size, cfg !! (key +:+ ".size") <> Some (ConfigFile.Integer size).
Proof.
  unfold IsaDeviceDescriptor.create.
  destruct (ConfigFile.getString cfg (key +:+ ".id") EmptyString) as [id o0].
  destruct (negb o0); [discriminate|].
  destruct (ConfigFile.getInt cfg (key +:+ ".start") 0) as [v1 o1].
  destruct (negb o1 || (65535 <? uint64_t v1)); [diagnostic|].
  destruct (ConfigFile.getInt cfg (key +:+ ".size") 0) as [v2 [|]] eqn:Hsize; simpl.
  - destruct (65536 <? uint64_t (uint64_t v1 + uint16_t v2)); [diagnostic|].
    destruct (ConfigFile.getInt cfg (key +:+ ".irq") 0) as [v3 o3].
    destruct (negb o3 || (15 <? uint8_t v3)); [diagnostic|discriminate].
  - intros _ sz Hsz. apply (getInt_true _ _ 0) in Hsz. rewrite Hsz in Hsize. discriminate.
Qed.

(** The factory fails without writing a diagnostic in one case only: an ISA
    device whose size cannot be read.  Every other failure, of the factory
    itself or of a sub-builder, comes with a text on the warnings stream. *)
Theorem factory_only_silent_failure cfg key :
  DeviceDescriptor.create cfg key = Null EmptyString ->
  cfg !! (key +:+ ".type") = Some (ConfigFile.Str "isa") /\
  forall size, cfg !! (key +:+ ".size") <> Some (ConfigFile.Integer size).
Proof.
  unfold DeviceDescriptor.create.
  destruct (ConfigFile.getString cfg (key +:+ ".id") EmptyString) as [id [|]];
    simpl; [|diagnostic].
  destruct (bool_decide (id = EmptyString)); [diagnostic|].
  destruct (ConfigFile.getString cfg (key +:+ ".type") EmptyString) as [ty [|]] eqn:Hty;
    simpl; [|diagnostic].
  apply getString_true in Hty.
  destruct (bool_decide (ty = "isa")) eqn:Ei.
  - rewrite andb_false_r. apply bool_decide_eq_true in Ei. subst ty.
    destruct (IsaDeviceDescriptor.create cfg key) as [d|ws|] eqn:Hc; simpl; try discriminate.
    intros H. inversion H; subst ws. split; [exact Hty|].
    apply isa_create_silent. exact Hc.
  - destruct (bool_decide (ty = "pci")) eqn:Ep; simpl; [|diagnostic].
    pose proof (pci_create_diagnostic cfg key) as Hn.
    destruct (PciDeviceDescriptor.create cfg key) as [d|ws|]; simpl; try discriminate.
    intros H. inversion H; subst ws. destruct (Hn eq_refl).
Qed.

Lemma factory_only_silent_failure_witness :
  isa_no_size_cfg !! ("hw.dev" +:+ ".type") = Some (ConfigFile.Str "isa") /\
  forall size, isa_no_size_cfg !! ("hw.dev" +:+ ".size") <> Some (ConfigFile.Integer size).
Proof.
  apply (factory_only_silent_failure isa_no_size_cfg "hw.dev").
  vm_compute. reflexivity.
Defined.

(** ** Start-up, continued *)

(** The loop runs its turns as long as the entries build. *)
Lemma initialize_loop_app cfg configKey pre rest ds s :
  Forall2 (fun it d => DeviceDescriptor.create cfg (configKey +:+ "." +:+ it) = Built d) pre ds ->
  SymbolicHardware.initialize_loop cfg configKey (pre ++ rest) s =
  SymbolicHardware.initialize_loop cfg configKey rest (turns ds s).
Proof.
  intros Hall. revert s. induction Hall as [|it d pre ds Hd Hall IH]; intros s.
  - reflexivity.
  - simpl. rewrite Hd. apply IH.
Qed.

Lemma turns_streams ds s :
  SymbolicHardware.objects (turns ds s) = SymbolicHardware.objects s ++ ds /\
  SymbolicHardware.messagesStream (turns ds s)
    = SymbolicHardware.messagesStream s +:+ dumps_of ds /\
  SymbolicHardware.warningsStream (turns ds s) = SymbolicHardware.warningsStream s /\
  SymbolicHardware.connected (turns ds s) = SymbolicHardware.connected s.
Proof.
  revert s. induction ds as [|d ds IH]; intros s.
  - simpl. rewrite app_nil_r, append_nil_r. repeat split; reflexivity.
  - change (turns (d :: ds) s) with (turns ds (turn d s)).
    destruct (IH (turn d s)) as (Ho & Hm & Hw & Hc).
    rewrite Ho, Hm, Hw, Hc. simpl.
    rewrite <- app_assoc, append_assoc. repeat split; reflexivity.
Qed.

Lemma built_entries cfg configKey keys :
  Forall (fun it => is_built (DeviceDescriptor.create cfg (configKey +:+ "." +:+ it)) = true) keys ->
  exists ds,
    Forall2 (fun it d => DeviceDescriptor.create cfg (configKey +:+ "." +:+ it) = Built d) keys ds.
Proof.
  induction 1 as [|it keys Hit Hall (ds & IH)].
  - exists []. constructor.
  - destruct (DeviceDescriptor.create cfg (configKey +:+ "." +:+ it)) as [d| |] eqn:Hd;
      try discriminate.
    exists (d :: ds). constructor; assumption.
Qed.

Lemma initialize_loop_no_abort cfg configKey keys s s' :
  SymbolicHardware.initialize_loop cfg configKey keys s <> SymbolicHardware.Aborted s'.
Proof.
  revert s. induction keys as [|it rest IH]; intros s; simpl; [discriminate|].
  pose proof (factory_no_assert cfg (configKey +:+ "." +:+ it)) as Hn.
  destruct (DeviceDescriptor.create cfg (configKey +:+ "." +:+ it));
    [apply IH|discriminate|congruence].
Qed.

Lemma initialize_loop_exit_status cfg configKey keys s status s' :
  SymbolicHardware.initialize_loop cfg configKey keys s = SymbolicHardware.Exited status s' ->
  status = -1.
Proof.
  revert s. induction keys as [|it rest IH]; intros s; simpl; [discriminate|].
  destruct (DeviceDescriptor.create cfg (configKey +:+ "." +:+ it));
    [apply IH| |discriminate].
  intros H. inversion H. reflexivity.
Qed.

(** The start-up returns or ends the process with [exit(-1)]; no assertion
    of the builders can fail under it. *)
Theorem initialize_returns_or_exits cfg configKey s :
  match SymbolicHardware.initialize cfg configKey s with
  | SymbolicHardware.Returned _ => True
  | SymbolicHardware.Exited status _ => status = -1
  | SymbolicHardware.Aborted _ => False
  end.
Proof.
  unfold SymbolicHardware.initialize.
  destruct (ConfigFile.getListKeys cfg configKey) as [keys ok].
  destruct (negb ok || bool_decide (keys = [])); [exact I|].
  destruct (SymbolicHardware.initialize_loop cfg configKey keys _) as [s1|st s1|s1] eqn:Hl.
  - exact I.
  - apply initialize_loop_exit_status in Hl. exact Hl.
  - destruct (initialize_loop_no_abort _ _ _ _ _ Hl).
Qed.

(** The first entry that fails to build ends the process: the status is -1,
    the warnings stream receives the diagnostic of the builder followed by
    the line naming the entry, the entries before it have been built and
    printed, the entries after it are not looked at, and nothing is
    connected to the registration event. *)
Theorem initialize_exits_on_first_failure cfg configKey pre it post ws s :
  ConfigFile.getListKeys cfg configKey = (pre ++ it :: post, true) ->
  Forall (fun k => is_built (DeviceDescriptor.create cfg (configKey +:+ "." +:+ k)) = true) pre ->
  DeviceDescriptor.create cfg (configKey +:+ "." +:+ it) = Null ws ->
  exists s' ds,
    SymbolicHardware.initialize cfg configKey s = SymbolicHardware.Exited (-1) s' /\
    SymbolicHardware.warningsStream s' =
      (SymbolicHardware.warningsStream s +:+ ws) +:+
      ("Failed to create a symbolic device for " +:+ (configKey +:+ "." +:+ it) +:+ endl) /\
    Forall2 (fun k d => DeviceDescriptor.create cfg (configKey +:+ "." +:+ k) = Built d) pre ds /\
    SymbolicHardware.objects s' = SymbolicHardware.objects s ++ ds /\
    SymbolicHardware.messagesStream s' =
      (SymbolicHardware.messagesStream s +:+
       ("======= Initializing Symbolic Hardware =======" +:+ endl)) +:+ dumps_of ds /\
    SymbolicHardware.connected s' = SymbolicHardware.connected s.
Proof.
  intros Hkeys Hpre Hit.
  destruct (built_entries _ _ _ Hpre) as [ds Hds].
  unfold SymbolicHardware.initialize. rewrite Hkeys. simpl.
  rewrite bool_decide_eq_false_2 by (destruct pre; discriminate).
  rewrite (initialize_loop_app _ _ _ _ _ _ Hds). simpl. rewrite Hit.
  eexists. exists ds. split; [reflexivity|].
  destruct (turns_streams ds
              (SymbolicHardware.write_messages
                 ("======= Initializing Symbolic Hardware =======" +:+ endl) s))
    as (Ho & Hm & Hw & Hc).
  simpl. rewrite Ho, Hm, Hw, Hc. simpl.
  repeat split; try reflexivity. exact Hds.
Qed.

Lemma initialize_exits_on_first_failure_witness :
  exists s' ds,
    SymbolicHardware.initialize second_bad_cfg "hw" SymbolicHardware.fresh
      = SymbolicHardware.Exited (-1) s' /\
    SymbolicHardware.warningsStream s' =
      (SymbolicHardware.warningsStream SymbolicHardware.fresh +:+
       ("You must specifiy an id for " +:+ "hw.b" +:+ ". " +:+
        "This is required by QEMU for saving/restoring snapshots." +:+ endl)) +:+
      ("Failed to create a symbolic device for " +:+ ("hw" +:+ "." +:+ "b") +:+ endl) /\
    Forall2 (fun k d => DeviceDescriptor.create second_bad_cfg ("hw" +:+ "." +:+ k) = Built d)
      ["a"%string] ds /\
    SymbolicHardware.objects s' = SymbolicHardware.objects SymbolicHardware.fresh ++ ds /\
    SymbolicHardware.messagesStream s' =
      (SymbolicHardware.messagesStream SymbolicHardware.fresh +:+
       ("======= Initializing Symbolic Hardware =======" +:+ endl)) +:+ dumps_of ds /\
    SymbolicHardware.connected s' = SymbolicHardware.connected SymbolicHardware.fresh.
Proof.
  apply (initialize_exits_on_first_failure second_bad_cfg "hw" ["a"%string] "b" ["c"%string]).
  - vm_compute. reflexivity.
  - repeat constructor.
  - vm_compute. reflexivity.
Defined.

Lemma initialize_loop_Returned_built cfg configKey keys s s' :
  SymbolicHardware.initialize_loop cfg configKey keys s = SymbolicHardware.Returned s' ->
  Forall (fun it => is_built (DeviceDescriptor.create cfg (configKey +:+ "." +:+ it)) = true) keys.
Proof.
  revert s. induction keys as [|it rest IH]; intros s H; [constructor|].
  simpl in H.
  destruct (DeviceDescriptor.create cfg (configKey +:+ "." +:+ it)) as [d| |] eqn:Hd;
    try discriminate.
  constructor; [rewrite Hd; reflexivity|]. apply (IH _ H).
Qed.

(** A start-up over a device list that is not empty and that returns has
    built one descriptor per entry, in the order of the list, has written
    the banner and then the dump of each descriptor to the messages stream,
    nothing to the warnings stream, and has connected the plugin to the
    registration event once. *)
Theorem initialize_success_effects cfg configKey keys s s' :
  ConfigFile.getListKeys cfg configKey = (keys, true) ->
  keys <> [] ->
  SymbolicHardware.initialize cfg configKey s = SymbolicHardware.Returned s' ->
  exists ds,
    Forall2 (fun k d => DeviceDescriptor.create cfg (configKey +:+ "." +:+ k) = Built d) keys ds /\
    SymbolicHardware.objects s' = SymbolicHardware.objects s ++ ds /\
    SymbolicHardware.messagesStream s' =
      (SymbolicHardware.messagesStream s +:+
       ("======= Initializing Symbolic Hardware =======" +:+ endl)) +:+ dumps_of ds /\
    SymbolicHardware.warningsStream s' = SymbolicHardware.warningsStream s /\
    SymbolicHardware.connected s' = S (SymbolicHardware.connected s).
Proof.
  intros Hkeys Hne H.
  unfold SymbolicHardware.initialize in H. rewrite Hkeys in H. simpl in H.
  rewrite bool_decide_eq_false_2 in H by exact Hne.
  set (s0 := SymbolicHardware.write_messages
               ("======= Initializing Symbolic Hardware =======" +:+ endl) s) in *.
  destruct (SymbolicHardware.initialize_loop cfg configKey keys s0) as [s1| |] eqn:Hl;
    try discriminate.
  inversion H; subst s'. clear H.
  destruct (built_entries _ _ _ (initialize_loop_Returned_built _ _ _ _ _ Hl)) as [ds Hds].
  exists ds. split; [exact Hds|].
  rewrite <- (app_nil_r keys) in Hl.
  rewrite (initialize_loop_app _ _ _ _ _ _ Hds) in Hl. simpl in Hl.
  inversion Hl; subst s1. clear Hl.
  destruct (turns_streams ds s0) as (Ho & Hm & Hw & Hc).
  simpl. rewrite Ho, Hm, Hw, Hc. repeat split; reflexivity.
Qed.

Lemma initialize_success_effects_witness :
  exists ds,
    Forall2 (fun k d => DeviceDescriptor.create dup_cfg ("hw" +:+ "." +:+ k) = Built d)
      ["a"; "b"]%string ds /\
    SymbolicHardware.objects dup_state = SymbolicHardware.objects SymbolicHardware.fresh ++ ds /\
    SymbolicHardware.messagesStream dup_state =
      (SymbolicHardware.messagesStream SymbolicHardware.fresh +:+
       ("======= Initializing Symbolic Hardware =======" +:+ endl)) +:+ dumps_of ds /\
    SymbolicHardware.warningsStream dup_state
      = SymbolicHardware.warningsStream SymbolicHardware.fresh /\
    SymbolicHardware.connected dup_state = S (SymbolicHardware.connected SymbolicHardware.fresh).
Proof.
  apply (initialize_success_effects dup_cfg "hw" ["a"; "b"]%string SymbolicHardware.fresh dup_state).
  - vm_compute. reflexivity.
  - discriminate.
  - vm_compute. reflexivity.
Defined.

(** ** The registry after start-up *)

Lemma ordered_NoDup m l : ordered m l -> NoDup (map (id_at m) l).
Proof.
  induction 1 as [|z l Hs IH Hall]; simpl; constructor; [|exact IH].
  intros Hin. apply list_elem_of_fmap in Hin. destruct Hin as (y & Hy & Hin).
  rewrite Forall_forall in Hall. specialize (Hall y Hin).
  rewrite Hy, ltb_irrefl in Hall. discriminate.
Qed.

(** After a start-up of a fresh plugin that returns: every element of the
    registry points to a stored ISA or PCI descriptor with an id that is
    not empty; no two elements have the same id; and every descriptor that
    was built is represented in the registry by a descriptor with its id
    that was built no later. *)
Theorem registry_after_startup cfg configKey s :
  SymbolicHardware.initialize cfg configKey SymbolicHardware.fresh
    = SymbolicHardware.Returned s ->
  Forall (fun p => exists d,
            SymbolicHardware.objects s !! p = Some d /\
            DeviceDescriptor.getId d <> EmptyString /\
            forall id, d <> DeviceDescriptor.Base id)
         (SymbolicHardware.m_devices s) /\
  NoDup (map (id_at (SymbolicHardware.objects s)) (SymbolicHardware.m_devices s)) /\
  (forall q d, SymbolicHardware.objects s !! q = Some d ->
     exists p, p ∈ SymbolicHardware.m_devices s /\
               id_at (SymbolicHardware.objects s) p = DeviceDescriptor.getId d /\
               (p <= q)%nat).
Proof.
  intros H. pose proof (initialize_ok _ _ _ _ H fresh_ok) as [Hord Hlt].
  unfold SymbolicHardware.initialize in H.
  destruct (ConfigFile.getListKeys cfg configKey) as [keys ok].
  destruct (negb ok || bool_decide (keys = [])).
  { inversion H; subst s. simpl. split; [constructor|]. split; [constructor|].
    intros q d Hq. rewrite lookup_nil in Hq. discriminate. }
  destruct (SymbolicHardware.initialize_loop cfg configKey keys _) as [s1| |] eqn:Hl;
    try discriminate.
  inversion H; subst s. clear H. simpl in *.
  apply initialize_loop_Returned in Hl; [|split; constructor].
  destruct Hl as (_ & (ds & Hds & Hobj) & _ & _ & _ & Hrep). simpl in Hobj, Hrep.
  split; [|split].
  - rewrite Forall_forall in *. intros p Hp. specialize (Hlt p Hp).
    destruct (lookup_lt_is_Some_2 _ _ Hlt) as [d Hd]. exists d. split; [exact Hd|].
    rewrite Hobj in Hd.
    destruct (Forall2_lookup_r _ _ _ _ _ Hds Hd) as (k & _ & Hb).
    apply (factory_Built_not_base _ _ _ Hb).
  - apply ordered_NoDup. exact Hord.
  - intros q d Hq. destruct (Hrep q) as (p & Hp & Hid & Hle).
    { split; [lia|]. apply lookup_lt_Some in Hq. exact Hq. }
    exists p. split; [exact Hp|]. split; [|exact Hle].
    rewrite Hid. unfold id_at, DeviceDescriptors.deref. rewrite Hq. reflexivity.
Qed.

Lemma registry_after_startup_witness :
  Forall (fun p => exists d,
            SymbolicHardware.objects dup_state !! p = Some d /\
            DeviceDescriptor.getId d <> EmptyString /\
            forall id, d <> DeviceDescriptor.Base id)
         (SymbolicHardware.m_devices dup_state) /\
  NoDup (map (id_at (SymbolicHardware.objects dup_state)) (SymbolicHardware.m_devices dup_state)) /\
  (forall q d, SymbolicHardware.objects dup_state !! q = Some d ->
     exists p, p ∈ SymbolicHardware.m_devices dup_state /\
               id_at (SymbolicHardware.objects dup_state) p = DeviceDescriptor.getId d /\
               (p <= q)%nat).
Proof.
  apply (registry_after_startup dup_cfg "hw" dup_state).
  vm_compute. reflexivity.
Defined.

(** ** The mapping callback *)

(** For the type flags the init entry point registers a BAR with,
    [pci_symbhw_map] installs the six port handlers over the assigned range
    when the resource is an I/O resource and does nothing at all when it is
    a memory resource; whatever the flags, it never calls
    [cpu_register_physical_memory], the test on
    [PCI_BASE_ADDRESS_SPACE_MEMORY] (zero) being always false. *)
Theorem pci_symbhw_map_never_maps_memory hw s region_num addr size :
  (forall res,
     Traps.pci_symbhw_map hw s region_num addr size (bar_type res) =
       Some (if isIo res then port_handlers addr size Traps.opaque_state else [])) /\
  (forall type, exists calls,
     Traps.pci_symbhw_map hw s region_num addr size type = Some calls /\
     forall a b c, Traps.cpu_register_physical_memory a b c ∉ calls).
Proof.
  split.
  - intros res. unfold Traps.pci_symbhw_map, bar_type.
    destruct (isIo res), (prefetchable res); reflexivity.
  - intros type. unfold Traps.pci_symbhw_map.
    change Host.PCI_BASE_ADDRESS_SPACE_MEMORY with 0. rewrite Z.land_0_r. simpl.
    eexists. split; [reflexivity|].
    intros a b c Hin.
    destruct (negb (Z.land type Host.PCI_BASE_ADDRESS_SPACE_IO =? 0)).
    + repeat (apply elem_of_cons in Hin; destruct Hin as [Hin|Hin]; [discriminate|]).
      inversion Hin.
    + inversion Hin.
Qed.

(** ** The ISA init entry point *)



(** ** The PCI entry points, continued *)

Lemma find_ext m m' l k :
  (forall p, p ∈ k :: l -> id_at m' p = id_at m p) ->
  DeviceDescriptors.find m' l k = DeviceDescriptors.find m l k.
Proof.
  intros Hext. unfold DeviceDescriptors.find.
  assert (Hc : forall p q, p ∈ k :: l -> q ∈ k :: l ->
             DeviceDescriptors.comparator m' p q = DeviceDescriptors.comparator m p q).
  { intros p q Hp Hq. rewrite !comparator_id, (Hext p Hp), (Hext q Hq). reflexivity. }
  clear Hext. induction l as [|y l IH]; [reflexivity|]. simpl.
  rewrite (Hc y k) by (try left; right; left).
  destruct (DeviceDescriptors.comparator m y k).
  - apply IH. intros p q Hp Hq. apply Hc.
    + apply elem_of_cons in Hp. destruct Hp as [->|Hp]; [left|right; right; exact Hp].
    + apply elem_of_cons in Hq. destruct Hq as [->|Hq]; [left|right; right; exact Hq].
  - rewrite (Hc k y) by (try left; right; left). reflexivity.
Qed.

Lemma id_at_insert objs p o o' more q :
  objs !! p = Some o ->
  DeviceDescriptor.getId o' = DeviceDescriptor.getId o ->
  id_at (<[p := o']> objs ++ more) q = id_at (objs ++ more) q.
Proof.
  intros Hp Hid. unfold id_at, DeviceDescriptors.deref.
  destruct (decide (q < length objs)%nat) as [Hq|Hq].
  - rewrite !lookup_app_l by (rewrite ?length_insert; exact Hq).
    destruct (decide (p = q)) as [->|Hne].
    + rewrite list_lookup_insert_eq by exact Hq. rewrite Hp. simpl. exact Hid.
    + rewrite list_lookup_insert_ne by exact Hne. reflexivity.
  - rewrite !lookup_app_r by (rewrite ?length_insert; lia).
    rewrite length_insert. reflexivity.
Qed.

(** Writing to an object without changing its id leaves every lookup as it
    was. *)
Lemma findDevice_set_object hw p o o' name :
  SymbolicHardware.objects hw !! p = Some o ->
  DeviceDescriptor.getId o' = DeviceDescriptor.getId o ->
  SymbolicHardware.findDevice (Bridge.set_object p o' hw) name =
  SymbolicHardware.findDevice hw name.
Proof.
  intros Hp Hid. unfold SymbolicHardware.findDevice, Bridge.set_object.
  cbn [SymbolicHardware.objects SymbolicHardware.m_devices].
  rewrite length_insert. apply find_ext.
  intros q _. apply (id_at_insert _ _ _ _ _ _ Hp Hid).
Qed.

Lemma register_bars_dev_name dev i rs :
  Host.dev_name (Bridge.register_bars dev i rs) = Host.dev_name dev.
Proof.
  revert dev i. induction rs as [|res rs IH]; intros dev i; [reflexivity|].
  simpl. rewrite IH. reflexivity.
Qed.

(** What the init entry point returns when it returns. *)
Lemma pci_symbhw_init_Done io_index hw d status hw' d' :
  Bridge.pci_symbhw_init io_index hw d = Bridge.Done status hw' d' ->
  exists p dd,
    SymbolicHardware.findDevice hw (Host.dev_name (Bridge.dev d)) = Some p /\
    SymbolicHardware.objects hw !! p = Some (DeviceDescriptor.Pci dd) /\
    status = 0 /\
    hw' = Bridge.set_object p
            (DeviceDescriptor.Pci (PciQemuDevice.set_mmio_io_addr io_index dd)) hw /\
    Bridge.desc d' = Some p /\
    Host.dev_name (Bridge.dev d') = Host.dev_name (Bridge.dev d).
Proof.
  unfold Bridge.pci_symbhw_init. intros H.
  destruct (SymbolicHardware.findDevice hw (Host.dev_name (Bridge.dev d))) as [p|] eqn:Hf;
    [|discriminate].
  destruct (SymbolicHardware.objects hw !! p) as [[?|?|dd]|] eqn:Hobj; try discriminate.
  cbn [Host.cpu_register_io_memory] in H. inversion H; subst status hw' d'. clear H.
  exists p, dd.
  split; [reflexivity|]. split; [exact Hobj|]. split; [reflexivity|].
  split; [reflexivity|]. split; [reflexivity|].
  cbn [Bridge.dev Host.dev_name].
  rewrite register_bars_dev_name. reflexivity.
Qed.

Lemma pci_symbhw_init_same_lookups io_index hw d status hw' d' :
  Bridge.pci_symbhw_init io_index hw d = Bridge.Done status hw' d' ->
  forall name, SymbolicHardware.findDevice hw' name = SymbolicHardware.findDevice hw name.
Proof.
  intros H. apply pci_symbhw_init_Done in H.
  destruct H as (p & dd & _ & Hobj & _ & -> & _ & _).
  intros name. apply (findDevice_set_object _ _ _ _ _ Hobj). reflexivity.
Qed.

(** The init entry point writes one member of one object and nothing else
    of the plugin: the descriptor it found gets the handle in
    [mmio_io_addr] and is otherwise as before; every other stored object,
    the registry, both streams and the connections are as before; so the
    id of every stored object and the result of every lookup are
    unchanged. *)
Theorem pci_symbhw_init_keeps_lookups io_index hw d status hw' d' :
  Bridge.pci_symbhw_init io_index hw d = Bridge.Done status hw' d' ->
  exists p dd,
    SymbolicHardware.findDevice hw (Host.dev_name (Bridge.dev d)) = Some p /\
    SymbolicHardware.objects hw !! p = Some (DeviceDescriptor.Pci dd) /\
    SymbolicHardware.objects hw' !! p
      = Some (DeviceDescriptor.Pci (PciQemuDevice.set_mmio_io_addr io_index dd)) /\
    (forall q, q <> p -> SymbolicHardware.objects hw' !! q = SymbolicHardware.objects hw !! q) /\
    length (SymbolicHardware.objects hw') = length (SymbolicHardware.objects hw) /\
    SymbolicHardware.m_devices hw' = SymbolicHardware.m_devices hw /\
    SymbolicHardware.messagesStream hw' = SymbolicHardware.messagesStream hw /\
    SymbolicHardware.warningsStream hw' = SymbolicHardware.warningsStream hw /\
    SymbolicHardware.connected hw' = SymbolicHardware.connected hw /\
    (forall q, id_at (SymbolicHardware.objects hw') q = id_at (SymbolicHardware.objects hw) q) /\
    (forall name, SymbolicHardware.findDevice hw' name = SymbolicHardware.findDevice hw name).
Proof.
  intros H. apply pci_symbhw_init_Done in H.
  destruct H as (p & dd & Hf & Hobj & _ & -> & _ & _).
  exists p, dd. cbn [Bridge.set_object SymbolicHardware.objects SymbolicHardware.m_devices
                     SymbolicHardware.messagesStream SymbolicHardware.warningsStream
                     SymbolicHardware.connected].
  split; [exact Hf|]. split; [exact Hobj|].
  split; [apply list_lookup_insert_eq; apply lookup_lt_Some in Hobj; exact Hobj|].
  split; [intros q Hq; apply list_lookup_insert_ne; congruence|].
  split; [apply length_insert|].
  split; [reflexivity|]. split; [reflexivity|]. split; [reflexivity|]. split; [reflexivity|].
  split.
  - intros q.
    pose proof (id_at_insert (SymbolicHardware.objects hw) p _
                  (DeviceDescriptor.Pci (PciQemuDevice.set_mmio_io_addr io_index dd)) [] q Hobj)
      as Hi.
    rewrite !app_nil_r in Hi. apply Hi. reflexivity.
  - intros name.
    apply (findDevice_set_object hw p _
             (DeviceDescriptor.Pci (PciQemuDevice.set_mmio_io_addr io_index dd)) name Hobj).
    reflexivity.
Qed.

Lemma pci_symbhw_init_keeps_lookups_witness :
  exists p dd,
    SymbolicHardware.findDevice symp0_plugin (Host.dev_name (Bridge.dev symp0_instance)) = Some p /\
    SymbolicHardware.objects symp0_plugin !! p = Some (DeviceDescriptor.Pci dd) /\
    SymbolicHardware.objects (fst symp0_after) !! p
      = Some (DeviceDescriptor.Pci (PciQemuDevice.set_mmio_io_addr 5 dd)) /\
    (forall q, q <> p ->
       SymbolicHardware.objects (fst symp0_after) !! q = SymbolicHardware.objects symp0_plugin !! q) /\
    length (SymbolicHardware.objects (fst symp0_after))
      = length (SymbolicHardware.objects symp0_plugin) /\
    SymbolicHardware.m_devices (fst symp0_after) = SymbolicHardware.m_devices symp0_plugin /\
    SymbolicHardware.messagesStream (fst symp0_after)
      = SymbolicHardware.messagesStream symp0_plugin /\
    SymbolicHardware.warningsStream (fst symp0_after)
      = SymbolicHardware.warningsStream symp0_plugin /\
    SymbolicHardware.connected (fst symp0_after) = SymbolicHardware.connected symp0_plugin /\
    (forall q, id_at (SymbolicHardware.objects (fst symp0_after)) q
               = id_at (SymbolicHardware.objects symp0_plugin) q) /\
    (forall name, SymbolicHardware.findDevice (fst symp0_after) name
                  = SymbolicHardware.findDevice symp0_plugin name).
Proof.
  apply (pci_symbhw_init_keeps_lookups 5 symp0_plugin symp0_instance 0
           (fst symp0_after) (snd symp0_after)).
  vm_compute. reflexivity.
Defined.

Lemma desc_mmio_after_init hw p dd io d :
  SymbolicHardware.objects hw !! p = Some (DeviceDescriptor.Pci dd) ->
  Bridge.desc d = Some p ->
  Traps.desc_mmio_io_addr
    (Bridge.set_object p (DeviceDescriptor.Pci (PciQemuDevice.set_mmio_io_addr io dd)) hw) d
  = Some io.
Proof.
  intros Hobj Hd. unfold Traps.desc_mmio_io_addr. rewrite Hd.
  cbn [Bridge.set_object SymbolicHardware.objects].
  rewrite list_lookup_insert_eq by (apply lookup_lt_Some in Hobj; exact Hobj).
  reflexivity.
Qed.

(** Init followed by uninit of the same instance: the uninit entry point
    returns 0 and unregisters exactly the handle the host returned to the
    init entry point. *)
Theorem pci_init_then_uninit io_index hw d status hw' d' :
  Bridge.pci_symbhw_init io_index hw d = Bridge.Done status hw' d' ->
  Traps.pci_symbhw_uninit hw' d' = Some (0, [Traps.cpu_unregister_io_memory io_index]).
Proof.
  intros H. apply pci_symbhw_init_Done in H.
  destruct H as (p & dd & _ & Hobj & _ & -> & Hd & _).
  unfold Traps.pci_symbhw_uninit. rewrite (desc_mmio_after_init _ _ _ _ _ Hobj Hd).
  reflexivity.
Qed.

Lemma pci_init_then_uninit_witness :
  Traps.pci_symbhw_uninit (fst symp0_after) (snd symp0_after)
    = Some (0, [Traps.cpu_unregister_io_memory 5]).
Proof.
  apply (pci_init_then_uninit 5 symp0_plugin symp0_instance 0).
  vm_compute. reflexivity.
Defined.

(** The handle is kept on the descriptor, which all instances of a device
    type share: when a second instance of the same type is initialised, the
    uninit entry point of the first instance unregisters the handle of the
    second, and the handle of the first is never unregistered. *)
Theorem pci_second_instance_takes_the_handle io1 io2 hw d1 d2 st1 st2 hw1 hw2 d1' d2' :
  Bridge.pci_symbhw_init io1 hw d1 = Bridge.Done st1 hw1 d1' ->
  Host.dev_name (Bridge.dev d2) = Host.dev_name (Bridge.dev d1) ->
  Bridge.pci_symbhw_init io2 hw1 d2 = Bridge.Done st2 hw2 d2' ->
  Traps.pci_symbhw_uninit hw2 d1' = Some (0, [Traps.cpu_unregister_io_memory io2]) /\
  Traps.pci_symbhw_uninit hw2 d2' = Some (0, [Traps.cpu_unregister_io_memory io2]).
Proof.
  intros H1 Hname H2.
  pose proof (pci_symbhw_init_same_lookups _ _ _ _ _ _ H1) as Hsame.
  apply pci_symbhw_init_Done in H1.
  destruct H1 as (p & dd & Hf1 & Hobj & _ & -> & Hd1 & _).
  apply pci_symbhw_init_Done in H2.
  destruct H2 as (p2 & dd2 & Hf2 & Hobj2 & _ & -> & Hd2 & _).
  rewrite Hsame, Hname, Hf1 in Hf2. inversion Hf2; subst p2.
  unfold Traps.pci_symbhw_uninit.
  rewrite (desc_mmio_after_init _ _ _ _ _ Hobj2 Hd1).
  rewrite (desc_mmio_after_init _ _ _ _ _ Hobj2 Hd2).
  split; reflexivity.
Qed.

Lemma pci_second_instance_takes_the_handle_witness :
  Traps.pci_symbhw_uninit (fst symp0_after_second) (snd symp0_after)
    = Some (0, [Traps.cpu_unregister_io_memory 6]) /\
  Traps.pci_symbhw_uninit (fst symp0_after_second) (snd symp0_after_second)
    = Some (0, [Traps.cpu_unregister_io_memory 6]).
Proof.
  apply (pci_second_instance_takes_the_handle 5 6 symp0_plugin symp0_instance symp0_second
           0 0 (fst symp0_after)).
  - vm_compute. reflexivity.
  - reflexivity.
  - vm_compute. reflexivity.
Defined.

(** The three ways the PCI init entry point ends, on a well-formed
    registry: an instance name that is the id of no registered descriptor
    fails [assert(dd)]; a name that is the id of a registered ISA descriptor
    passes the assertion and the descriptor is then used as a PCI
    descriptor, which is undefined; a name that is the id of a registered
    PCI descriptor returns 0 with the instance bound to that descriptor. *)
Theorem pci_symbhw_init_outcomes io_index hw d :
  registry_ok hw ->
  ((forall p, p ∈ SymbolicHardware.m_devices hw ->
              id_at (SymbolicHardware.objects hw) p <> Host.dev_name (Bridge.dev d)) ->
   Bridge.pci_symbhw_init io_index hw d = Bridge.AssertFailed) /\
  (forall p s,
     p ∈ SymbolicHardware.m_devices hw ->
     SymbolicHardware.objects hw !! p = Some (DeviceDescriptor.Isa s) ->
     IsaDeviceDescriptor.m_id s = Host.dev_name (Bridge.dev d) ->
     Bridge.pci_symbhw_init io_index hw d = Bridge.Undefined) /\
  (forall p dd,
     p ∈ SymbolicHardware.m_devices hw ->
     SymbolicHardware.objects hw !! p = Some (DeviceDescriptor.Pci dd) ->
     PciDeviceDescriptor.m_id dd = Host.dev_name (Bridge.dev d) ->
     exists hw' d',
       Bridge.pci_symbhw_init io_index hw d = Bridge.Done 0 hw' d' /\
       Bridge.desc d' = Some p).
Proof.
  intros Hok. split; [|split].
  - intros Hno. unfold Bridge.pci_symbhw_init.
    rewrite (findDevice_None _ _ Hok Hno). reflexivity.
  - intros p s Hin Hobj Hid. unfold Bridge.pci_symbhw_init.
    pose proof (findDevice_elem hw p Hok Hin) as Hf.
    unfold id_at, DeviceDescriptors.deref in Hf. rewrite Hobj in Hf. simpl in Hf.
    rewrite Hid in Hf. rewrite Hf, Hobj. reflexivity.
  - intros p dd Hin Hobj Hid.
    pose proof (findDevice_elem hw p Hok Hin) as Hf.
    unfold id_at, DeviceDescriptors.deref in Hf. rewrite Hobj in Hf. simpl in Hf.
    rewrite Hid in Hf.
    unfold Bridge.pci_symbhw_init. rewrite Hf, Hobj.
    eexists. eexists. split; reflexivity.
Qed.

Lemma dup_state_ok : registry_ok dup_state.
Proof. split; repeat constructor. Qed.

Lemma pci_symbhw_init_outcomes_witness :
  Bridge.pci_symbhw_init 5 dup_state unknown_instance = Bridge.AssertFailed /\
  Bridge.pci_symbhw_init 5 dup_state wrong_bus_instance = Bridge.Undefined /\
  exists hw' d',
    Bridge.pci_symbhw_init 5 symp0_plugin symp0_instance = Bridge.Done 0 hw' d' /\
    Bridge.desc d' = Some 0%nat.
Proof.
  split; [|split].
  - apply (proj1 (pci_symbhw_init_outcomes 5 dup_state unknown_instance dup_state_ok)).
    intros p Hin. vm_compute in Hin. apply list_elem_of_singleton in Hin. subst p.
    vm_compute. discriminate.
  - apply (proj1 (proj2 (pci_symbhw_init_outcomes 5 dup_state wrong_bus_instance dup_state_ok))
             0%nat sym0).
    + vm_compute. constructor.
    + reflexivity.
    + reflexivity.
  - apply (proj2 (proj2 (pci_symbhw_init_outcomes 5 symp0_plugin symp0_instance
                           ltac:(split; repeat constructor)))
             0%nat symp0).
    + vm_compute. constructor.
    + reflexivity.
    + reflexivity.
Defined.

(** ** Destruction *)

(** After the registration of a descriptor the sub-builder returned, its
    destructor deletes the type record, the property array and the schema,
    and leaves the array of schema fields allocated. *)
Theorem pci_destructor_leaves_field_array a h id vid pid classCode revisionId
    interruptPin resources :
  let n := length (Host.heap h) in
  let r := PciQemuDevice.initializeQemuDevice a
             (PciDeviceDescriptor.new id vid pid classCode revisionId interruptPin resources) h in
  Teardown.PciDeviceDescriptor_destructor (fst r) = [n; (n + 1)%nat; (n + 2)%nat] /\
  PciDeviceDescriptor.m_vmStateFields (fst r) = Some (n + 3)%nat /\
  Host.heap (snd r) !! (n + 3)%nat
    = Some (Host.ObjVMStateField [Some (PciQemuDevice.dev_field a); None]) /\
  (n + 3)%nat ∉ Teardown.PciDeviceDescriptor_destructor (fst r).
Proof.
  intros n r. subst r. rewrite initializeQemuDevice_effect. fold n.
  cbn [fst snd Host.heap]. split; [reflexivity|]. split; [reflexivity|]. split.
  - rewrite lookup_app_r by (subst n; lia).
    replace (n + 3 - length (Host.heap h))%nat with 3%nat by (subst n; lia). reflexivity.
  - unfold Teardown.PciDeviceDescriptor_destructor. simpl.
    intros Hin.
    repeat (apply elem_of_cons in Hin; destruct Hin as [Hin|Hin]; [lia|]).
    inversion Hin.
Qed.

(** The plugin's destructor deletes each descriptor of the registry once.
    A descriptor whose insertion was blocked by an earlier entry with the
    same id is stored but is not in the registry: it is never deleted. *)
Theorem destructor_skips_blocked_duplicate cfg configKey keys i j ki kj di dj :
  ConfigFile.getListKeys cfg configKey = (keys, true) ->
  Forall (fun it => is_built (DeviceDescriptor.create cfg (configKey +:+ "." +:+ it)) = true) keys ->
  keys !! i = Some ki -> keys !! j = Some kj -> (i < j)%nat ->
  DeviceDescriptor.create cfg (configKey +:+ "." +:+ ki) = Built di ->
  DeviceDescriptor.create cfg (configKey +:+ "." +:+ kj) = Built dj ->
  DeviceDescriptor.getId di = DeviceDescriptor.getId dj ->
  exists s,
    SymbolicHardware.initialize cfg configKey SymbolicHardware.fresh
      = SymbolicHardware.Returned s /\
    SymbolicHardware.objects s !! j = Some dj /\
    NoDup (Teardown.SymbolicHardware_destructor s) /\
    j ∉ Teardown.SymbolicHardware_destructor s.
Proof.
  intros Hkeys Hall Hi Hj Hij Hdi Hdj Hid.
  set (s0 := SymbolicHardware.write_messages
               ("======= Initializing Symbolic Hardware =======" +:+ endl)
               SymbolicHardware.fresh).
  destruct (initialize_loop_total cfg configKey keys s0 Hall) as [s1 Hloop].
  assert (Hok0 : registry_ok s0) by (split; constructor).
  destruct (initialize_loop_Returned _ _ _ _ _ Hloop Hok0)
    as ((Hord & Hlt) & (ds & Hds & Hobj) & _ & _ & _ & Hrep).
  simpl in Hobj, Hrep.
  exists (SymbolicHardware.connect s1). split.
  { unfold SymbolicHardware.initialize. rewrite Hkeys. simpl.
    rewrite bool_decide_eq_false_2 by (intros ->; discriminate).
    fold s0. rewrite Hloop. reflexivity. }
  destruct (Forall2_lookup_l _ _ _ _ _ Hds Hi) as (di' & Hli & Hbi).
  destruct (Forall2_lookup_l _ _ _ _ _ Hds Hj) as (dj' & Hlj & Hbj).
  rewrite Hdi in Hbi. inversion Hbi; subst di'.
  rewrite Hdj in Hbj. inversion Hbj; subst dj'.
  unfold Teardown.SymbolicHardware_destructor. simpl.
  split; [rewrite Hobj; exact Hlj|]. split.
  { apply (NoDup_fmap_1 (id_at (SymbolicHardware.objects s1))).
    apply ordered_NoDup. exact Hord. }
  intros Hjin.
  destruct (Hrep i) as (p & Hp & Hpid & Hpi).
  { split; [lia|]. rewrite Hobj. apply lookup_lt_Some in Hli. exact Hli. }
  assert (p = j); [|lia].
  apply (ordered_unique _ _ _ _ Hord Hp Hjin).
  rewrite Hpid. unfold id_at, DeviceDescriptors.deref. rewrite Hobj, Hli, Hlj. exact Hid.
Qed.

Lemma destructor_skips_blocked_duplicate_witness :
  exists s,
    SymbolicHardware.initialize dup_cfg "hw" SymbolicHardware.fresh
      = SymbolicHardware.Returned s /\
    SymbolicHardware.objects s !! 1%nat = Some dup_b /\
    NoDup (Teardown.SymbolicHardware_destructor s) /\
    1%nat ∉ Teardown.SymbolicHardware_destructor s.
Proof.
  apply (destructor_skips_blocked_duplicate dup_cfg "hw" ["a"; "b"]%string 0%nat 1%nat "a" "b"
           dup_a dup_b).
  - vm_compute. reflexivity.
  - repeat constructor.
  - reflexivity.
  - reflexivity.
  - lia.
  - vm_compute. reflexivity.
  - vm_compute. reflexivity.
  - reflexivity.
Defined.

(** ** Registering twice *)

(** A second call of [initializeQemuDevice] on the same descriptor hands a
    second record with the same type name to [pci_qdev_register]; that
    record carries as [vmsd] the schema the first call built, not the one
    the second call builds; and the descriptor then owns the four objects of
    the second call only, so its destructor deletes none of the first
    call's. *)
Theorem initializeQemuDevice_twice a h id vid pid classCode revisionId interruptPin resources :
  let n := length (Host.heap h) in
  let r1 := PciQemuDevice.initializeQemuDevice a
              (PciDeviceDescriptor.new id vid pid classCode revisionId interruptPin resources) h in
  let r2 := PciQemuDevice.initializeQemuDevice a (fst r1) (snd r1) in
  Host.pci_qdev_registered (snd r2) = Host.pci_qdev_registered h ++ [n; (n + 4)%nat] /\
  (exists info1 info2,
     Host.heap (snd r2) !! n = Some (Host.ObjPCIDeviceInfo info1) /\
     Host.heap (snd r2) !! (n + 4)%nat = Some (Host.ObjPCIDeviceInfo info2) /\
     Host.name (Host.qdev info1) = id /\ Host.name (Host.qdev info2) = id /\
     Host.vmsd (Host.qdev info2) = Some (n + 2)%nat) /\
  PciDeviceDescriptor.m_vmState (fst r2) = Some (n + 6)%nat /\
  Teardown.PciDeviceDescriptor_destructor (fst r2) = [(n + 4)%nat; (n + 5)%nat; (n + 6)%nat].
Proof.
  intros n r1 r2. subst r2 r1.
  rewrite (initializeQemuDevice_effect a _ h). fold n. cbn [fst snd].
  rewrite initializeQemuDevice_effect. cbn [Host.heap Host.pci_qdev_registered fst snd].
  rewrite length_app. cbn [length]. fold n.
  split; [rewrite <- app_assoc; reflexivity|]. split.
  - eexists. eexists. split; [|split; [|split; [|split]]].
    + rewrite <- app_assoc. rewrite lookup_app_r by (subst n; lia).
      subst n. rewrite Nat.sub_diag. reflexivity.
    + rewrite lookup_app_r by (rewrite length_app; cbn [length]; subst n; lia).
      rewrite length_app. cbn [length].
      replace (n + 4 - (length (Host.heap h) + 4))%nat with 0%nat by (subst n; lia).
      reflexivity.
    + reflexivity.
    + reflexivity.
    + reflexivity.
  - split.
    + cbn [PciDeviceDescriptor.m_vmState PciQemuDevice.set_m_pciInfo
           PciQemuDevice.set_m_pciInfoProperties PciQemuDevice.set_m_vmState
           PciQemuDevice.set_m_vmStateFields].
      f_equal. lia.
    + unfold Teardown.PciDeviceDescriptor_destructor.
      cbn [PciDeviceDescriptor.m_pciInfo PciDeviceDescriptor.m_pciInfoProperties
           PciDeviceDescriptor.m_vmState PciQemuDevice.set_m_pciInfo
           PciQemuDevice.set_m_pciInfoProperties PciQemuDevice.set_m_vmState
           PciQemuDevice.set_m_vmStateFields app].
      replace (n + 4 + 1)%nat with (n + 5)%nat by lia.
      replace (n + 4 + 2)%nat with (n + 6)%nat by lia.
      reflexivity.
Qed.

(** ** The BARs of a configured device *)

(** For a descriptor the PCI sub-builder returned, the init entry point of
    an instance without BARs registers one BAR per configured resource,
    between one and six in all; the BAR of the resource at position [k] has
    index [k], the size of the resource, the type flags derived from its
    two booleans, and [pci_symbhw_map] as its callback. *)
Theorem pci_init_registers_configured_bars cfg key io_index hw d p dd :
  PciDeviceDescriptor.create cfg key = Built dd ->
  SymbolicHardware.findDevice hw (Host.dev_name (Bridge.dev d)) = Some p ->
  SymbolicHardware.objects hw !! p = Some (DeviceDescriptor.Pci dd) ->
  Host.io_regions (Bridge.dev d) = [] ->
  exists hw' d',
    Bridge.pci_symbhw_init io_index hw d = Bridge.Done 0 hw' d' /\
    length (Host.io_regions (Bridge.dev d')) = length (PciDeviceDescriptor.m_resources dd) /\
    (1 <= length (Host.io_regions (Bridge.dev d')) <= 6)%nat /\
    forall k res,
      PciDeviceDescriptor.m_resources dd !! k = Some res ->
      Host.io_regions (Bridge.dev d') !! k =
        Some {| Host.region_num := k; Host.region_size := size res;
                Host.region_type := bar_type res;
                Host.map_func := Host.addr_pci_symbhw_map |}.
Proof.
  intros Hc Hf Hobj Hnil.
  destruct (pci_symbhw_init_effect io_index hw d p dd Hf Hobj)
    as (hw' & d' & Hdone & _ & _ & _ & Hreg & _).
  exists hw', d'. split; [exact Hdone|].
  rewrite Hreg, Hnil. cbn [app]. rewrite length_imap.
  split; [reflexivity|]. split.
  - apply pci_create_Built in Hc.
    destruct Hc as (id & vid & pid & cc & rev & pin & ks & rs & _ & _ & _ & _ & _ & _ &
                    _ & _ & _ & Hne & Hrs & Hlen & ->).
    simpl. apply read_resources_length in Hrs. simpl in Hrs.
    destruct ks; [congruence|]. simpl in Hrs. lia.
  - intros k res Hk. rewrite list_lookup_imap, Hk. reflexivity.
Qed.

Lemma pci_init_registers_configured_bars_witness :
  exists hw' d',
    Bridge.pci_symbhw_init 5 symp0_plugin symp0_instance = Bridge.Done 0 hw' d' /\
    length (Host.io_regions (Bridge.dev d')) = length (PciDeviceDescriptor.m_resources symp0) /\
    (1 <= length (Host.io_regions (Bridge.dev d')) <= 6)%nat /\
    forall k res,
      PciDeviceDescriptor.m_resources symp0 !! k = Some res ->
      Host.io_regions (Bridge.dev d') !! k =
        Some {| Host.region_num := k; Host.region_size := size res;
                Host.region_type := bar_type res;
                Host.map_func := Host.addr_pci_symbhw_map |}.
Proof.
  apply (pci_init_registers_configured_bars (pci_cfg 0x0200 1 ["r0"%string]) "hw.dev" 5
           symp0_plugin symp0_instance 0%nat symp0).
  - vm_compute. reflexivity.
  - vm_compute. reflexivity.
  - reflexivity.
  - reflexivity.
Defined.

(** ** The index in the PCI dump *)

(** The dump of a PCI descriptor writes every resource, whatever its
    position, after the index 0: the counter of the loop is never
    advanced. *)
Theorem pci_print_index_is_always_0 d res :
  res ∈ PciDeviceDescriptor.m_resources d ->
  contains ("R[0]: " +:+ resource_line res) (PciDeviceDescriptor.print d) = true.
Proof.
  intros Hin. apply list_elem_of_split in Hin. destruct Hin as (l1 & l2 & Hl).
  apply (contains_intro
           ("PCI Device Descriptor id=" +:+ PciDeviceDescriptor.m_id d +:+ endl +:+
            "VID=0x" +:+ hex (PciDeviceDescriptor.m_vid d) +:+
            " PID=0x" +:+ hex (PciDeviceDescriptor.m_pid d) +:+
            " RevID=0x" +:+ hex (PciDeviceDescriptor.m_revisionId d) +:+ endl +:+
            "Class=0x" +:+ hex (PciDeviceDescriptor.m_classCode d) +:+
            " INT=0x" +:+ hex (PciDeviceDescriptor.m_interruptPin d) +:+ endl +:+
            PciDeviceDescriptor.print_resources 0 l1)
           _ (PciDeviceDescriptor.print_resources 0 l2 +:+ endl)).
  unfold PciDeviceDescriptor.print. rewrite Hl, print_resources_app.
  simpl. unfold resource_line. rewrite ?append_assoc. reflexivity.
Qed.

Lemma pci_print_index_is_always_0_witness :
  contains ("R[0]: " +:+ resource_line prefetchable_0x2000)
    (PciDeviceDescriptor.print symp_io) = true.
Proof.
  apply (pci_print_index_is_always_0 symp_io prefetchable_0x2000).
  right. left.
Defined.

(** ** Built entries are found *)

Lemma findDevice_of_built_witness :
  exists p d',
    SymbolicHardware.findDevice dup_state (DeviceDescriptor.getId dup_b) = Some p /\
    (p <= 1)%nat /\
    SymbolicHardware.objects dup_state !! p = Some d' /\
    DeviceDescriptor.getId d' = DeviceDescriptor.getId dup_b.
Proof.
  apply (findDevice_of_built dup_cfg "hw" ["a"; "b"]%string dup_state 1%nat "b" dup_b).
  - vm_compute. reflexivity.
  - vm_compute. reflexivity.
  - reflexivity.
  - vm_compute. reflexivity.
Defined.
